(** * publish.py: the workshop publishing script, embedded and verified

    The script turns a tree of notebooks and markdown documents into a
    static site.  This development embeds its functions as Rocq
    definitions that keep the names of [src/publish.py] and states the
    properties of the specification over them.

    Conventions of the embedding:
    - a Python [str] is a [string]; the text is the UTF-8 encoding, so the
      characters the code inspects (newline, [#], space, [/], [.]) are
      single characters of the model as well;
    - a value loaded from JSON or YAML is a [json]; a Python [dict] is an
      association list in insertion order;
    - an uncaught Python exception is the outcome [Raise], [sys.exit] is
      the outcome [Exit];
    - the file system is a finite map from paths to nodes, threaded through
      the functions that touch it; [print] contributes lines to the
      standard output a computation returns;
    - library calls whose result the script only passes on ([glob],
      [json.load] and [json.dump], [yaml.safe_load], [markdown.markdown],
      [re.findall] with the file-reference patterns, the external
      thumbnail tools) are parameters of a [Section]. *)

From Stdlib Require Import ZArith List Ascii String Bool Lia.
From Stdlib Require Import DecimalString.
From Stdlib Require Import Sorting.Sorted Sorting.Permutation.
From stdpp Require Import base option list sorting strings gmap fin_maps.

Local Open Scope string_scope.
Local Open Scope list_scope.
Local Open Scope nat_scope.

(** ** Python's [str] operations used by the script *)

Module Py.

Definition newline : ascii := ascii_of_nat 10.
Definition nl : string := String newline "".
Definition dquote : string := String (ascii_of_nat 34) "".

(** [s.split(sep)] for a one-character separator: the pieces between its
    occurrences; always at least one. *)
Fixpoint split_on (sep : ascii) (s : string) : list string :=
  match s with
  | "" => [""]
  | String c rest =>
      if Ascii.eqb c sep then "" :: split_on sep rest
      else match split_on sep rest with
           | l :: ls => String c l :: ls
           | [] => [String c ""]
           end
  end.

(** [s.split('\n')]. *)
Abbreviation split_lines := (split_on newline).

(** [sep.join(l)]. *)
Definition join (sep : string) (l : list string) : string := String.concat sep l.

(** [s.startswith(p)]. *)
Definition startswith (p s : string) : bool := String.prefix p s.

(** The text after the first [n] characters, [s[n:]]. *)
Fixpoint drop_chars (n : nat) (s : string) : string :=
  match n, s with
  | O, _ => s
  | S k, String _ rest => drop_chars k rest
  | S _, "" => ""
  end.

(** [s.replace(old, new)] for a non-empty [old]: left to right, without
    overlap.  [skip] counts the characters of a match still to pass. *)
Fixpoint replace_aux (old new : string) (skip : nat) (s : string) : string :=
  match s with
  | "" => ""
  | String c rest =>
      match skip with
      | S k => replace_aux old new k rest
      | O =>
          if String.prefix old s
          then new +:+ replace_aux old new (String.length old - 1) rest
          else String c (replace_aux old new 0 rest)
      end
  end.

Definition replace (old new s : string) : string :=
  if String.eqb old "" then s else replace_aux old new 0 s.

(** ASCII classification.  Python's [str.strip], [str.split], [str.lower],
    [\w] and [\s] also know the non-ASCII code points; the model applies
    them to the ASCII range and leaves every other character as it is
    (kept by [\w], not a space, its own lower case). *)
Definition is_space (c : ascii) : bool :=
  let n := nat_of_ascii c in
  (((9 <=? n) && (n <=? 13)) || ((28 <=? n) && (n <=? 32)))%nat.

Definition is_word (c : ascii) : bool :=
  let n := nat_of_ascii c in
  (((48 <=? n) && (n <=? 57)) || ((65 <=? n) && (n <=? 90))
   || ((97 <=? n) && (n <=? 122)) || (n =? 95) || (128 <=? n))%nat.

Definition lower_char (c : ascii) : ascii :=
  let n := nat_of_ascii c in
  if ((65 <=? n) && (n <=? 90))%nat then ascii_of_nat (n + 32) else c.

Fixpoint lower (s : string) : string :=
  match s with
  | "" => ""
  | String c rest => String (lower_char c) (lower rest)
  end.

Fixpoint filter_chars (p : ascii -> bool) (s : string) : string :=
  match s with
  | "" => ""
  | String c rest => if p c then String c (filter_chars p rest) else filter_chars p rest
  end.

Fixpoint lstrip (s : string) : string :=
  match s with
  | String c rest => if is_space c then lstrip rest else s
  | "" => ""
  end.

Definition strip (s : string) : string :=
  String.rev (lstrip (String.rev (lstrip s))).

(** [s.split()]: the maximal runs of non-space characters. *)
Fixpoint split_ws_aux (cur : string) (s : string) : list string :=
  match s with
  | "" => if String.eqb cur "" then [] else [String.rev cur]
  | String c rest =>
      if is_space c
      then (if String.eqb cur "" then [] else [String.rev cur]) ++ split_ws_aux "" rest
      else split_ws_aux (String c cur) rest
  end.

Definition split_ws (s : string) : list string := split_ws_aux "" s.

End Py.

(** ** Values and outcomes *)

(** What [json.load] and [yaml.safe_load] build: [None], booleans,
    integers, strings, lists and dicts.  A dict keeps its keys in insertion
    order, as Python does, and holds a key once. *)
#[warnings="-register-all"]
Inductive json : Type :=
| JNull
| JBool (b : bool)
| JNum (z : Z)
| JStr (s : string)
| JList (l : list json)
| JDict (d : list (string * json)).

(** How a computation ends: it returns, it calls [sys.exit(code)], or an
    exception propagates to the top (the interpreter then prints the
    traceback and exits with status 1). *)
Inductive result (A : Type) : Type :=
| Ret (a : A)
| Exit (code : Z)
| Raise (exn : string).
Arguments Ret {A} a.
Arguments Exit {A} code.
Arguments Raise {A} exn.

#[global] Instance result_ret : MRet result := fun A a => Ret a.
#[global] Instance result_bind : MBind result := fun A B f m =>
  match m with
  | Ret a => f a
  | Exit c => Exit c
  | Raise e => Raise e
  end.

(** The status the operating system sees. *)
Definition exit_status {A} (r : result A) : Z :=
  match r with
  | Ret _ => 0
  | Exit c => c
  | Raise _ => 1
  end.

Module Dict.

(** [d.get(k)] on the association list. *)
Fixpoint lookup (k : string) (d : list (string * json)) : option json :=
  match d with
  | [] => None
  | (k', v) :: rest => if String.eqb k k' then Some v else lookup k rest
  end.

(** [d[k] = v]: an existing key keeps its place, a new key goes last. *)
Fixpoint set (k : string) (v : json) (d : list (string * json)) : list (string * json) :=
  match d with
  | [] => [(k, v)]
  | (k', v') :: rest =>
      if String.eqb k k' then (k, v) :: rest else (k', v') :: set k v rest
  end.

Definition mem (k : string) (d : list (string * json)) : bool :=
  match lookup k d with Some _ => true | None => false end.

End Dict.

(** Truth value of a Python object in [if x] and [not x]. *)
Definition truthy (j : json) : bool :=
  match j with
  | JNull => false
  | JBool b => b
  | JNum z => negb (z =? 0)%Z
  | JStr s => negb (String.eqb s "")
  | JList l => match l with [] => false | _ => true end
  | JDict d => match d with [] => false | _ => true end
  end.

(** [x.get(k, default)]: only a dict has [get]. *)
Definition py_get (x : json) (k : string) (dflt : json) : result json :=
  match x with
  | JDict d => Ret (default dflt (Dict.lookup k d))
  | _ => Raise "AttributeError"
  end.

(** ** [pathlib] paths *)

(** A [PurePosixPath]: the root ([""], ["/"] or ["//"]) and the components
    after it.  [Path(s)] drops empty components and ["."]; it keeps [".."]. *)
Record Path : Type := MkPath { root : string; parts : list string }.

#[global] Instance Path_eq_dec : EqDecision Path.
Proof. solve_decision. Defined.

#[global] Instance Path_countable : Countable Path.
Proof.
  refine (inj_countable' (fun p => (root p, parts p))
                         (fun x => MkPath x.1 x.2) _).
  intros []; reflexivity.
Defined.

Module PurePath.

Definition slash : ascii := ascii_of_nat 47.
Definition dot : ascii := ascii_of_nat 46.

(** [s.split('/')]. *)
Abbreviation split_slash := (Py.split_on slash).

Fixpoint lstrip_slash (s : string) : string :=
  match s with
  | String c rest => if Ascii.eqb c slash then lstrip_slash rest else s
  | "" => ""
  end.

(** [splitroot]: exactly two leading slashes make the root ["//"], any
    other positive number the root ["/"]. *)
Definition splitroot (s : string) : string * string :=
  let stripped := lstrip_slash s in
  let n := (String.length s - String.length stripped)%nat in
  if (n =? 0)%nat then ("", s)
  else if (n =? 2)%nat then ("//", stripped)
  else ("/", stripped).

Definition keep_part (x : string) : bool :=
  negb (String.eqb x "") && negb (String.eqb x ".").

(** [Path(s)]. *)
Definition of_string (s : string) : Path :=
  let '(r, rel) := splitroot s in
  MkPath r (List.filter keep_part (split_slash rel)).

(** [str(p)]. *)
Definition to_string (p : Path) : string :=
  match root p, parts p with
  | "", [] => "."
  | r, ps => r +:+ Py.join "/" ps
  end.

(** [p / q] for a path [q]: an absolute [q] replaces [p]. *)
Definition joinpath (p q : Path) : Path :=
  if String.eqb (root q) "" then MkPath (root p) (parts p ++ parts q) else q.

(** [p / s] for a string [s]. *)
Definition join (p : Path) (s : string) : Path := joinpath p (of_string s).

(** [p.parent]: a path without components is its own parent. *)
Definition parent (p : Path) : Path :=
  MkPath (root p) (removelast (parts p)).

(** [p.name]: the last component, [""] when there is none. *)
Definition name (p : Path) : string := List.last (parts p) "".

(** Index of the last [.] of [s], as [s.rfind('.')] counts it. *)
Fixpoint rfind_dot (s : string) : option nat :=
  match s with
  | "" => None
  | String c rest =>
      match rfind_dot rest with
      | Some i => Some (S i)
      | None => if Ascii.eqb c dot then Some O else None
      end
  end.

(** [p.stem]: the name without its last suffix; a leading or a trailing
    dot is no suffix separator. *)
Definition stem (p : Path) : string :=
  let n := name p in
  match rfind_dot n with
  | Some i =>
      if ((0 <? i) && (i <? String.length n - 1))%nat then String.substring 0 i n else n
  | None => n
  end.

(** Whether [ps] starts with [pre]; the rest when it does. *)
Fixpoint strip_prefix (pre ps : list string) : option (list string) :=
  match pre, ps with
  | [], _ => Some ps
  | x :: pre', y :: ps' => if String.eqb x y then strip_prefix pre' ps' else None
  | _ :: _, [] => None
  end.

(** [p.relative_to(base)]: [None] stands for the [ValueError] raised when
    [p] does not start with [base]. *)
Definition relative_to (p base : Path) : option Path :=
  if String.eqb (root p) (root base)
  then match strip_prefix (parts base) (parts p) with
       | Some rest => Some (MkPath "" rest)
       | None => None
       end
  else None.

(** [p] is [base] or lies below it. *)
Definition is_under (base p : Path) : bool :=
  match relative_to p base with Some _ => true | None => false end.

End PurePath.

(** ** The file system and the effects of a run *)

(** A node is a directory, a text file, or a zip archive whose members
    record the name they are stored under, the file they were read from and
    what that file was. *)
#[warnings="-register-all"]
Inductive node : Type :=
| Dir
| File (text : string)
| Archive (members : list (string * Path * node)).

Abbreviation FS := (gmap Path node).

(** A computation reads and changes the file system, prints lines, and
    ends as a [result]. *)
Definition M (A : Type) : Type := FS -> result A * FS * list string.

#[global] Instance M_ret : MRet M := fun A a fs => (Ret a, fs, []).
#[global] Instance M_bind : MBind M := fun A B f m fs =>
  match m fs with
  | (Ret a, fs1, out1) =>
      let '(r, fs2, out2) := f a fs1 in (r, fs2, out1 ++ out2)
  | (Exit c, fs1, out1) => (Exit c, fs1, out1)
  | (Raise e, fs1, out1) => (Raise e, fs1, out1)
  end.

Definition outcome {A} (x : result A * FS * list string) : result A := x.1.1.
Definition final_fs {A} (x : result A * FS * list string) : FS := x.1.2.
Definition stdout {A} (x : result A * FS * list string) : list string := x.2.

Module IO.

(** [print(line)]. *)
Definition print (line : string) : M unit := fun fs => (Ret tt, fs, [line]).

(** [sys.exit(code)], an uncaught exception, a pure step that may raise. *)
Definition exit {A} (code : Z) : M A := fun fs => (Exit code, fs, []).
Definition raise {A} (exn : string) : M A := fun fs => (Raise exn, fs, []).
Definition lift {A} (r : result A) : M A := fun fs => (r, fs, []).

(** [p.exists()]: [p] is a node, or something lies below it. *)
Definition path_exists (fs : FS) (p : Path) : bool :=
  bool_decide (map_Exists (fun k _ => PurePath.is_under p k = true) fs).

Definition exists_ (p : Path) : M bool := fun fs => (Ret (path_exists fs p), fs, []).

(** [open(p).read()]. *)
Definition read_text (p : Path) : M string := fun fs =>
  match fs !! p with
  | Some (File text) => (Ret text, fs, [])
  | Some Dir => (Raise "IsADirectoryError", fs, [])
  | Some (Archive _) => (Raise "UnicodeDecodeError", fs, [])
  | None => (Raise "FileNotFoundError", fs, [])
  end.

(** Creating or truncating the file [p]: its directory has to exist and [p]
    must not be a directory. *)
Definition create (p : Path) (n : node) : M unit := fun fs =>
  if negb (path_exists fs (PurePath.parent p)) then (Raise "FileNotFoundError", fs, [])
  else match fs !! p with
       | Some Dir => (Raise "IsADirectoryError", fs, [])
       | _ => (Ret tt, <[p := n]> fs, [])
       end.

(** [open(p, 'w').write(text)]. *)
Definition write_text (p : Path) (text : string) : M unit := create p (File text).

(** [p.mkdir(exist_ok=True)]. *)
Definition mkdir (p : Path) : M unit := fun fs =>
  if path_exists fs p then
    match fs !! p with
    | Some (File _) | Some (Archive _) => (Raise "FileExistsError", fs, [])
    | _ => (Ret tt, fs, [])
    end
  else if negb (path_exists fs (PurePath.parent p)) then (Raise "FileNotFoundError", fs, [])
  else (Ret tt, <[p := Dir]> fs, []).

(** The paths from the first component of [p] down to [p] itself. *)
Definition ancestors_and_self (p : Path) : list Path :=
  List.map (fun n => MkPath (root p) (take n (parts p))) (seq 1 (List.length (parts p))).

(** [p.mkdir(parents=True, exist_ok=True)]: every missing directory on the
    way is created; a file in the way is an error. *)
Fixpoint mkdir_chain (ps : list Path) : M unit :=
  match ps with
  | [] => mret tt
  | p :: rest => fun fs =>
      match fs !! p with
      | Some (File _) | Some (Archive _) => (Raise "FileExistsError", fs, [])
      | _ => mkdir_chain rest (if path_exists fs p then fs else <[p := Dir]> fs)
      end
  end.

Definition mkdir_parents (p : Path) : M unit := mkdir_chain (ancestors_and_self p).

(** [shutil.copy2(src, dst)] for a [dst] that is not a directory. *)
Definition copy2 (src dst : Path) : M unit := fun fs =>
  match fs !! src with
  | Some Dir => (Raise "IsADirectoryError", fs, [])
  | Some n => create dst n fs
  | None => (Raise "FileNotFoundError", fs, [])
  end.

(** [shutil.move(src, dst)] of a file within one directory. *)
Definition move (src dst : Path) : M unit := fun fs =>
  match fs !! src with
  | Some n => (Ret tt, <[dst := n]> (delete src fs), [])
  | None => (Raise "FileNotFoundError", fs, [])
  end.

(** [shutil.rmtree(p)]: [p] and everything below it goes. *)
Definition rmtree (p : Path) : M unit := fun fs =>
  match fs !! p with
  | Some (File _) | Some (Archive _) => (Raise "NotADirectoryError", fs, [])
  | _ => (Ret tt, filter (fun kv => PurePath.is_under p kv.1 = false) fs, [])
  end.

End IO.

(** ** Table of contents (publish.py, lines 42-62) *)

(** The characters before the next occurrence of [sep]. *)
Fixpoint head_until (sep : ascii) (s : string) : string :=
  match s with
  | "" => ""
  | String c rest => if Ascii.eqb c sep then "" else String c (head_until sep rest)
  end.

(** The rest of the current line: the characters before the next newline. *)
Abbreviation line_head := (head_until Py.newline).

(** One attempt of the pattern [^## (.+)$] at a position where [^] holds:
    the literal ["## "], then [.+] takes every character up to the end of
    the line (greedy; [.] does not match a newline) and needs at least one.
    Where the run stops the text ends or a newline follows, so [$] holds
    there and nothing is given back.  The result is group 1. *)
Definition match_h2 (s : string) : option string :=
  if String.prefix "## " s then
    let hdr := line_head (Py.drop_chars 3 s) in
    if String.eqb hdr "" then None else Some hdr
  else None.

(** With [re.MULTILINE], [^] holds at the start of the text and right after
    a newline.  [prev] is the character before the position. *)
Definition at_line_start (prev : option ascii) : bool :=
  match prev with
  | None => true
  | Some c => Ascii.eqb c Py.newline
  end.

(** [re.findall(r'^## (.+)$', s, re.MULTILINE)]: the positions are tried
    from left to right; after a match the scan goes on where the match
    ended, which [skip] counts down to. *)
Fixpoint findall_h2 (prev : option ascii) (skip : nat) (s : string) : list string :=
  match s with
  | "" => []
  | String c rest =>
      match skip with
      | S k => findall_h2 (Some c) k rest
      | O =>
          match (if at_line_start prev then match_h2 s else None) with
          | Some hdr => hdr :: findall_h2 (Some c) (3 + String.length hdr - 1) rest
          | None => findall_h2 (Some c) 0 rest
          end
      end
  end.

(** [re.sub(r'[^\w\s-]', '', header).strip().lower().replace(' ', '-')],
    with the character classes of [Py]: for a header of ASCII characters
    this is the anchor Python computes. *)
Definition anchor_of (header : string) : string :=
  let kept := Py.filter_chars
                (fun c => Py.is_word c || Py.is_space c || Ascii.eqb c (ascii_of_nat 45))
                header in
  Py.replace " " "-" (Py.lower (Py.strip kept)).

(** One line of the table: [f"- [{header}](#{anchor})"]. *)
Definition toc_entry (header : string) : string :=
  "- [" +:+ header +:+ "](#" +:+ anchor_of header +:+ ")".

Definition generate_toc_from_markdown (markdown_content : string)
    (has_useful_links : bool) : string :=
  let headers := findall_h2 None 0 markdown_content in
  let headers := if has_useful_links then "Useful Links" :: headers else headers in
  match headers with
  | [] => ""
  | _ =>
      let toc_lines := ("## Table of Contents" +:+ Py.nl) :: List.map toc_entry headers in
      Py.join Py.nl toc_lines +:+ Py.nl
  end.

(** *** What the specification calls the second-level headings of a body *)

(** A line is a second-level heading when it starts with ["## "] and goes
    on after it; its text is what follows the marker. *)
Definition h2_of_line (line : string) : option string :=
  if String.prefix "## " line && (3 <? String.length line)
  then Some (Py.drop_chars 3 line) else None.

(** The second-level headings of a body, in the order of its lines. *)
Definition h2_headings (body : string) : list string :=
  omap h2_of_line (Py.split_lines body).

(** The entries of a table of contents: its lines that start a list item. *)
Definition toc_entries (toc : string) : list string :=
  List.filter (String.prefix "- [") (Py.split_lines toc).

(** ** Library calls taken as parameters *)

(** How a call of an external program through [subprocess.run] ends: the
    program is not installed (the call raises, the bare [except] swallows
    it), it returns a non-zero code, or it returns zero and has written
    [written] (if anything) to the file it was told to produce. *)
Inductive tool_result : Type :=
| ToolMissing
| ToolFailed
| ToolOk (written : option string).

(** What a directory listing sees of the file system: which paths there
    are, and which of them are directories. *)
Definition shape (fs : FS) : gmap Path bool :=
  (fun n => match n with Dir => true | _ => false end) <$> fs.

Class Library : Type := {
  (** [glob.glob(pattern, recursive=True)] on the current tree, in the order
      the operating system lists the entries *)
  glob_glob : gmap Path bool -> string -> list string;
  (** [Path(folder).glob(pattern)] for the patterns [*.ipynb] and [*.md] *)
  path_glob : gmap Path bool -> Path -> string -> list Path;
  (** [json.load]: [None] for text that is no JSON document *)
  json_load : string -> option json;
  (** the text [json.dump(value, f, indent=1)] writes *)
  json_dump : json -> string;
  (** [yaml.safe_load]: [None] when it raises *)
  yaml_safe_load : string -> option json;
  (** [re.match] of the frontmatter pattern with [re.DOTALL]: groups 1, 2 *)
  re_match_frontmatter : string -> option (string * string);
  (** [re.findall(pattern, content, re.IGNORECASE)] for the reference patterns *)
  re_findall : string -> string -> list string;
  (** [markdown.markdown(content, extensions=[...])]; [None] when the
      package could not be imported *)
  markdown_markdown : option (string -> string);
  (** ImageMagick's [convert] and poppler's [pdftoppm], by the file system,
      the PDF argument and the file to produce *)
  run_convert : FS -> string -> Path -> tool_result;
  run_pdftoppm : FS -> string -> Path -> tool_result;
  (** [str(x)] of a list or a dict inside an f-string *)
  repr_container : json -> string;
  (** the page of [markdown_to_html]: its fixed HTML and CSS text around
      the title and the rendered content *)
  page_template : string -> string -> string;
  (** the fragment of [generate_slide_embed]: its fixed HTML and script
      text around the id, the slide file and the preview *)
  slide_embed_template : string -> string -> string -> string;
}.

(** ** Dynamic typing: the conversions the Python operations imply *)

(** Decimal text of an integer, as [str(n)] prints it. *)
Definition string_of_Z (z : Z) : string :=
  NilZero.string_of_int (Z.to_int z).

Definition string_of_nat (n : nat) : string := string_of_Z (Z.of_nat n).

(** [pathlib] accepts only a [str] where it builds a path. *)
Definition as_str (x : json) : result string :=
  match x with
  | JStr s => Ret s
  | _ => Raise "TypeError"
  end.

(** [for x in v]: a list gives its elements, a dict its keys, a string its
    characters; nothing else is iterable. *)
Definition py_iter (v : json) : result (list json) :=
  match v with
  | JList l => Ret l
  | JDict d => Ret (List.map (fun kv => JStr kv.1) d)
  | JStr s => Ret (List.map (fun c => JStr (String c "")) (list_ascii_of_string s))
  | _ => Raise "TypeError"
  end.

(** [x[k]] for a string key: [KeyError] on a dict without it. *)
Definition py_getitem (x : json) (k : string) : result json :=
  match x with
  | JDict d =>
      match Dict.lookup k d with
      | Some v => Ret v
      | None => Raise "KeyError"
      end
  | _ => Raise "TypeError"
  end.

Definition is_substring (needle hay : string) : bool :=
  match String.index 0 needle hay with Some _ => true | None => false end.

(** [s in x] for a string [s]: an element of a list, a key of a dict, a
    substring of a string. *)
Definition py_contains (s : string) (x : json) : result bool :=
  match x with
  | JList l =>
      Ret (existsb (fun e => match e with JStr t => String.eqb s t | _ => false end) l)
  | JDict d => Ret (Dict.mem s d)
  | JStr t => Ret (is_substring s t)
  | _ => Raise "TypeError"
  end.

(** [x == s] for a string literal [s]. *)
Definition eq_str (x : json) (s : string) : bool :=
  match x with JStr t => String.eqb t s | _ => false end.

Section Formatting.
Context {L : Library}.

(** [f"{x}"]. *)
Definition py_str (x : json) : string :=
  match x with
  | JNull => "None"
  | JBool true => "True"
  | JBool false => "False"
  | JNum z => string_of_Z z
  | JStr s => s
  | JList _ | JDict _ => repr_container x
  end.

End Formatting.

(** A list of steps in sequence ([for x in l: f(x)]). *)
Fixpoint for_each {A} (f : A -> M unit) (l : list A) : M unit :=
  match l with
  | [] => mret tt
  | x :: rest => f x ;; for_each f rest
  end.

(** The same for a pure step that may raise, collecting the results. *)
Fixpoint map_result {A B} (f : A -> result B) (l : list A) : result (list B) :=
  match l with
  | [] => Ret []
  | x :: rest => y ← f x; ys ← map_result f rest; Ret (y :: ys)
  end.

(** A loop that threads a value ([for x in l: acc = f(acc, x)]). *)
Fixpoint fold_m {A S} (f : S -> A -> M S) (s : S) (l : list A) : M S :=
  match l with
  | [] => mret s
  | x :: rest => s' ← f s x; fold_m f s' rest
  end.

(** ** The script *)

Section Publish.
Context {L : Library}.

(** *** Metadata of a notebook (publish.py, lines 22-24) *)

Definition get_notebook_metadata (notebook : json) : result json :=
  md ← py_get notebook "metadata" (JDict []);
  py_get md "workshop" (JDict []).

(** *** The setup cell (publish.py, lines 248-315) *)

(** The [!pip install] lines: a string is split at white space, a list is
    taken as it is, anything else installs nothing. *)
Definition install_lines (install_packages : json) : result (list string) :=
  packages ← match install_packages with
             | JStr s => Ret (List.map JStr (Py.split_ws s))
             | JList l => Ret l
             | _ => Ret []
             end;
  lines ← map_result
    (fun package =>
       match package with
       | JStr p =>
           Ret (if String.eqb (Py.strip p) "" then []
                else ["!pip install --upgrade --quiet " +:+ Py.strip p +:+ Py.nl])
       | _ => Raise "AttributeError"
       end) packages;
  Ret (List.concat lines).

(** The comment lines that list the links of a document. *)
Definition link_comment (link : json) : result string :=
  name ← py_get link "name" (JStr "Link");
  url ← py_get link "url" (JStr "#");
  desc ← py_get link "description" (JStr "");
  Ret (if truthy desc
       then "# - " +:+ py_str name +:+ ": " +:+ py_str url +:+ " (" +:+ py_str desc +:+ ")" +:+ Py.nl
       else "# - " +:+ py_str name +:+ ": " +:+ py_str url +:+ Py.nl).

Definition create_setup_cell (zip_name : string) (config install_packages links : json)
    : result json :=
  github_repo ← py_getitem config "github_repo";
  github_branch ← py_get config "github_branch" (JStr "main");
  output_dir ← py_get config "output_dir" (JStr "docs");
  let source_lines :=
    [ "# First we need to download some things!" +:+ Py.nl;
      "# Run this cell to get the necessary data and software" +:+ Py.nl
        +:+ "import os" +:+ Py.nl;
      "import urllib.request" +:+ Py.nl;
      "import zipfile" +:+ Py.nl;
      Py.nl ] in
  installs ← (if truthy install_packages
              then ls ← install_lines install_packages;
                   Ret (["# Install required packages" +:+ Py.nl] ++ ls ++ [Py.nl])
              else Ret []);
  let download :=
    [ "# Download and extract data files" +:+ Py.nl;
      "url = 'https://github.com/" +:+ py_str github_repo +:+ "/raw/"
        +:+ py_str github_branch +:+ "/" +:+ py_str output_dir +:+ "/" +:+ zip_name
        +:+ "'" +:+ Py.nl;
      "print(f'Downloading data from {url}...')" +:+ Py.nl;
      "urllib.request.urlretrieve(url, '" +:+ zip_name +:+ "')" +:+ Py.nl;
      Py.nl;
      "print('Extracting " +:+ zip_name +:+ "...')" +:+ Py.nl;
      "with zipfile.ZipFile('" +:+ zip_name +:+ "', 'r') as zip_ref:" +:+ Py.nl;
      "    zip_ref.extractall('.')" +:+ Py.nl;
      Py.nl;
      "os.remove('" +:+ zip_name +:+ "')" +:+ Py.nl;
      "print('‚úì Data files extracted!')" ] in
  link_lines ← (if truthy links
                then ls ← py_iter links;
                     cs ← map_result link_comment ls;
                     Ret ([Py.nl; "# Useful links:" +:+ Py.nl] ++ cs)
                else Ret []);
  Ret (JDict [ ("cell_type", JStr "code");
               ("metadata", JDict []);
               ("source", JList (List.map JStr (source_lines ++ installs ++ download ++ link_lines)));
               ("execution_count", JNull);
               ("outputs", JList []) ]).

(** *** The data archive (publish.py, lines 442-468) *)

Definition glob (pattern : string) : M (list string) := fun fs =>
  (Ret (glob_glob (shape fs) pattern), fs, []).

(** The loop of [os.path.normpath] over the components between the
    slashes: an empty component and [.] go; a [..] takes away the component
    kept last, but it stays at the start of a relative path and after
    another [..], and is dropped at the start of an absolute path.  [kept]
    holds the components kept so far, the last one first. *)
Fixpoint norm_comps (initial_slashes : bool) (kept comps : list string) : list string :=
  match comps with
  | [] => rev kept
  | comp :: rest =>
      if String.eqb comp "" || String.eqb comp "." then norm_comps initial_slashes kept rest
      else if negb (String.eqb comp "..")
              || (match kept with
                  | [] => negb initial_slashes
                  | last :: _ => String.eqb last ".."
                  end)
      then norm_comps initial_slashes (comp :: kept) rest
      else norm_comps initial_slashes (tl kept) rest
  end.

(** [os.path.normpath(path)]: one or two leading slashes stay, three or
    more count as one; the empty result is [.]. *)
Definition normpath (path : string) : string :=
  let initial_slashes := (PurePath.splitroot path).1 in
  let comps := norm_comps (negb (String.eqb initial_slashes "")) []
                          (PurePath.split_slash path) in
  let path := initial_slashes +:+ Py.join "/" comps in
  if String.eqb path "" then "." else path.

Definition nul : ascii := ascii_of_nat 0.

(** The name [zipfile] gives a member ([ZipInfo.from_file], then
    [ZipInfo.__init__]): the [arcname] normalised and without its leading
    slashes, with a slash at its end for a directory, and cut before a NUL
    character.  [None] stands for the [IndexError] of [arcname[0]] when
    nothing is left after the slashes. *)
Definition zip_member_name (arcname : string) (isdir : bool) : option string :=
  let arcname := PurePath.lstrip_slash (normpath arcname) in
  if String.eqb arcname "" then None
  else Some (head_until nul (if isdir then arcname +:+ "/" else arcname)).

Definition node_is_dir (n : node) : bool :=
  match n with Dir => true | _ => false end.

(** [zipf.write(file_path, arcname)] on the archive open at [zip_path]: the
    member is what [file_path] is now, under the name [zipfile] makes of
    [arcname]. *)
Definition zip_write (zip_path file_path : Path) (arcname : string) : M unit := fun fs =>
  match (match fs !! file_path with
         | Some n => Some n
         | None => if IO.path_exists fs file_path then Some Dir else None
         end) with
  | None => (Raise "FileNotFoundError", fs, [])
  | Some n =>
      match zip_member_name arcname (node_is_dir n) with
      | None => (Raise "IndexError", fs, [])
      | Some name =>
          match fs !! zip_path with
          | Some (Archive members) =>
              (Ret tt, <[zip_path := Archive (members ++ [(name, file_path, n)])]> fs, [])
          | _ => (Raise "ValueError", fs, [])
          end
      end
  end.

(** The inner loop, over the matches of one pattern. *)
Definition add_match (zip_path base_dir : Path) (added_files : gset string)
    (m : string) : M (gset string) :=
  let file_path := PurePath.of_string m in
  let arcname := match PurePath.relative_to file_path base_dir with
                 | Some rel => rel
                 | None => file_path
                 end in
  if bool_decide (PurePath.to_string file_path ∈ added_files) then mret added_files
  else
    zip_write zip_path file_path (PurePath.to_string arcname) ;;
    mret ({[PurePath.to_string file_path]} ∪ added_files).

(** The outer loop, over the patterns. *)
Definition add_pattern (zip_path base_dir : Path) (added_files : gset string)
    (pattern : json) : M (gset string) :=
  pat ← IO.lift (as_str pattern);
  let full_pattern := PurePath.to_string (PurePath.join base_dir pat) in
  matches ← glob full_pattern;
  (match matches with
   | [] => IO.print ("  Warning: No files match pattern '" +:+ pat +:+ "' in "
                       +:+ PurePath.to_string base_dir)
   | _ => mret tt
   end) ;;
  fold_m (add_match zip_path base_dir) added_files matches.

Definition create_data_zip (data_patterns : json) (zip_path base_dir : Path) : M unit :=
  IO.create zip_path (Archive []) ;;
  patterns ← IO.lift (py_iter data_patterns);
  added_files ← fold_m (add_pattern zip_path base_dir) ∅ patterns;
  IO.print ("‚úì Created " +:+ PurePath.name zip_path +:+ " with "
              +:+ string_of_nat (size added_files) +:+ " files").

(** *** Files a document refers to (publish.py, lines 470-540) *)

(** [''.join(x)]. *)
Definition join_source (x : json) : result string :=
  elems ← py_iter x;
  strs ← map_result as_str elems;
  Ret (Py.join "" strs).

Definition notebook_ref_patterns : list string :=
  [ "\[.*?\]\(([^)]+\.(?:pdf|png|jpg|jpeg|gif|svg))\)";
    "<img.*?src=[" +:+ Py.dquote +:+ "\']([^" +:+ Py.dquote
      +:+ "\']+\.(?:png|jpg|jpeg|gif|svg))[" +:+ Py.dquote +:+ "\']";
    "!\[.*?\]\(([^)]+\.(?:png|jpg|jpeg|gif|svg))\)" ].

Definition markdown_ref_patterns : list string :=
  [ "\[.*?\]\(([^)]+\.(?:pdf|png|jpg|jpeg|gif|svg|mp4|webm|mov))\)";
    "<img.*?src=[" +:+ Py.dquote +:+ "\']([^" +:+ Py.dquote
      +:+ "\']+\.(?:png|jpg|jpeg|gif|svg))[" +:+ Py.dquote +:+ "\']";
    "!\[.*?\]\(([^)]+\.(?:png|jpg|jpeg|gif|svg))\)";
    "<source.*?src=[" +:+ Py.dquote +:+ "\']([^" +:+ Py.dquote
      +:+ "\']+\.(?:mp4|webm|mov))[" +:+ Py.dquote +:+ "\']";
    "<video.*?src=[" +:+ Py.dquote +:+ "\']([^" +:+ Py.dquote
      +:+ "\']+\.(?:mp4|webm|mov))[" +:+ Py.dquote +:+ "\']" ].

Definition is_url (m : string) : bool :=
  String.prefix "http://" m || String.prefix "https://" m.

(** One reference.  [warn_missing] is the [else] branch that only the
    markdown variant has. *)
Definition copy_reference (warn_missing : bool) (source_dir output_dir : Path)
    (copied_files : list string) (m : string) : M (list string) :=
  if is_url m then mret copied_files
  else
    let source_file := PurePath.join source_dir m in
    found ← IO.exists_ source_file;
    if (found : bool) then
      let dest_file := PurePath.join output_dir m in
      IO.mkdir_parents (PurePath.parent dest_file) ;;
      present ← IO.exists_ dest_file;
      if (present : bool) then mret copied_files
      else
        IO.copy2 source_file dest_file ;;
        IO.print ("  ‚Üí Copied referenced file: " +:+ m) ;;
        mret (copied_files ++ [m])
    else if warn_missing
    then IO.print ("  ‚ö† Referenced file not found: " +:+ m) ;; mret copied_files
    else mret copied_files.

(** All references of one text, pattern by pattern. *)
Definition copy_references (warn_missing : bool) (patterns : list string)
    (content : string) (source_dir output_dir : Path) (copied_files : list string)
    : M (list string) :=
  fold_m (fun acc pattern =>
            fold_m (copy_reference warn_missing source_dir output_dir) acc
                   (re_findall pattern content))
         copied_files patterns.

Definition find_and_copy_referenced_files (notebook : json)
    (notebook_dir output_dir : Path) : M (list string) :=
  cells_v ← IO.lift (py_get notebook "cells" (JList []));
  cells ← IO.lift (py_iter cells_v);
  fold_m (fun acc cell =>
            ty ← IO.lift (py_getitem cell "cell_type");
            if eq_str ty "markdown" then
              src ← IO.lift (py_get cell "source" (JList []));
              content ← IO.lift (join_source src);
              copy_references false notebook_ref_patterns content notebook_dir output_dir acc
            else mret acc)
         [] cells.

Definition copy_markdown_referenced_files (content : string)
    (markdown_dir output_dir : Path) : M (list string) :=
  copy_references true markdown_ref_patterns content markdown_dir output_dir [].

(** *** The notebook processor (publish.py, lines 317-440) *)

(** The record a processor returns for the index.  The keys that only one
    kind of document has are optional; the values copied from the metadata
    stay dynamic. *)
Record item : Type := MkItem {
  item_name : string;
  item_title : json;
  item_description : json;
  item_exercise_file : option string;
  item_answers_file : option string;
  item_html_file : option string;
  item_data_file : option string;
  item_section : json;
  item_type : option string;
  item_order : json;
  item_links : json;
  item_slides : json;
  item_section_folder : option json;
  item_section_slides : option json;
}.

(** [x[k] = v] on a dict. *)
Definition set_item (x : json) (k : string) (v : json) : json :=
  match x with
  | JDict d => JDict (Dict.set k v d)
  | _ => x
  end.

(** The change of [x[k]] when the object there is mutated in place. *)
Definition update_key (k : string) (f : json -> json) (x : json) : json :=
  match x with
  | JDict d =>
      match Dict.lookup k d with
      | Some v => JDict (Dict.set k (f v) d)
      | None => x
      end
  | _ => x
  end.

(** [json.loads(json.dumps(v))]: an equal value that shares nothing with
    [v].  Values of the model are immutable, so the copy is the value. *)
Definition deep_copy (v : json) : json := v.

(** The cell a solution is replaced with (lines 353-359). *)
Definition empty_cell : json :=
  JDict [ ("cell_type", JStr "code");
          ("metadata", JDict []);
          ("source", JList []);
          ("execution_count", JNull);
          ("outputs", JList []) ].

(** The test of line 351:
    [cell.get('metadata', {}).get('tags') and 'solution' in cell['metadata']['tags']]. *)
Definition is_solution_cell (cell : json) : result bool :=
  md ← py_get cell "metadata" (JDict []);
  tags ← py_get md "tags" JNull;
  if truthy tags then py_contains "solution" tags else Ret false.

Definition strip_solution (cell : json) : result json :=
  sol ← is_solution_cell cell;
  Ret (if (sol : bool) then empty_cell else cell).

(** The loop of lines 350-359 over [exercise_nb['cells']].  Iterating an
    empty dict or string does nothing; a non-empty one yields strings,
    which have no [get]. *)
Definition strip_solutions (cells : json) : result json :=
  match cells with
  | JList l => l' ← map_result strip_solution l; Ret (JList l')
  | JDict [] | JStr "" => Ret cells
  | JDict _ | JStr _ => Raise "AttributeError"
  | _ => Raise "TypeError"
  end.

(** The loop of lines 369-373: one past the first markdown cell, 0 when
    there is none. *)
Fixpoint find_insert_pos (i : nat) (cells : list json) : result nat :=
  match cells with
  | [] => Ret 0
  | cell :: rest =>
      ty ← py_getitem cell "cell_type";
      if eq_str ty "markdown" then Ret (S i) else find_insert_pos (S i) rest
  end.

(** [l.insert(pos, x)]. *)
Definition list_insert_at {A} (pos : nat) (x : A) (l : list A) : list A :=
  take pos l ++ x :: drop pos l.

(** [nb['cells'].insert(pos, cell)]: only a list has [insert]. *)
Definition insert_cell (pos : nat) (cell : json) (nb : json) : result json :=
  cells ← py_getitem nb "cells";
  match cells with
  | JList l => Ret (set_item nb "cells" (JList (list_insert_at pos cell l)))
  | _ => Raise "AttributeError"
  end.

(** Lines 338-344: the kernel of both versions. *)
Definition set_kernelspec (complete_nb : json) : result json :=
  let complete_nb :=
    match complete_nb with
    | JDict d => if Dict.mem "metadata" d then complete_nb
                 else set_item complete_nb "metadata" (JDict [])
    | _ => complete_nb
    end in
  nb_md ← py_getitem complete_nb "metadata";
  has_ks ← py_contains "kernelspec" nb_md;
  let nb_md := if (has_ks : bool) then nb_md else set_item nb_md "kernelspec" (JDict []) in
  ks ← py_getitem nb_md "kernelspec";
  match ks with
  | JDict _ =>
      let ks := set_item ks "name" (JStr "python3") in
      let ks := set_item ks "display_name" (JStr "Python 3") in
      let ks := set_item ks "language" (JStr "python") in
      Ret (set_item complete_nb "metadata" (set_item nb_md "kernelspec" ks))
  | _ => Raise "TypeError"
  end.

(** Lines 362-379: the setup cell goes into both versions at the same
    place, then the archive is built. *)
Definition add_setup_cell (base_name : string) (notebook_dir output_dir : Path)
    (config metadata data_files : json) (complete_nb exercise_nb : json)
    : M (json * json) :=
  let zip_name := base_name +:+ "-data.zip" in
  install_packages ← IO.lift (py_get metadata "install" (JStr "pandas natural_pdf tqdm"));
  links ← IO.lift (py_get metadata "links" JNull);
  setup_cell ← IO.lift (create_setup_cell zip_name config install_packages links);
  cells ← IO.lift (py_getitem complete_nb "cells");
  insert_pos ← IO.lift (l ← py_iter cells; find_insert_pos 0 l);
  complete_nb ← IO.lift (insert_cell insert_pos setup_cell complete_nb);
  exercise_nb ← IO.lift (insert_cell insert_pos setup_cell exercise_nb);
  create_data_zip data_files (PurePath.join output_dir zip_name) notebook_dir ;;
  mret (complete_nb, exercise_nb).

(** Lines 389-416: the slide link goes first in both versions; the slide
    file is looked up next to the notebook, then from the project root,
    and the run ends when it is at neither place. *)
Definition add_slides (notebook_dir output_dir : Path) (slide_file : json)
    (complete_nb exercise_nb : json) : M (json * json) :=
  let slide_link_cell :=
    JDict [ ("cell_type", JStr "markdown");
            ("metadata", JDict []);
            ("source", JList [JStr ("**Slides:** [" +:+ py_str slide_file +:+ "](./"
                                      +:+ py_str slide_file +:+ ")")]) ] in
  complete_nb ← IO.lift (insert_cell 0 slide_link_cell complete_nb);
  exercise_nb ← IO.lift (insert_cell 0 slide_link_cell exercise_nb);
  slide ← IO.lift (as_str slide_file);
  let beside := PurePath.join notebook_dir slide in
  at_first ← IO.exists_ beside;
  let source_pdf := if (at_first : bool) then beside else PurePath.of_string slide in
  found ← IO.exists_ source_pdf;
  (if (found : bool) then
     let dest_pdf := PurePath.join output_dir slide in
     present ← IO.exists_ dest_pdf;
     if (present : bool) then mret tt
     else
       IO.mkdir_parents (PurePath.parent dest_pdf) ;;
       IO.copy2 source_pdf dest_pdf ;;
       IO.print ("  ‚Üí Copied slide file: " +:+ slide)
   else
     IO.print (Py.nl +:+ "‚ùå ERROR: Slide file not found: " +:+ slide) ;;
     IO.print ("   Looked in: " +:+ PurePath.to_string beside) ;;
     IO.print ("   Also tried: " +:+ PurePath.to_string (PurePath.of_string slide)) ;;
     IO.exit 1%Z) ;;
  mret (complete_nb, exercise_nb).

Definition process_notebook (notebook_path output_dir : Path)
    (config section_slides : json) : M (option item) :=
  text ← IO.read_text notebook_path;
  notebook ← IO.lift (match json_load text with
                      | Some j => Ret j
                      | None => Raise "JSONDecodeError"
                      end);
  metadata ← IO.lift (get_notebook_metadata notebook);
  if negb (truthy metadata) then
    IO.print ("Skipping " +:+ PurePath.to_string notebook_path +:+ " - no workshop metadata") ;;
    mret None
  else
    own_slides ← IO.lift (py_get metadata "slides" JNull);
    (* [metadata] is the object inside [notebook]: setting its slides
       changes the notebook that is written later *)
    let inherit := negb (truthy own_slides) && truthy section_slides in
    let metadata := if inherit then set_item metadata "slides" section_slides else metadata in
    let notebook := update_key "metadata" (update_key "workshop" (fun _ => metadata)) notebook in
    let base_name := PurePath.stem notebook_path in
    let notebook_dir := PurePath.parent notebook_path in
    (* [notebook.copy()] is shallow: [complete_nb] shares the metadata and
       the cells with [notebook], and its top level is not changed while
       the key [metadata] is there; one value stands for both *)
    complete_nb ← IO.lift (set_kernelspec notebook);
    let exercise_nb := deep_copy complete_nb in
    ex_cells ← IO.lift (py_getitem exercise_nb "cells");
    ex_cells ← IO.lift (strip_solutions ex_cells);
    let exercise_nb := set_item exercise_nb "cells" ex_cells in
    data_files ← IO.lift (py_get metadata "data_files" JNull);
    '(complete_nb, exercise_nb) ←
      (if truthy data_files
       then add_setup_cell base_name notebook_dir output_dir config metadata data_files
                           complete_nb exercise_nb
       else mret (complete_nb, exercise_nb));
    IO.mkdir_parents output_dir ;;
    find_and_copy_referenced_files complete_nb notebook_dir output_dir ;;
    slide_file ← IO.lift (py_get metadata "slides" JNull);
    '(complete_nb, exercise_nb) ←
      (if truthy slide_file
       then add_slides notebook_dir output_dir slide_file complete_nb exercise_nb
       else mret (complete_nb, exercise_nb));
    IO.write_text (PurePath.join output_dir (base_name +:+ ".ipynb")) (json_dump exercise_nb) ;;
    IO.print ("‚úì Created " +:+ PurePath.to_string (PurePath.join output_dir base_name)
                +:+ ".ipynb") ;;
    IO.write_text (PurePath.join output_dir (base_name +:+ "-ANSWERS.ipynb"))
                  (json_dump complete_nb) ;;
    IO.print ("‚úì Created " +:+ PurePath.to_string (PurePath.join output_dir base_name)
                +:+ "-ANSWERS.ipynb") ;;
    title ← IO.lift (py_get metadata "title" (JStr base_name));
    description ← IO.lift (py_get metadata "description" (JStr ""));
    order ← IO.lift (py_get metadata "order" JNull);
    links ← IO.lift (py_get metadata "links" JNull);
    slides ← IO.lift (py_get metadata "slides" JNull);
    mret (Some {| item_name := base_name;
                  item_title := title;
                  item_description := description;
                  item_exercise_file := Some (base_name +:+ ".ipynb");
                  item_answers_file := Some (base_name +:+ "-ANSWERS.ipynb");
                  item_html_file := None;
                  item_data_file := if truthy data_files
                                    then Some (base_name +:+ "-data.zip") else None;
                  item_section := JStr (PurePath.name notebook_dir);
                  item_type := None;
                  item_order := order;
                  item_links := links;
                  item_slides := slides;
                  item_section_folder := None;
                  item_section_slides := None |}).

(** *** Slides (publish.py, lines 542-650) *)

(** [try: body except: pass]: an exception inside the body ends the body
    and nothing else. *)
Definition try_pass {A} (body : M (option A)) : M (option A) := fun fs =>
  match body fs with
  | (Raise _, fs1, out1) => (Ret None, fs1, out1)
  | x => x
  end.

(** An external program that returned zero has written its file. *)
Definition tool_writes (target : Path) (written : option string) : M unit := fun fs =>
  match written with
  | Some data => (Ret tt, <[target := File data]> fs, [])
  | None => (Ret tt, fs, [])
  end.

Definition create_slide_thumbnail (pdf_path output_dir : Path) : M (option string) :=
  let pdf_name := PurePath.stem pdf_path in
  let thumb_name := pdf_name +:+ "-thumb.png" in
  let thumb_path := PurePath.join output_dir thumb_name in
  present ← IO.exists_ thumb_path;
  if (present : bool) then mret (Some thumb_name)
  else
    by_convert ← try_pass (fun fs =>
      match run_convert fs (PurePath.to_string pdf_path +:+ "[0]") thumb_path with
      | ToolMissing => (Raise "FileNotFoundError", fs, [])
      | ToolFailed => (Ret None, fs, [])
      | ToolOk written =>
          (tool_writes thumb_path written ;;
           IO.print ("  ‚Üí Created slide thumbnail: " +:+ thumb_name) ;;
           mret (Some thumb_name)) fs
      end);
    match by_convert with
    | Some t => mret (Some t)
    | None =>
        let png := PurePath.join output_dir (pdf_name +:+ ".png") in
        by_pdftoppm ← try_pass (fun fs =>
          match run_pdftoppm fs (PurePath.to_string pdf_path) png with
          | ToolMissing => (Raise "FileNotFoundError", fs, [])
          | ToolFailed => (Ret None, fs, [])
          | ToolOk written =>
              (tool_writes png written ;;
               made ← IO.exists_ png;
               if (made : bool) then
                 IO.move png thumb_path ;;
                 IO.print ("  ‚Üí Created slide thumbnail: " +:+ thumb_name) ;;
                 mret (Some thumb_name)
               else mret None) fs
          end);
        match by_pdftoppm with
        | Some t => mret (Some t)
        | None =>
            IO.print ("  ‚ö† Could not create thumbnail for " +:+ PurePath.name pdf_path
                        +:+ " (install ImageMagick or poppler-utils)") ;;
            mret None
        end
    end.

(** The preview of line 620 and its placeholder of line 622. *)
Definition preview_html (thumb : option string) : string :=
  match thumb with
  | Some thumb_name =>
          "<img src=" +:+ Py.dquote +:+ "./" +:+ thumb_name +:+ Py.dquote +:+ " alt="
          +:+ Py.dquote +:+ "First slide" +:+ Py.dquote +:+ " style=" +:+ Py.dquote
          +:+ "max-width: 100%; cursor: pointer;" +:+ Py.dquote +:+ ">"
  | None =>
          "<div style=" +:+ Py.dquote
          +:+ "background: #f0f0f0; padding: 3em; text-align: center; cursor: pointer;"
          +:+ Py.dquote +:+ ">üìä Click to load slides</div>"
  end.

Definition generate_slide_embed (slide_file : json) (notebook_dir output_dir : Path)
    : M string :=
  slide ← IO.lift (as_str slide_file);
  let beside := PurePath.join notebook_dir slide in
  at_first ← IO.exists_ beside;
  source_pdf ←
    (if (at_first : bool) then mret beside
     else
       let from_root := PurePath.of_string slide in
       at_second ← IO.exists_ from_root;
       if (at_second : bool) then mret from_root
       else
         IO.print (Py.nl +:+ "‚ùå ERROR: Slide file not found: " +:+ slide) ;;
         IO.print ("   Looked in: " +:+ PurePath.to_string beside) ;;
         IO.print ("   Also tried: " +:+ PurePath.to_string from_root) ;;
         IO.exit 1%Z);
  let dest_pdf := PurePath.join output_dir slide in
  present ← IO.exists_ dest_pdf;
  (if (present : bool) then mret tt
   else
     IO.mkdir_parents (PurePath.parent dest_pdf) ;;
     IO.copy2 source_pdf dest_pdf ;;
     IO.print ("  ‚Üí Copied slide file: " +:+ slide)) ;;
  thumb_name ← create_slide_thumbnail source_pdf output_dir;
  let slide_id :=
    Py.replace "." "-" (Py.replace " " "-" ("slides-" +:+ PurePath.stem source_pdf)) in
  mret (slide_embed_template slide_id slide (preview_html thumb_name)).

(** *** The markdown processor (publish.py, lines 26-40, 64-230, 652-732) *)

Definition extract_markdown_frontmatter (content : string) : M (json * string) :=
  match re_match_frontmatter content with
  | Some (yaml_content, markdown_content) =>
      match yaml_safe_load yaml_content with
      | Some frontmatter => mret (frontmatter, markdown_content)
      | None =>
          IO.print "Warning: Invalid YAML frontmatter" ;;
          mret (JDict [], content)
      end
  | None => mret (JDict [], content)
  end.

Definition markdown_to_html (content : string) (title : string) : string :=
  let html_content :=
    match markdown_markdown with
    | Some render => render content
    | None => "<pre>" +:+ content +:+ "</pre>"
    end in
  page_template title html_content.

(** The list item of a link in the page (lines 700-707). *)
Definition link_item (link : json) : result string :=
  name ← py_get link "name" (JStr "Link");
  url ← py_get link "url" (JStr "#");
  desc ← py_get link "description" (JStr "");
  Ret (if truthy desc
       then "- [" +:+ py_str name +:+ "](" +:+ py_str url +:+ ") - " +:+ py_str desc +:+ Py.nl
       else "- [" +:+ py_str name +:+ "](" +:+ py_str url +:+ ")" +:+ Py.nl).

(** The download box of line 690. *)
Definition download_box (zip_name : string) : string :=
          "<div class=" +:+ Py.dquote +:+ "download-box" +:+ Py.dquote +:+ ">" +:+ Py.nl
          +:+ "<strong>Download files:</strong> <a href=" +:+ Py.dquote +:+ "./"
          +:+ zip_name +:+ Py.dquote +:+ ">üì¶ " +:+ zip_name +:+ "</a>" +:+ Py.nl
          +:+ "</div>" +:+ Py.nl +:+ Py.nl.

Definition process_markdown (markdown_path output_dir : Path)
    (config section_slides : json) : M (option item) :=
  content ← IO.read_text markdown_path;
  '(frontmatter, markdown_content) ← extract_markdown_frontmatter content;
  if negb (truthy frontmatter) then
    IO.print ("Skipping " +:+ PurePath.to_string markdown_path +:+ " - no frontmatter") ;;
    mret None
  else
    own_slides ← IO.lift (py_get frontmatter "slides" JNull);
    let frontmatter :=
      if negb (truthy own_slides) && truthy section_slides
      then set_item frontmatter "slides" section_slides else frontmatter in
    let base_name := PurePath.stem markdown_path in
    let markdown_dir := PurePath.parent markdown_path in
    title ← IO.lift (py_get frontmatter "title" (JStr base_name));
    copy_markdown_referenced_files markdown_content markdown_dir output_dir ;;
    data_files ← IO.lift (py_get frontmatter "data_files" JNull);
    let zip_name := base_name +:+ "-data.zip" in
    (if truthy data_files
     then create_data_zip data_files (PurePath.join output_dir zip_name) markdown_dir
     else mret tt) ;;
    let full_content := "# " +:+ py_str title +:+ Py.nl +:+ Py.nl in
    links ← IO.lift (py_get frontmatter "links" JNull);
    let has_useful_links := truthy links in
    let toc := generate_toc_from_markdown markdown_content has_useful_links in
    let full_content :=
      if String.eqb toc "" then full_content else full_content +:+ toc +:+ Py.nl in
    let full_content :=
      if truthy data_files then full_content +:+ download_box zip_name else full_content in
    slides ← IO.lift (py_get frontmatter "slides" JNull);
    full_content ←
      (if truthy slides
       then slide_html ← generate_slide_embed slides markdown_dir output_dir;
            mret (full_content +:+ slide_html +:+ Py.nl +:+ Py.nl)
       else mret full_content);
    full_content ←
      (if truthy links
       then ls ← IO.lift (py_iter links);
            items ← IO.lift (map_result link_item ls);
            mret (full_content +:+ "## Useful Links" +:+ Py.nl +:+ Py.nl
                    +:+ Py.join "" items +:+ Py.nl)
       else mret full_content);
    let full_content := full_content +:+ markdown_content in
    let html_content := markdown_to_html full_content (py_str title) in
    let output_html := PurePath.join output_dir (base_name +:+ ".html") in
    IO.write_text output_html html_content ;;
    IO.print ("‚úì Created " +:+ PurePath.to_string output_html) ;;
    description ← IO.lift (py_get frontmatter "description" (JStr ""));
    order ← IO.lift (py_get frontmatter "order" JNull);
    mret (Some {| item_name := base_name;
                  item_title := title;
                  item_description := description;
                  item_exercise_file := None;
                  item_answers_file := None;
                  item_html_file := Some (base_name +:+ ".html");
                  item_data_file := if truthy data_files then Some zip_name else None;
                  item_section := JStr (PurePath.name markdown_dir);
                  item_type := Some "markdown";
                  item_order := order;
                  item_links := links;
                  item_slides := slides;
                  item_section_folder := None;
                  item_section_slides := None |}).

(** *** The index (publish.py, lines 734-874) *)

(** The integer a number or a boolean stands for ([True] is 1 in Python). *)
Definition num_of (x : json) : option Z :=
  match x with
  | JNum z => Some z
  | JBool b => Some (if b then 1 else 0)%Z
  | _ => None
  end.

(** [x == y] for values that can be dict keys or sort keys. *)
Definition key_eqb (x y : json) : bool :=
  match num_of x, num_of y with
  | Some a, Some b => (a =? b)%Z
  | None, None =>
      match x, y with
      | JStr s, JStr t => String.eqb s t
      | JNull, JNull => true
      | _, _ => false
      end
  | _, _ => false
  end.

(** [x < y]: numbers with numbers, strings with strings.  (Python also
    orders lists; a list as a title or as an order is outside the model.) *)
Definition py_lt (x y : json) : result bool :=
  match num_of x, num_of y with
  | Some a, Some b => Ret (a <? b)%Z
  | _, _ =>
      match x, y with
      | JStr s, JStr t => Ret (String.ltb s t)
      | _, _ => Raise "TypeError"
      end
  end.

(** [sorted(l, key=...)] through its comparison [lt]: the sort is stable,
    and it raises when two elements it has to order cannot be compared. *)
Fixpoint insert_sorted {A} (lt : A -> A -> result bool) (x : A) (l : list A)
    : result (list A) :=
  match l with
  | [] => Ret [x]
  | y :: rest =>
      b ← lt y x;
      if (b : bool) then rest' ← insert_sorted lt x rest; Ret (y :: rest')
      else Ret (x :: y :: rest)
  end.

Fixpoint py_sorted {A} (lt : A -> A -> result bool) (l : list A) : result (list A) :=
  match l with
  | [] => Ret []
  | x :: rest => sorted_rest ← py_sorted lt rest; insert_sorted lt x sorted_rest
  end.

(** [sorted(l, key=..., reverse=True)]: the list is reversed, sorted and
    reversed again, which keeps equal elements in their order. *)
Definition py_sorted_reverse {A} (lt : A -> A -> result bool) (l : list A)
    : result (list A) :=
  s ← py_sorted lt (rev l); Ret (rev s).

(** A dict with dynamic keys, in insertion order. *)
Fixpoint assoc_get {V} (k : json) (d : list (json * V)) : option V :=
  match d with
  | [] => None
  | (k', v) :: rest => if key_eqb k k' then Some v else assoc_get k rest
  end.

Fixpoint assoc_set {V} (k : json) (v : V) (d : list (json * V)) : list (json * V) :=
  match d with
  | [] => [(k, v)]
  | (k', v') :: rest =>
      if key_eqb k k' then (k', v) :: rest else (k', v') :: assoc_set k v rest
  end.

(** Lists and dicts cannot be keys of a dict. *)
Definition hashable (x : json) : result unit :=
  match x with
  | JList _ | JDict _ => Raise "TypeError"
  | _ => Ret tt
  end.

(** [section_cfg.get('title', section_cfg.get('folder'))]. *)
Definition section_title (section_cfg : json) : result json :=
  folder ← py_get section_cfg "folder" JNull;
  py_get section_cfg "title" folder.

Definition is_dict (x : json) : bool :=
  match x with JDict _ => true | _ => false end.

(** Lines 745-747: the configured sections by title. *)
Fixpoint collect_section_configs (cfgs : list json) (acc : list (json * json))
    : result (list (json * json)) :=
  match cfgs with
  | [] => Ret acc
  | section_cfg :: rest =>
      if is_dict section_cfg then
        title ← section_title section_cfg;
        hashable title ;;
        collect_section_configs rest (assoc_set title section_cfg acc)
      else collect_section_configs rest acc
  end.

(** Lines 749-753: the items by section. *)
Fixpoint group_by_section (notebooks : list item) (sections : list (json * list item))
    : result (list (json * list item)) :=
  match notebooks with
  | [] => Ret sections
  | nb :: rest =>
      let section := item_section nb in
      hashable section ;;
      let members := default [] (assoc_get section sections) in
      group_by_section rest (assoc_set section (members ++ [nb]) sections)
  end.

Definition key_in (k : json) (l : list json) : bool := existsb (key_eqb k) l.

(** Lines 759-764: the configured titles that have items, in the order of
    the configuration. *)
Fixpoint configured_order (cfgs : list json) (sections : list (json * list item))
    (section_order : list json) : result (list json) :=
  match cfgs with
  | [] => Ret section_order
  | section_cfg :: rest =>
      if is_dict section_cfg then
        title ← section_title section_cfg;
        hashable title ;;
        match assoc_get title sections with
        | Some _ => configured_order rest sections (section_order ++ [title])
        | None => configured_order rest sections section_order
        end
      else configured_order rest sections section_order
  end.

(** Lines 767-769: the other sections, sorted, at the end. *)
Definition append_unlisted (sorted_keys section_order : list json) : list json :=
  fold_left (fun acc section => if key_in section acc then acc else acc ++ [section])
            sorted_keys section_order.

(** Lines 759-769 together. *)
Definition section_order_of (cfgs : list json) (sections : list (json * list item))
    : result (list json) :=
  listed ← configured_order cfgs sections [];
  sorted_keys ← py_sorted py_lt (List.map fst sections);
  Ret (append_unlisted sorted_keys listed).

(** Lines 784-788: the sort key [(0, order, '')] or [(1, 0, name)]. *)
Inductive sort_key_t : Type :=
| WithOrder (order : json)
| WithoutOrder (name : string).

Definition sort_key (it : item) : sort_key_t :=
  match item_order it with
  | JNull => WithoutOrder (item_name it)
  | order => WithOrder order
  end.

(** [k1 < k2] on these tuples: the first components decide when they
    differ; equal orders make the keys equal. *)
Definition sort_key_lt (k1 k2 : sort_key_t) : result bool :=
  match k1, k2 with
  | WithOrder _, WithoutOrder _ => Ret true
  | WithoutOrder _, WithOrder _ => Ret false
  | WithOrder o1, WithOrder o2 => if key_eqb o1 o2 then Ret false else py_lt o1 o2
  | WithoutOrder n1, WithoutOrder n2 => Ret (String.ltb n1 n2)
  end.

Definition has_order (it : item) : bool :=
  match item_order it with JNull => false | _ => true end.

(** Lines 790-795: the items of one section in the order they are listed. *)
Definition sort_items (section_items : list item) : result (list item) :=
  sorted_items ← py_sorted (fun a b => sort_key_lt (sort_key a) (sort_key b)) section_items;
  let items_with_order := List.filter has_order sorted_items in
  items_without_order ←
    py_sorted_reverse (fun a b => Ret (String.ltb (item_name a) (item_name b)))
                      (List.filter (fun it => negb (has_order it)) sorted_items);
  Ret (items_with_order ++ items_without_order).

(** [item[key]] for a key that only one kind of item has. *)
Definition required {A} (field : option A) : result A :=
  match field with
  | Some v => Ret v
  | None => Raise "KeyError"
  end.

Definition colab_link (github_repo github_branch output_dir_name : json) (file : string)
    : string :=
    "https://colab.research.google.com/github/" +:+ py_str github_repo +:+ "/blob/"
    +:+ py_str github_branch +:+ "/" +:+ py_str output_dir_name +:+ "/" +:+ file.

(** The list item of a link on the index (lines 841-848). *)
Definition index_link (link : json) : result string :=
  name ← py_get link "name" (JStr "Link");
  url ← py_get link "url" (JStr "#");
  desc ← py_get link "description" (JStr "");
  Ret (if truthy desc
       then
        "<li><a href=" +:+ Py.dquote +:+ py_str url +:+ Py.dquote +:+ ">"
        +:+ py_str name +:+ "</a> " +:+ py_str desc +:+ "</li>" +:+ Py.nl
       else
        "<li><a href=" +:+ Py.dquote +:+ py_str url +:+ Py.dquote +:+ ">"
        +:+ py_str name +:+ "</a></li>" +:+ Py.nl).

(** Lines 797-851: what one item appends to [notebooks_md]. *)
Definition render_item (github_repo github_branch output_dir_name : json) (it : item)
    : result (list string) :=
  let is_markdown := match item_type it with
                     | Some t => String.eqb t "markdown"
                     | None => false
                     end in
  heading ←
    (if is_markdown
     then html_file ← required (item_html_file it);
          Ret [
        "### [" +:+ py_str (item_title it) +:+ "](./" +:+ html_file +:+ ")" +:+ Py.nl ]
     else exercise_file ← required (item_exercise_file it);
          let colab_url := colab_link github_repo github_branch output_dir_name exercise_file in
          Ret [
        "### [" +:+ py_str (item_title it) +:+ "](" +:+ colab_url +:+ ")" +:+ Py.nl ]);
  let description :=
    if truthy (item_description it)
    then [
        py_str (item_description it) +:+ Py.nl ]
    else [] in
  let data_markdown :=
    match item_data_file it with
    | Some data_file => [
        "üì¶ Data: <a href=" +:+ Py.dquote +:+ "./" +:+ data_file +:+ Py.dquote +:+ ">"
        +:+ data_file +:+ "</a><br>" +:+ Py.nl ]
    | None => []
    end in
  let data_notebook :=
    match item_data_file it with
    | Some data_file => [
        "üì¶ Data: <a href=" +:+ Py.dquote +:+ "./" +:+ data_file +:+ Py.dquote +:+ ">"
        +:+ data_file +:+ "</a>" +:+ Py.nl ]
    | None => []
    end in
  resources ←
    (if is_markdown
     then Ret ([
        "<div>" +:+ Py.nl ] ++ data_markdown ++ [
        "</div>" +:+ Py.nl ])
     else exercise_file ← required (item_exercise_file it);
          let colab_url := colab_link github_repo github_branch output_dir_name exercise_file in
          answers_file ← required (item_answers_file it);
          let answers_colab_url :=
            colab_link github_repo github_branch output_dir_name answers_file in
          Ret ([
        "<div class=" +:+ Py.dquote +:+ "resource-buttons" +:+ Py.dquote +:+ ">"
        +:+ Py.nl;
        "<a href=" +:+ Py.dquote +:+ colab_url +:+ Py.dquote +:+ " class=" +:+ Py.dquote
        +:+ "resource-button primary" +:+ Py.dquote +:+ ">üöÄ Live coding worksheet</a>"
        +:+ Py.nl;
        "<a href=" +:+ Py.dquote +:+ answers_colab_url +:+ Py.dquote +:+ " class="
        +:+ Py.dquote +:+ "resource-button completed" +:+ Py.dquote
        +:+ ">‚úì Completed version</a>" +:+ Py.nl;
        "</div>" +:+ Py.nl;
        "<div class=" +:+ Py.dquote +:+ "download-links" +:+ Py.dquote +:+ ">" +:+ Py.nl;
        "üìì Download: <a href=" +:+ Py.dquote +:+ "./" +:+ exercise_file +:+ Py.dquote
        +:+ ">worksheet</a> | ";
        "<a href=" +:+ Py.dquote +:+ "./" +:+ answers_file +:+ Py.dquote
        +:+ ">completed</a><br>" +:+ Py.nl ] ++ data_notebook ++ [
        "</div>" +:+ Py.nl ]));
  slides_mention ←
    (if truthy (item_slides it) && negb (truthy (default JNull (item_section_slides it)))
     then slide ← as_str (item_slides it);
          let slide_filename := PurePath.name (PurePath.of_string slide) in
          Ret [
        "<div style=" +:+ Py.dquote +:+ "margin: 0.5em 0; color: #666;" +:+ Py.dquote
        +:+ ">üìë Slides: <a href=" +:+ Py.dquote +:+ "./" +:+ slide +:+ Py.dquote +:+ ">"
        +:+ slide_filename +:+ "</a></div>" +:+ Py.nl ]
     else Ret []);
  links ←
    (if truthy (item_links it)
     then ls ← py_iter (item_links it);
          lis ← map_result index_link ls;
          Ret ([
        Py.nl +:+ "**Links:**" +:+ Py.nl +:+ Py.nl;
        "<ul>" ] ++ lis)
     else Ret []);
  Ret (heading ++ description ++ resources ++ slides_mention ++ links
         ++ ["</ul>"; Py.nl +:+ Py.nl; ""]).

(** Lines 771-851 for one section: its heading, its slides, its items. *)
Definition render_section (config : json) (section_configs : list (json * json))
    (sections : list (json * list item))
    (github_repo github_branch output_dir_name : json) (section : json)
    : M (list string) :=
  let section_items := default [] (assoc_get section sections) in
  let heading := Py.nl +:+ "## " +:+ py_str section +:+ Py.nl in
  let section_cfg := default (JDict []) (assoc_get section section_configs) in
  cfg_slides ← IO.lift (py_get section_cfg "slides" JNull);
  slides_md ←
    (if truthy cfg_slides then
       section_dir ←
         match section_items with
         | first :: _ =>
             folder ← IO.lift (required (item_section_folder first));
             f ← IO.lift (as_str folder);
             mret (PurePath.of_string f)
         | [] => mret (PurePath.of_string ".")
         end;
       out_name ← IO.lift (py_get config "output_dir" (JStr "docs"));
       out ← IO.lift (as_str out_name);
       slide_html ← generate_slide_embed cfg_slides (PurePath.parent section_dir)
                                         (PurePath.of_string out);
       mret [Py.nl +:+ slide_html +:+ Py.nl]
     else mret []);
  sorted_items ← IO.lift (sort_items section_items);
  rendered ← IO.lift (map_result (render_item github_repo github_branch output_dir_name)
                                 sorted_items);
  mret ([heading] ++ slides_md ++ List.concat rendered).

Definition default_index_template : string :=
  "# {{ title }}" +:+ Py.nl +:+ Py.nl +:+ "{{ description }}" +:+ Py.nl +:+ Py.nl +:+ "{{ notebooks }}" +:+ Py.nl.

Definition create_index (notebooks : list item) (config : json) (output_dir : Path)
    : M unit :=
  github_repo ← IO.lift (py_getitem config "github_repo");
  github_branch ← IO.lift (py_get config "github_branch" (JStr "main"));
  output_dir_name ← IO.lift (py_get config "output_dir" (JStr "docs"));
  cfgs_v ← IO.lift (py_get config "sections" (JList []));
  cfgs ← IO.lift (py_iter cfgs_v);
  section_configs ← IO.lift (collect_section_configs cfgs []);
  sections ← IO.lift (group_by_section notebooks []);
  section_order ← IO.lift (section_order_of cfgs sections);
  notebooks_md ←
    fold_m (fun acc section =>
              md ← render_section config section_configs sections
                                  github_repo github_branch output_dir_name section;
              mret (acc ++ md))
           [] section_order;
  template_v ← IO.lift (py_get config "index_template" (JStr default_index_template));
  template ← IO.lift (match template_v with
                      | JStr t => Ret t
                      | _ => Raise "AttributeError"
                      end);
  title_v ← IO.lift (py_get config "title" (JStr "Workshop"));
  title ← IO.lift (as_str title_v);
  let index_content := Py.replace "{{ title }}" title template in
  description_v ← IO.lift (py_get config "description" (JStr ""));
  description ← IO.lift (as_str description_v);
  let index_content := Py.replace "{{ description }}" description index_content in
  let index_content :=
    Py.replace "{{ notebooks }}" (Py.join Py.nl notebooks_md) index_content in
  author_v ← IO.lift (py_get config "author" (JStr ""));
  author ← IO.lift (as_str author_v);
  let index_content := Py.replace "{{ author }}" author index_content in
  organization_v ← IO.lift (py_get config "organization" (JStr ""));
  organization ← IO.lift (as_str organization_v);
  let index_content := Py.replace "{{ organization }}" organization index_content in
  let html_content := markdown_to_html index_content title in
  IO.write_text (PurePath.join output_dir "index.html") html_content ;;
  IO.print ("‚úì Created " +:+ PurePath.to_string (PurePath.join output_dir "index.html")).

(** *** Configuration and the main routine (publish.py, lines 232-246, 876-949) *)

Definition default_config : json :=
  JDict [ ("github_repo", JStr "jsoma/natural-pdf-workshop");
          ("github_branch", JStr "main");
          ("title", JStr "Workshop");
          ("description", JStr "");
          ("output_dir", JStr "docs") ].

Definition load_config : M json :=
  let config_path := PurePath.of_string "workshop-config.yaml" in
  found ← IO.exists_ config_path;
  if (found : bool) then
    text ← IO.read_text config_path;
    match yaml_safe_load text with
    | Some config => mret config
    | None => IO.raise "YAMLError"
    end
  else
    IO.print "Warning: workshop-config.yaml not found, using defaults" ;;
    mret default_config.

(** Lines 921-927 and 934-940: what the main loop adds to a record. *)
Definition tag_item (title folder section_slides : json) (info : item) : item :=
  {| item_name := item_name info;
     item_title := item_title info;
     item_description := item_description info;
     item_exercise_file := item_exercise_file info;
     item_answers_file := item_answers_file info;
     item_html_file := item_html_file info;
     item_data_file := item_data_file info;
     item_section := title;
     item_type := item_type info;
     item_order := item_order info;
     item_links := item_links info;
     item_slides := item_slides info;
     item_section_folder := Some folder;
     item_section_slides :=
       if truthy section_slides && negb (truthy (item_slides info))
       then Some section_slides else item_section_slides info |}.

(** One document of a section: process it and keep its record. *)
Definition process_document (process : Path -> Path -> json -> json -> M (option item))
    (output_dir : Path) (config title folder section_slides : json)
    (processed_items : list item) (path : Path) : M (list item) :=
  IO.print (Py.nl +:+ "Processing " +:+ PurePath.to_string path) ;;
  info ← process path output_dir config section_slides;
  match info with
  | Some i => mret (processed_items ++ [tag_item title folder section_slides i])
  | None => mret processed_items
  end.

Definition list_dir (folder : Path) (pattern : string) : M (list Path) := fun fs =>
  (Ret (path_glob (shape fs) folder pattern), fs, []).

(** The body of the loop over the sections (lines 897-940). *)
Definition process_section (output_dir : Path) (config : json)
    (processed_items : list item) (section : json) : M (list item) :=
  '(folder, title, section_slides) ←
    (if is_dict section then
       folder ← IO.lift (py_get section "folder" JNull);
       title ← IO.lift (py_get section "title" folder);
       section_slides ← IO.lift (py_get section "slides" JNull);
       mret (folder, title, section_slides)
     else mret (section, section, JNull));
  let missing := IO.print ("Warning: Section folder '" +:+ py_str folder +:+ "' not found") ;;
                 mret processed_items in
  if negb (truthy folder) then missing
  else
    folder_name ← IO.lift (as_str folder);
    let folder_path := PurePath.of_string folder_name in
    found ← IO.exists_ folder_path;
    if negb found then missing
    else
      notebooks ← list_dir folder_path "*.ipynb";
      processed_items ←
        fold_m (fun acc notebook_path =>
                  if is_substring ".ipynb_checkpoints" (PurePath.to_string notebook_path)
                  then mret acc
                  else process_document process_notebook output_dir config
                                        title folder section_slides acc notebook_path)
               processed_items notebooks;
      markdowns ← list_dir folder_path "*.md";
      fold_m (process_document process_markdown output_dir config title folder section_slides)
             processed_items markdowns.

Definition main : M unit :=
  config ← load_config;
  out_name ← IO.lift (py_get config "output_dir" (JStr "docs"));
  out ← IO.lift (as_str out_name);
  let output_dir := PurePath.of_string out in
  old ← IO.exists_ output_dir;
  (if (old : bool) then
     IO.rmtree output_dir ;;
     IO.print ("‚úì Cleaned up old " +:+ PurePath.to_string output_dir +:+ "/ directory")
   else mret tt) ;;
  IO.mkdir output_dir ;;
  sections_v ← IO.lift (py_get config "sections" (JList []));
  if negb (truthy sections_v) then
    IO.print "Warning: No sections defined in workshop-config.yaml"
  else
    sections ← IO.lift (py_iter sections_v);
    processed_items ← fold_m (process_section output_dir config) [] sections;
    (match processed_items with
     | [] => mret tt
     | _ => IO.print (Py.nl +:+ "Creating index.html...") ;;
            create_index processed_items config output_dir
     end) ;;
    IO.print (Py.nl +:+ "‚úì Published " +:+ string_of_nat (List.length processed_items)
                +:+ " items to " +:+ PurePath.to_string output_dir +:+ "/").

(** The script as a program: the import of [markdown] that may fail
    (lines 16-20), then [main()]. *)
Definition script : M unit :=
  (match markdown_markdown with
   | Some _ => mret tt
   | None => IO.print "Warning: 'markdown' package not installed. Install with: pip install markdown"
   end) ;;
  main.

End Publish.

(** ** A small concrete library, for running the model *)

Module Demo.

(** Compact JSON text. *)
Fixpoint dump (v : json) : string :=
  match v with
  | JNull => "null"
  | JBool true => "true"
  | JBool false => "false"
  | JNum z => string_of_Z z
  | JStr s => Py.dquote +:+ s +:+ Py.dquote
  | JList l => "[" +:+ Py.join "," (List.map dump l) +:+ "]"
  | JDict d =>
      "{" +:+ Py.join "," (List.map (fun kv => Py.dquote +:+ kv.1 +:+ Py.dquote +:+ ":"
                                                 +:+ dump kv.2) d) +:+ "}"
  end.

(** Loading finds the known document with this text. *)
Fixpoint load (known : list json) (text : string) : option json :=
  match known with
  | [] => None
  | v :: rest => if String.eqb (dump v) text then Some v else load rest text
  end.

(** The frontmatter of a text that starts with a [---] line and has a
    second one. *)
Fixpoint until_fence (acc lines : list string) : option (list string * list string) :=
  match lines with
  | [] => None
  | l :: rest => if String.eqb l "---" then Some (rev acc, rest) else until_fence (l :: acc) rest
  end.

Definition match_frontmatter (content : string) : option (string * string) :=
  match Py.split_lines content with
  | first :: rest =>
      if String.eqb first "---" then
        match until_fence [] rest with
        | Some (head, body) => Some (Py.join Py.nl head, Py.join Py.nl body)
        | None => None
        end
      else None
  | [] => None
  end.

Definition ends_with (suffix s : string) : bool :=
  String.prefix (String.rev suffix) (String.rev s).

(** The entries of [folder] whose name ends like the pattern after its
    star. *)
Definition list_folder (tree : gmap Path bool) (folder : Path) (pattern : string)
    : list Path :=
  List.filter (fun k => bool_decide (PurePath.parent k = folder ∧ k ≠ folder)
                        && ends_with (Py.drop_chars 1 pattern) (PurePath.name k))
              (List.map fst (map_to_list tree)).

(** A pattern without wildcard matches the path it names, if it is there. *)
Definition literal_glob (tree : gmap Path bool) (pattern : string) : list string :=
  if bool_decide (map_Exists (fun k _ => PurePath.is_under (PurePath.of_string pattern) k = true)
                             tree)
  then [pattern] else [].

Definition library (known_json known_yaml : list json) (with_markdown : bool) : Library :=
  {| glob_glob := literal_glob;
     path_glob := list_folder;
     json_load := load known_json;
     json_dump := dump;
     yaml_safe_load := load known_yaml;
     re_match_frontmatter := match_frontmatter;
     re_findall := fun _ _ => [];
     markdown_markdown :=
       if with_markdown then Some (fun c => "<article>" +:+ c +:+ "</article>") else None;
     run_convert := fun _ _ _ => ToolMissing;
     run_pdftoppm := fun _ _ _ => ToolMissing;
     repr_container := dump;
     page_template := fun title html => "<title>" +:+ title +:+ "</title>" +:+ html;
     slide_embed_template := fun slide_id slide_file preview =>
       "<div id=" +:+ slide_id +:+ " data-src=" +:+ slide_file +:+ ">" +:+ preview +:+ "</div>" |}.

(** A record as a processor builds it and the main loop tags it. *)
Definition entry (name : string) (section order : json) : item :=
  {| item_name := name;
     item_title := JStr name;
     item_description := JStr "";
     item_exercise_file := Some (name +:+ ".ipynb");
     item_answers_file := Some (name +:+ "-ANSWERS.ipynb");
     item_html_file := None;
     item_data_file := None;
     item_section := section;
     item_type := None;
     item_order := order;
     item_links := JNull;
     item_slides := JNull;
     item_section_folder := Some section;
     item_section_slides := None |}.

(** The file system with these files and the directories above them. *)
Definition tree (dirs : list string) (files : list (string * string)) : FS :=
  list_to_map (List.map (fun d => (PurePath.of_string d, Dir)) dirs
               ++ List.map (fun f => (PurePath.of_string f.1, File f.2)) files).

End Demo.

(** * The vocabulary of the properties

    The predicates and functions the statements below are written with:
    what a well-formed path is, what an archive member records, how the
    two versions of a notebook relate, the order of the index, and how a
    run ends. *)

Section Vocabulary.
Context {L : Library}.

(** The character [c] does not occur in [s]. *)
Fixpoint lacks (c : ascii) (s : string) : bool :=
  match s with
  | "" => true
  | String a rest => negb (Ascii.eqb a c) && lacks c rest
  end.

(** A component as [Path(s)] keeps it: not empty, not [.], no slash. *)
Definition good_part (x : string) : Prop :=
  PurePath.keep_part x = true /\ lacks PurePath.slash x = true.

(** The paths [Path(s)] builds. *)
Definition wf_path (p : Path) : Prop :=
  (root p = "" \/ root p = "/" \/ root p = "//") /\ Forall good_part (parts p).

(** The headings of the lines after the current one. *)
Definition later_headings (s : string) : list string :=
  omap h2_of_line (tl (Py.split_lines s)).

(** The name the script asks for: the path of the file relative to the
    document's directory, or its whole path when it does not lie there (the
    [except ValueError] branch of lines 460-462). *)
Definition archive_name (file_path base_dir : Path) : string :=
  match PurePath.relative_to file_path base_dir with
  | Some rel => PurePath.to_string rel
  | None => PurePath.to_string file_path
  end.

(** A member whose name needs no normalising: a file that is no directory,
    asked for under a path without [..] and without a NUL character. *)
Definition plain_member (n : node) (arcname : Path) : Prop :=
  n <> Dir /\ (".." ∉ parts arcname) /\ lacks nul (PurePath.to_string arcname) = true.

(** A path without its root: its text has no leading slash. *)
Definition without_root (p : Path) : Path := MkPath "" (parts p).

(** The path text a member was read from. *)
Definition member_source (m : string * Path * node) : string :=
  PurePath.to_string m.1.2.

(** The warning of line 453. *)
Definition no_match_warning (pattern : string) (base_dir : Path) : string :=
  "  Warning: No files match pattern '" +:+ pattern +:+ "' in "
    +:+ PurePath.to_string base_dir.

(** What holds between two steps of the loops: the archive at [zip_path]
    is the only thing that changed, [added_files] holds the path texts of
    its members, and every member came in once, under the name [zipfile]
    makes of its archive name. *)
Definition zip_inv (fs0 : FS) (zip_path base_dir : Path) (fs : FS)
    (added_files : gset string) : Prop :=
  exists members,
    fs = <[zip_path := Archive members]> fs0
    /\ (forall s, s ∈ added_files <-> s ∈ member_source <$> members)
    /\ Forall (fun m => wf_path m.1.2
                         /\ zip_member_name (archive_name m.1.2 base_dir) (node_is_dir m.2)
                            = Some m.1.1) members
    /\ NoDup (member_source <$> members).

(** The kernel both versions are given (lines 342-344). *)
Definition has_python3_kernel (nb : json) : Prop :=
  exists md ks,
    py_getitem nb "metadata" = Ret md
    /\ py_getitem md "kernelspec" = Ret ks
    /\ py_getitem ks "name" = Ret (JStr "python3")
    /\ py_getitem ks "display_name" = Ret (JStr "Python 3")
    /\ py_getitem ks "language" = Ret (JStr "python").

(** Where the two versions of a notebook are written (lines 419, 424). *)
Definition exercise_path (notebook_path output_dir : Path) : Path :=
  PurePath.join output_dir (PurePath.stem notebook_path +:+ ".ipynb").

Definition answers_path (notebook_path output_dir : Path) : Path :=
  PurePath.join output_dir (PurePath.stem notebook_path +:+ "-ANSWERS.ipynb").

(** The cells of a version: the cells of the source with the setup cell
    put in at its position, if there is one, and the slide link put first,
    if there is one. *)
Definition variant_cells (slide_cell : option json) (setup : option (nat * json))
    (cells : list json) : list json :=
  let with_setup := match setup with
                    | Some (pos, c) => list_insert_at pos c cells
                    | None => cells
                    end in
  match slide_cell with
  | Some c => c :: with_setup
  | None => with_setup
  end.

(** The tags of the cell are a list that holds ["solution"]. *)
Definition tagged_solution (cell : json) : Prop :=
  exists md tags,
    py_getitem cell "metadata" = Ret md
    /\ py_getitem md "tags" = Ret (JList tags)
    /\ JStr "solution" ∈ tags.

(** What is known of the two versions all along the processor: they are
    one dict up to their cells, the answers carry the kernel, and their
    cells are the source cells (stripped, for the exercise) with the same
    insertions [ins]. *)
Definition versions (notebook : json) (ins : list json -> list json)
    (complete_nb exercise_nb : json) : Prop :=
  (exists d, complete_nb = JDict d)
  /\ has_python3_kernel complete_nb
  /\ exists cv ev,
       py_getitem complete_nb "cells" = Ret cv
       /\ exercise_nb = set_item complete_nb "cells" ev
       /\ forall l,
            py_getitem notebook "cells" = Ret (JList l) ->
            exists stripped,
              map_result strip_solution l = Ret stripped
              /\ cv = JList (ins l)
              /\ ev = JList (ins stripped).

(** Where the source cell number [i] stands in a version. *)
Definition variant_index (slide_cell : option json) (setup : option (nat * json))
    (i : nat) : nat :=
  let with_setup := match setup with
                    | Some (pos, _) => if (i <? pos)%nat then i else S i
                    | None => i
                    end in
  match slide_cell with
  | Some _ => S with_setup
  | None => with_setup
  end.

(** [x] need not come after [y]: [y < x] is false. *)
Definition not_after {A : Type} (ltb : A -> A -> bool) (x y : A) : Prop :=
  ltb y x = false.

(** The order field of an item holds an integer, or nothing. *)
Definition numeric_order (it : item) : Prop :=
  item_order it = JNull \/ is_Some (num_of (item_order it)).

(** What the specification asks of two items listed one after the other:
    an explicit order comes first and ascends; without order the names
    descend. *)
Definition listed_before (a b : item) : Prop :=
  match num_of (item_order a), num_of (item_order b) with
  | Some x, Some y => (x <= y)%Z
  | Some _, None => True
  | None, Some _ => False
  | None, None => String.leb (item_name b) (item_name a) = true
  end.

(** The comparison of the first sort, on items whose order is numeric. *)
Definition item_ltb (a b : item) : bool :=
  match num_of (item_order a), num_of (item_order b) with
  | Some x, Some y => (x <? y)%Z
  | Some _, None => true
  | None, Some _ => false
  | None, None => String.ltb (item_name a) (item_name b)
  end.

(** Two runs end alike: same outcome, same file system. *)
Definition same_effect {A} (x y : result A * FS * list string) : Prop :=
  outcome x = outcome y /\ final_fs x = final_fs y.

(** What a run finds outside [output_dir]. *)
Definition inputs (output_dir : Path) (fs : FS) : FS :=
  filter (fun kv => PurePath.is_under output_dir kv.1 = false) fs.

(** A pure step returns or raises: only [sys.exit] ends a run otherwise. *)
Definition no_exit {A} (r : result A) : Prop :=
  match r with Exit _ => False | _ => True end.

(** The first line that is printed when a slide file is not found
    (lines 403 and 601). *)
Definition slide_not_found (slide : string) : string :=
  Py.nl +:+ "‚ùå ERROR: Slide file not found: " +:+ slide.

(** The slide is at neither place where it is looked for: next to the
    document, and as the path that was given. *)
Definition slide_missing (fs : FS) (notebook_dir : Path) (slide : string) : Prop :=
  IO.path_exists fs (PurePath.join notebook_dir slide) = false
  /\ IO.path_exists fs (PurePath.of_string slide) = false.

(** A run that ends by [sys.exit] ends with status 1, where a slide was
    missing, after it has said so. *)
Definition slide_exit {A} (r : result A * FS * list string) : Prop :=
  match outcome r with
  | Exit c =>
      c = 1%Z
      /\ exists slide notebook_dir,
           slide_missing (final_fs r) notebook_dir slide
           /\ slide_not_found slide ∈ stdout r
  | _ => True
  end.

(** The three lines of lines 403-405 and 601-603. *)
Definition slide_error (notebook_dir : Path) (slide : string) : list string :=
  [ slide_not_found slide;
    "   Looked in: " +:+ PurePath.to_string (PurePath.join notebook_dir slide);
    "   Also tried: " +:+ PurePath.to_string (PurePath.of_string slide) ].

(** The words of the specification for a solution cell: the two cells differ in nothing
    but their content, so in neither their type nor their metadata. *)
Definition differ_only_in_content (answers_cell exercise_cell : json) : Prop :=
  py_getitem answers_cell "cell_type" = py_getitem exercise_cell "cell_type"
  /\ py_getitem answers_cell "metadata" = py_getitem exercise_cell "metadata".

(** The text a title is ordered by. *)
Definition title_text (x : json) : string :=
  match x with JStr s => s | _ => "" end.

(** The order of [sorted()] on titles that are strings. *)
Definition title_ltb (x y : json) : bool := String.ltb (title_text x) (title_text y).

(** ** Further vocabulary *)

(** The groups of the index after the items [seen]: every item is in one
    group, in the order the items came in; the members of a group have its
    key as their section; no two groups have equal keys. *)
Definition grouped (seen : list item) (sections : list (json * list item)) : Prop :=
  Permutation seen (concat sections.*2)
  /\ Forall (fun kv => kv.2 <> []
                       /\ Forall (fun it => key_eqb (item_section it) kv.1 = true) kv.2
                       /\ sublist kv.2 seen) sections
  /\ StronglySorted (fun k1 k2 => key_eqb k2 k1 = false) sections.*1.

(** A computation that only adds to the file system: what was there
    before is there afterwards, unchanged, however the computation ends. *)
Definition only_adds {A} (m : M A) : Prop := forall fs : FS, fs ⊆ final_fs (m fs).

(** The items [items'] are the items [items] followed by items of the
    section with this title and folder. *)
Definition extended_by_section (title folder : json) (items items' : list item) : Prop :=
  exists added,
    items' = items ++ added
    /\ Forall (fun it => item_section it = title /\ item_section_folder it = Some folder) added.

(** The text has no frontmatter the markdown processor can use: no fenced
    block at its start, a block that is not valid YAML, or an empty one. *)
Definition no_frontmatter (content : string) : Prop :=
  match re_match_frontmatter content with
  | Some (yaml_content, _) =>
      match yaml_safe_load yaml_content with
      | Some frontmatter => truthy frontmatter = false
      | None => True
      end
  | None => True
  end.

(** Text of ASCII characters.  On such text the character classes of
    [Py] are those of Python. *)
Definition is_ascii (c : ascii) : bool := (nat_of_ascii c <? 128)%nat.

Definition ascii_text (s : string) : Prop :=
  Forall (fun c => is_ascii c = true) (list_ascii_of_string s).

End Vocabulary.

Abbreviation no_newline := (lacks Py.newline).

(** * Concrete inputs, for the examples *)

Module ArchiveExamples.

Definition lib : Library := Demo.library [] [] true.

(** A notebook directory [nb] with one data file, a file outside it, and
    the output directory. *)
Definition fs : FS :=
  Demo.tree ["nb"; "nb/data"; "docs"; "/srv"; "/srv/data"]
            [("nb/data/a.csv", "1,2"); ("/srv/data/b.csv", "3,4")].

Definition zip_path : Path := PurePath.of_string "docs/nb-data.zip".
Definition base_dir : Path := PurePath.of_string "nb".

Definition run (data_patterns : list string) : result unit * FS * list string :=
  create_data_zip (L := lib) (JList (JStr <$> data_patterns)) zip_path base_dir fs.

End ArchiveExamples.

Module NotebookExamples.

Definition lesson : json :=
  JDict [ ("cell_type", JStr "markdown");
          ("metadata", JDict []);
          ("source", JList [JStr "# Tables"]) ].

Definition solution : json :=
  JDict [ ("cell_type", JStr "code");
          ("metadata", JDict [("tags", JList [JStr "solution"])]);
          ("source", JList [JStr "page.extract_table()"]);
          ("execution_count", JNull);
          ("outputs", JList []) ].

(** A notebook with a lesson cell and a solution cell, a data file and
    slides; it declares another kernel. *)
Definition notebook : json :=
  JDict [ ("cells", JList [lesson; solution]);
          ("metadata",
           JDict [ ("kernelspec", JDict [("name", JStr "ir"); ("language", JStr "R")]);
                   ("workshop", JDict [ ("title", JStr "Tables");
                                        ("data_files", JList [JStr "a.csv"]);
                                        ("slides", JStr "tables.pdf") ]) ]) ].

(** The same cells without data files and slides. *)
Definition plain : json :=
  JDict [ ("cells", JList [lesson; solution]);
          ("metadata", JDict [("workshop", JDict [("title", JStr "Tables")])]) ].

Definition lib : Library := Demo.library [notebook; plain] [] true.

Definition fs : FS :=
  Demo.tree ["intro"; "docs"; "docs/intro"]
            [ ("intro/tables.ipynb", Demo.dump notebook);
              ("intro/plain.ipynb", Demo.dump plain);
              ("intro/a.csv", "1,2");
              ("intro/tables.pdf", "%PDF") ].

Definition notebook_path : Path := PurePath.of_string "intro/tables.ipynb".
Definition plain_path : Path := PurePath.of_string "intro/plain.ipynb".
Definition output_dir : Path := PurePath.of_string "docs/intro".

Definition run : result (option item) * FS * list string :=
  process_notebook (L := lib) notebook_path output_dir default_config JNull fs.

Definition info : item :=
  {| item_name := "tables";
     item_title := JStr "Tables";
     item_description := JStr "";
     item_exercise_file := Some "tables.ipynb";
     item_answers_file := Some "tables-ANSWERS.ipynb";
     item_html_file := None;
     item_data_file := Some "tables-data.zip";
     item_section := JStr "intro";
     item_type := None;
     item_order := JNull;
     item_links := JNull;
     item_slides := JStr "tables.pdf";
     item_section_folder := None;
     item_section_slides := None |}.

Definition plain_run : result (option item) * FS * list string :=
  process_notebook (L := lib) plain_path output_dir default_config JNull fs.

(** The two versions of [plain]. *)
Definition plain_metadata : json :=
  JDict [ ("workshop", JDict [("title", JStr "Tables")]);
          ("kernelspec", JDict [ ("name", JStr "python3");
                                 ("display_name", JStr "Python 3");
                                 ("language", JStr "python") ]) ].

Definition plain_answers : json :=
  JDict [("cells", JList [lesson; solution]); ("metadata", plain_metadata)].

Definition plain_exercise : json :=
  JDict [("cells", JList [lesson; empty_cell]); ("metadata", plain_metadata)].

End NotebookExamples.

Module WorkshopExamples.

(** A workshop of one section with one notebook. *)
Definition config : json :=
  JDict [ ("github_repo", JStr "jsoma/natural-pdf-workshop");
          ("title", JStr "Natural PDF");
          ("output_dir", JStr "docs");
          ("sections", JList [JDict [ ("folder", JStr "intro");
                                      ("title", JStr "Introduction") ]]) ].

Definition lib : Library := Demo.library [NotebookExamples.plain] [config] true.

Definition fs : FS :=
  Demo.tree ["intro"]
            [ ("workshop-config.yaml", Demo.dump config);
              ("intro/plain.ipynb", Demo.dump NotebookExamples.plain) ].

Definition output_dir : Path := PurePath.of_string "docs".

(** The first run, and the file system it leaves to the second. *)
Definition first_run : result unit * FS * list string := main (L := lib) fs.
Definition published : FS := final_fs first_run.

End WorkshopExamples.

Module ExitExamples.

(** A notebook without workshop metadata, and one whose slides are
    nowhere. *)
Definition bare : json :=
  JDict [("cells", JList [NotebookExamples.lesson]); ("metadata", JDict [])].

Definition with_slides : json :=
  JDict [ ("cells", JList [NotebookExamples.lesson]);
          ("metadata", JDict [("workshop", JDict [ ("title", JStr "Tables");
                                                   ("slides", JStr "nowhere.pdf") ])]) ].

(** The section declares slides that are nowhere. *)
Definition config_section_slides : json :=
  JDict [ ("github_repo", JStr "jsoma/natural-pdf-workshop");
          ("sections", JList [JDict [ ("folder", JStr "intro");
                                      ("slides", JStr "missing.pdf") ]]) ].

(** No repository is configured, and no slides. *)
Definition config_without_repo : json :=
  JDict [ ("title", JStr "Natural PDF");
          ("sections", JList [JDict [("folder", JStr "intro")]]) ].

Definition config_plain : json :=
  JDict [ ("github_repo", JStr "jsoma/natural-pdf-workshop");
          ("sections", JList [JDict [("folder", JStr "intro")]]) ].

Definition lib : Library :=
  Demo.library [bare; with_slides; NotebookExamples.plain]
               [config_section_slides; config_without_repo; config_plain] true.

(** The only notebook of the section is skipped. *)
Definition fs_skipped : FS :=
  Demo.tree ["intro"]
            [ ("workshop-config.yaml", Demo.dump config_section_slides);
              ("intro/bare.ipynb", Demo.dump bare) ].

Definition fs_without_repo : FS :=
  Demo.tree ["intro"]
            [ ("workshop-config.yaml", Demo.dump config_without_repo);
              ("intro/plain.ipynb", Demo.dump NotebookExamples.plain) ].

Definition fs_missing_slide : FS :=
  Demo.tree ["intro"]
            [ ("workshop-config.yaml", Demo.dump config_plain);
              ("intro/tables.ipynb", Demo.dump with_slides) ].

End ExitExamples.

Module MarkdownExamples.

(** A guide with a title in its frontmatter, and notes whose frontmatter
    is empty. *)
Definition frontmatter : json := JDict [("title", JStr "Guide")].

Definition guide : string :=
  "---" +:+ Py.nl +:+ Demo.dump frontmatter +:+ Py.nl +:+ "---" +:+ Py.nl +:+ "Welcome.".

Definition notes : string :=
  "---" +:+ Py.nl +:+ Demo.dump (JDict []) +:+ Py.nl +:+ "---" +:+ Py.nl +:+ "To do.".

Definition lib : Library := Demo.library [] [frontmatter; JDict []] true.

Definition fs : FS :=
  Demo.tree ["intro"; "docs"; "docs/intro"]
            [("intro/guide.md", guide); ("intro/notes.md", notes)].

Definition guide_path : Path := PurePath.of_string "intro/guide.md".
Definition notes_path : Path := PurePath.of_string "intro/notes.md".
Definition output_dir : Path := PurePath.of_string "docs/intro".

Definition run : result (option item) * FS * list string :=
  process_markdown (L := lib) guide_path output_dir default_config JNull fs.

Definition info : item :=
  {| item_name := "guide";
     item_title := JStr "Guide";
     item_description := JStr "";
     item_exercise_file := None;
     item_answers_file := None;
     item_html_file := Some "guide.html";
     item_data_file := None;
     item_section := JStr "intro";
     item_type := Some "markdown";
     item_order := JNull;
     item_links := JNull;
     item_slides := JNull;
     item_section_folder := None;
     item_section_slides := None |}.

End MarkdownExamples.

Module EmptyExamples.

(** A workshop without sections, and a page left by an earlier run. *)
Definition config : json :=
  JDict [("github_repo", JStr "jsoma/natural-pdf-workshop"); ("title", JStr "Natural PDF")].

Definition lib : Library := Demo.library [] [config] true.

(** The same without the markdown package. *)
Definition lib_without_markdown : Library := Demo.library [] [config] false.

Definition fs : FS :=
  Demo.tree ["docs"]
            [ ("workshop-config.yaml", Demo.dump config);
              ("docs/index.html", "<title>Natural PDF</title>") ].

(** A directory without a configuration file. *)
Definition fs_without_config : FS := Demo.tree ["intro"] [("intro/notes.md", "To do.")].

End EmptyExamples.

(** * Properties *)

(** ** Pieces of a text between separators *)

Section Pieces.
Context (sep : ascii).

Lemma split_on_cons s : exists l ls, Py.split_on sep s = l :: ls.
Proof.
  induction s as [|c rest IH]; simpl; [eauto|].
  destruct (Ascii.eqb c sep); [eauto|].
  destruct IH as (l & ls & ->); eauto.
Qed.

Lemma head_until_split s : head_until sep s = hd "" (Py.split_on sep s).
Proof.
  induction s as [|c rest IH]; simpl; [reflexivity|].
  destruct (Ascii.eqb c sep); [reflexivity|].
  destruct (split_on_cons rest) as (l & ls & E).
  rewrite E in *; simpl in *. by rewrite IH.
Qed.

Lemma split_on_sep rest :
  Py.split_on sep (String sep rest) = "" :: Py.split_on sep rest.
Proof. simpl. by rewrite Ascii.eqb_refl. Qed.

Lemma split_on_other c rest :
  Ascii.eqb c sep = false ->
  Py.split_on sep (String c rest)
  = String c (head_until sep rest) :: tl (Py.split_on sep rest).
Proof.
  intros Hc. simpl. rewrite Hc, head_until_split.
  destruct (split_on_cons rest) as (l & ls & ->). reflexivity.
Qed.

Lemma split_on_append_sep a b :
  lacks sep a = true ->
  Py.split_on sep (a +:+ String sep b) = a :: Py.split_on sep b.
Proof.
  induction a as [|c a IH]; intros Ha; [apply split_on_sep|].
  simpl in Ha. apply andb_prop in Ha as [Hc Ha]. apply negb_true_iff in Hc.
  change (String c a +:+ String sep b) with (String c (a +:+ String sep b)).
  simpl. rewrite Hc, (IH Ha). reflexivity.
Qed.

Lemma split_on_single a : lacks sep a = true -> Py.split_on sep a = [a].
Proof.
  induction a as [|c a IH]; intros Ha; [reflexivity|].
  simpl in Ha. apply andb_prop in Ha as [Hc Ha]. apply negb_true_iff in Hc.
  simpl. rewrite Hc, (IH Ha). reflexivity.
Qed.

Lemma lacks_app a b : lacks sep (a +:+ b) = lacks sep a && lacks sep b.
Proof.
  induction a as [|c a IH]; [reflexivity|].
  change (String c a +:+ b) with (String c (a +:+ b)). simpl.
  rewrite IH. by rewrite andb_assoc.
Qed.

Lemma lacks_head_until s : lacks sep (head_until sep s) = true.
Proof.
  induction s as [|c rest IH]; simpl; [reflexivity|].
  destruct (Ascii.eqb c sep) eqn:E; simpl; [reflexivity|].
  by rewrite E, IH.
Qed.

Lemma lacks_split_on s : Forall (fun l => lacks sep l = true) (Py.split_on sep s).
Proof.
  induction s as [|c rest IH]; simpl; [by repeat constructor|].
  destruct (Ascii.eqb c sep) eqn:E; [by constructor|].
  destruct (split_on_cons rest) as (l & ls & Hl). rewrite Hl in *.
  inversion IH; subst. constructor; [|done]. simpl. by rewrite E.
Qed.

Lemma lacks_drop_chars n s : lacks sep s = true -> lacks sep (Py.drop_chars n s) = true.
Proof.
  revert s; induction n as [|n IH]; intros [|c s] H; simpl; try done.
  simpl in H. apply andb_prop in H as [_ H]. by apply IH.
Qed.

Lemma string_app_assoc a b c : (a +:+ b) +:+ c = a +:+ (b +:+ c).
Proof.
  induction a as [|x a IH]; [reflexivity|].
  change (String x ((a +:+ b) +:+ c) = String x (a +:+ (b +:+ c))). by rewrite IH.
Qed.

(** Joining pieces that lack the separator and splitting again gives them
    back. *)
Lemma split_on_join ls :
  ls <> [] -> Forall (fun l => lacks sep l = true) ls ->
  Py.split_on sep (Py.join (String sep "") ls) = ls.
Proof.
  intros Hne Hall. induction Hall as [|x ls Hx Hall IH]; [done|].
  destruct ls as [|y ls].
  - change (Py.join (String sep "") [x]) with x. by apply split_on_single.
  - change (Py.join (String sep "") (x :: y :: ls))
      with (x +:+ String sep "" +:+ Py.join (String sep "") (y :: ls)).
    change (String sep "" +:+ ?r) with (String sep r).
    rewrite (split_on_append_sep x _ Hx).
    rewrite IH by done. reflexivity.
Qed.

End Pieces.

(** ** Paths in normal form *)

Section PathNormalForm.

Lemma splitroot_root s :
  (PurePath.splitroot s).1 = "" \/ (PurePath.splitroot s).1 = "/"
  \/ (PurePath.splitroot s).1 = "//".
Proof.
  unfold PurePath.splitroot.
  destruct (_ =? 0); [by left|]. destruct (_ =? 2); [by right; right|by right; left].
Qed.

Lemma of_string_wf s : wf_path (PurePath.of_string s).
Proof.
  unfold PurePath.of_string, wf_path.
  pose proof (splitroot_root s) as Hr.
  destruct (PurePath.splitroot s) as [r rel]. cbn in *. split; [done|].
  pose proof (lacks_split_on PurePath.slash rel) as Hall.
  induction Hall as [|x l Hx _ IH]; [constructor|].
  cbn [List.filter]. destruct (PurePath.keep_part x) eqn:Hk; [|done].
  constructor; [by split|done].
Qed.

Lemma filter_keep_good ps :
  Forall good_part ps -> List.filter PurePath.keep_part ps = ps.
Proof.
  induction 1 as [|x l [Hk _] _ IH]; [reflexivity|].
  cbn [List.filter]. by rewrite Hk, IH.
Qed.

Lemma good_part_head x :
  good_part x -> exists c rest, x = String c rest /\ Ascii.eqb c PurePath.slash = false.
Proof.
  intros [Hk Hs]. destruct x as [|c rest]; [done|].
  exists c, rest. split; [done|].
  cbn in Hs. apply andb_prop in Hs as [Hc _]. by apply negb_true_iff.
Qed.

(** The text of the components starts with a character that is no slash. *)
Lemma join_parts_head x ps :
  good_part x ->
  exists c rest, Py.join "/" (x :: ps) = String c rest
                 /\ Ascii.eqb c PurePath.slash = false.
Proof.
  intros (c & rest & -> & Hc)%good_part_head.
  destruct ps as [|y ps]; [by exists c, rest|].
  exists c, (rest +:+ "/" +:+ Py.join "/" (y :: ps)). by split.
Qed.

Lemma splitroot_relative c rest :
  Ascii.eqb c PurePath.slash = false ->
  PurePath.splitroot (String c rest) = ("", String c rest).
Proof.
  intros Hc. unfold PurePath.splitroot. cbn [PurePath.lstrip_slash]. rewrite Hc.
  by rewrite Nat.sub_diag.
Qed.

Lemma splitroot_one_slash c rest :
  Ascii.eqb c PurePath.slash = false ->
  PurePath.splitroot (String PurePath.slash (String c rest)) = ("/", String c rest).
Proof.
  intros Hc. unfold PurePath.splitroot. cbn [PurePath.lstrip_slash].
  rewrite Ascii.eqb_refl, Hc.
  replace (String.length (String PurePath.slash (String c rest))
           - String.length (String c rest)) with 1 by (cbn; lia).
  reflexivity.
Qed.

Lemma splitroot_two_slashes c rest :
  Ascii.eqb c PurePath.slash = false ->
  PurePath.splitroot (String PurePath.slash (String PurePath.slash (String c rest)))
  = ("//", String c rest).
Proof.
  intros Hc. unfold PurePath.splitroot. cbn [PurePath.lstrip_slash].
  rewrite Ascii.eqb_refl, Hc.
  replace (String.length (String PurePath.slash (String PurePath.slash (String c rest)))
           - String.length (String c rest)) with 2 by (cbn; lia).
  reflexivity.
Qed.

(** A path in normal form is the path of its own text. *)
Lemma of_string_to_string p : wf_path p -> PurePath.of_string (PurePath.to_string p) = p.
Proof.
  destruct p as [r ps]. intros [Hr Hps]. cbn in *.
  destruct ps as [|x ps].
  - by destruct Hr as [->|[->| ->]].
  - apply Forall_cons in Hps as Hx. destruct Hx as [Hx _].
    destruct (join_parts_head x ps Hx) as (c & rest & Hj & Hc).
    assert (Hsplit : List.filter PurePath.keep_part (PurePath.split_slash (String c rest))
                     = x :: ps).
    { rewrite <- Hj. change "/" with (String PurePath.slash "").
      rewrite split_on_join; [by apply filter_keep_good|done|].
      eapply Forall_impl; [exact Hps|]. by intros ? [_ ?]. }
    unfold PurePath.of_string, PurePath.to_string. cbn [root parts].
    destruct Hr as [->|[->| ->]].
    + change ("" +:+ ?s) with s. rewrite Hj, (splitroot_relative _ _ Hc).
      by rewrite Hsplit.
    + rewrite Hj. change ("/" +:+ ?s) with (String PurePath.slash s).
      rewrite (splitroot_one_slash _ _ Hc). by rewrite Hsplit.
    + rewrite Hj.
      change ("//" +:+ ?s) with (String PurePath.slash (String PurePath.slash s)).
      rewrite (splitroot_two_slashes _ _ Hc). by rewrite Hsplit.
Qed.

(** Two paths built from text are equal when their texts are. *)
Lemma of_string_inj a b :
  PurePath.to_string (PurePath.of_string a) = PurePath.to_string (PurePath.of_string b) ->
  PurePath.of_string a = PurePath.of_string b.
Proof.
  intros H. rewrite <- (of_string_to_string (PurePath.of_string a)) by apply of_string_wf.
  rewrite H. apply of_string_to_string, of_string_wf.
Qed.

End PathNormalForm.

(** ** Names with a suffix *)

Section SuffixedNames.

Lemma string_length_app a b : String.length (a +:+ b) = String.length a + String.length b.
Proof.
  induction a as [|c a IH]; [reflexivity|].
  change (String c a +:+ b) with (String c (a +:+ b)). cbn. by rewrite IH.
Qed.

(** Appending text without separator only lengthens the last piece. *)
Lemma split_on_app_lacks sep a s :
  lacks sep s = true ->
  Py.split_on sep (a +:+ s)
  = removelast (Py.split_on sep a) ++ [List.last (Py.split_on sep a) "" +:+ s].
Proof.
  intros Hs. induction a as [|c a IH].
  - change ("" +:+ s) with s. by rewrite split_on_single.
  - change (String c a +:+ s) with (String c (a +:+ s)).
    destruct (split_on_cons sep a) as (x & xs & Hx).
    cbn [Py.split_on]. rewrite IH, Hx.
    destruct (Ascii.eqb c sep); [reflexivity|].
    destruct xs as [|y ys]; reflexivity.
Qed.

Lemma lstrip_slash_app b c s :
  Ascii.eqb c PurePath.slash = false ->
  PurePath.lstrip_slash (b +:+ String c s) = PurePath.lstrip_slash b +:+ String c s.
Proof.
  intros Hc. induction b as [|a b IH].
  - change ("" +:+ String c s) with (String c s). cbn. by rewrite Hc.
  - change (String a b +:+ String c s) with (String a (b +:+ String c s)).
    cbn [PurePath.lstrip_slash]. by destruct (Ascii.eqb a PurePath.slash).
Qed.

Lemma lstrip_slash_length b : String.length (PurePath.lstrip_slash b) <= String.length b.
Proof.
  induction b as [|a b IH]; [done|]. cbn.
  destruct (Ascii.eqb a PurePath.slash); cbn; lia.
Qed.

Lemma splitroot_app b c s :
  Ascii.eqb c PurePath.slash = false ->
  PurePath.splitroot (b +:+ String c s)
  = ((PurePath.splitroot b).1, (PurePath.splitroot b).2 +:+ String c s).
Proof.
  intros Hc. unfold PurePath.splitroot.
  rewrite (lstrip_slash_app _ _ _ Hc), !string_length_app.
  pose proof (lstrip_slash_length b).
  replace (String.length b + String.length (String c s)
           - (String.length (PurePath.lstrip_slash b) + String.length (String c s)))
    with (String.length b - String.length (PurePath.lstrip_slash b)) by lia.
  destruct (_ =? 0); [done|]. by destruct (_ =? 2).
Qed.

Lemma keep_part_long x : 2 <= String.length x -> PurePath.keep_part x = true.
Proof. destruct x as [|a [|b x]]; cbn; try lia. by destruct (Ascii.eqb a _). Qed.

(** The path of a text that ends in a suffix without slash: the suffix
    extends the last component and leaves the rest alone. *)
Lemma of_string_suffix b :
  exists r init stem,
    forall c' s',
      Ascii.eqb c' PurePath.slash = false ->
      lacks PurePath.slash s' = true ->
      1 <= String.length s' ->
      PurePath.of_string (b +:+ String c' s')
      = MkPath r (init ++ [stem +:+ String c' s']).
Proof.
  exists (PurePath.splitroot b).1,
         (List.filter PurePath.keep_part
                      (removelast (PurePath.split_slash (PurePath.splitroot b).2))),
         (List.last (PurePath.split_slash (PurePath.splitroot b).2) "").
  intros c' s' Hc' Hs' Hlen.
  unfold PurePath.of_string. rewrite (splitroot_app _ _ _ Hc'). f_equal.
  rewrite split_on_app_lacks by (cbn; by rewrite Hc', Hs').
  rewrite List.filter_app. cbn [List.filter].
  rewrite keep_part_long; [done|].
  rewrite string_length_app. cbn. lia.
Qed.

Lemma join_suffix_ne output_dir b c1 s1 c2 s2 :
  Ascii.eqb c1 PurePath.slash = false -> lacks PurePath.slash s1 = true ->
  1 <= String.length s1 ->
  Ascii.eqb c2 PurePath.slash = false -> lacks PurePath.slash s2 = true ->
  1 <= String.length s2 ->
  String c1 s1 <> String c2 s2 ->
  PurePath.join output_dir (b +:+ String c1 s1)
  <> PurePath.join output_dir (b +:+ String c2 s2).
Proof.
  intros Hc1 Hs1 Hl1 Hc2 Hs2 Hl2 Hne.
  destruct (of_string_suffix b) as (r & init & stem & Hof).
  unfold PurePath.join, PurePath.joinpath.
  rewrite (Hof c1 s1), (Hof c2 s2) by done. cbn [root parts].
  assert (Hlast : init ++ [stem +:+ String c1 s1] <> init ++ [stem +:+ String c2 s2]).
  { intros [= H]%app_inv_head. by apply String.app_inj in H. }
  destruct (String.eqb r ""); intros [= H]; [apply app_inv_head in H|]; by apply Hlast.
Qed.

End SuffixedNames.

(** ** The table of contents *)

Section TableOfContents.

Lemma h2_headings_unfold s :
  h2_headings s = match h2_of_line (line_head s) with
                  | Some h => h :: later_headings s
                  | None => later_headings s
                  end.
Proof.
  unfold h2_headings, later_headings. rewrite (head_until_split Py.newline).
  destruct ((split_on_cons Py.newline) s) as (l & ls & ->). simpl.
  destruct (h2_of_line l); reflexivity.
Qed.

Lemma later_headings_newline rest :
  later_headings (String Py.newline rest) = h2_headings rest.
Proof. reflexivity. Qed.

Lemma later_headings_other c rest :
  Ascii.eqb c Py.newline = false ->
  later_headings (String c rest) = later_headings rest.
Proof.
  intros Hc. unfold later_headings. by rewrite (split_on_other Py.newline _ _ Hc).
Qed.

Lemma prefix_line_head p s :
  no_newline p = true -> String.prefix p (line_head s) = String.prefix p s.
Proof.
  revert s; induction p as [|a p IH]; intros s Hp.
  - by destruct s; simpl; [|destruct (Ascii.eqb _ _)].
  - simpl in Hp. apply andb_prop in Hp as [Ha Hp]. apply negb_true_iff in Ha.
    destruct s as [|c s]; [reflexivity|]. simpl.
    destruct (Ascii.eqb c Py.newline) eqn:Ec.
    + apply Ascii.eqb_eq in Ec; subst c.
      destruct (ascii_dec a Py.newline) as [->|Hne]; [by rewrite Ascii.eqb_refl in Ha|].
      by destruct (ascii_dec a Py.newline).
    + simpl. destruct (ascii_dec a c); [by apply IH|reflexivity].
Qed.

Lemma drop_chars_line_head n s :
  n <= String.length (line_head s) ->
  Py.drop_chars n (line_head s) = line_head (Py.drop_chars n s).
Proof.
  revert s; induction n as [|n IH]; intros s Hn; [reflexivity|].
  destruct s as [|c s]; [reflexivity|]. simpl in *.
  destruct (Ascii.eqb c Py.newline); simpl in *; [lia|].
  apply IH. lia.
Qed.

Lemma prefix_length p s : String.prefix p s = true -> String.length p <= String.length s.
Proof.
  revert s; induction p as [|a p IH]; intros [|c s] H; simpl in *; try lia; try done.
  destruct (ascii_dec a c); [|done]. apply IH in H. lia.
Qed.

(** An attempt at the start of a line finds the heading of that line. *)
Lemma match_h2_line s : match_h2 s = h2_of_line (line_head s).
Proof.
  unfold match_h2, h2_of_line.
  rewrite (prefix_line_head "## " s) by reflexivity.
  destruct (String.prefix "## " s) eqn:Hp; [|reflexivity].
  assert (Hlen : 3 <= String.length (line_head s)).
  { rewrite <- (prefix_line_head "## " s) in Hp by reflexivity.
    by apply prefix_length in Hp. }
  cbv zeta. rewrite <- (drop_chars_line_head 3 s Hlen).
  destruct (line_head s) as [|a [|b [|c [|d t]]]]; simpl in *; try lia; reflexivity.
Qed.

Lemma prefix_split p s :
  String.prefix p s = true -> s = p +:+ Py.drop_chars (String.length p) s.
Proof.
  revert s; induction p as [|a p IH]; intros s H; [reflexivity|].
  destruct s as [|c s]; [done|]. cbn [String.prefix] in H.
  destruct (ascii_dec a c) as [->|]; [|done].
  change (String c s = String c (p +:+ Py.drop_chars (String.length p) s)).
  f_equal. by apply IH.
Qed.

Lemma match_h2_shape s hdr :
  match_h2 s = Some hdr ->
  exists rest, s = "## " +:+ rest /\ hdr = line_head rest /\ hdr <> "".
Proof.
  unfold match_h2. destruct (String.prefix "## " s) eqn:Hp; [|done].
  apply prefix_split in Hp. cbv zeta.
  destruct (String.eqb (line_head (Py.drop_chars 3 s)) "") eqn:E; [done|].
  intros [= <-]. exists (Py.drop_chars 3 s). split; [exact Hp|]. split; [reflexivity|].
  by apply String.eqb_neq.
Qed.

(** Inside a line no attempt succeeds: the scan yields the headings of the
    later lines, whether it is passing a match or between matches. *)
Lemma findall_h2_scan s :
  (forall prev skip,
      skip <= String.length (line_head s) ->
      (skip = 0 -> at_line_start prev = false) ->
      findall_h2 prev skip s = later_headings s)
  /\ (forall prev, at_line_start prev = true -> findall_h2 prev 0 s = h2_headings s).
Proof.
  induction s as [|c rest [IHin IHstart]].
  - split; intros; destruct skip || idtac; reflexivity.
  - assert (Hnext : forall skip,
               Ascii.eqb c Py.newline = false ->
               skip <= String.length (line_head rest) ->
               findall_h2 (Some c) skip rest = later_headings (String c rest)).
    { intros skip Hc Hskip. rewrite (later_headings_other _ _ Hc).
      apply IHin; [done|]. intros _. exact Hc. }
    split.
    + intros prev skip Hskip Hmid. simpl in Hskip.
      destruct skip as [|k]; simpl.
      * rewrite (Hmid eq_refl).
        destruct (Ascii.eqb c Py.newline) eqn:Hc.
        -- apply Ascii.eqb_eq in Hc; subst c. rewrite later_headings_newline.
           by apply IHstart.
        -- apply Hnext; [done|lia].
      * destruct (Ascii.eqb c Py.newline) eqn:Hc; simpl in Hskip; [lia|].
        apply Hnext; [done|lia].
    + intros prev Hprev. cbn [findall_h2]. rewrite Hprev.
      rewrite h2_headings_unfold, <- match_h2_line.
      destruct (match_h2 (String c rest)) as [hdr|] eqn:Hm.
      * apply match_h2_shape in Hm as (r & Hs & -> & Hne).
        change ("## " +:+ r) with (String "#" (String "#" (String " " r))) in Hs.
        injection Hs as -> ->. f_equal.
        apply Hnext; [reflexivity|].
        simpl. lia.
      * destruct (Ascii.eqb c Py.newline) eqn:Hc.
        -- apply Ascii.eqb_eq in Hc; subst c. rewrite later_headings_newline.
           by apply IHstart.
        -- apply Hnext; [done|lia].
Qed.

(** [re.findall] with the heading pattern returns the second-level headings
    of the body, line by line. *)
Lemma findall_h2_headings body : findall_h2 None 0 body = h2_headings body.
Proof. by apply findall_h2_scan. Qed.

Lemma no_newline_h2_of_line l h :
  no_newline l = true -> h2_of_line l = Some h -> no_newline h = true.
Proof.
  unfold h2_of_line. intros Hl. destruct (_ && _); [|done].
  intros [= <-]. exact ((lacks_drop_chars Py.newline) 3 l Hl).
Qed.

Lemma no_newline_h2_headings body : Forall (fun h => no_newline h = true) (h2_headings body).
Proof.
  unfold h2_headings.
  pose proof ((lacks_split_on Py.newline) body) as H.
  induction H as [|l ls Hl _ IH]; simpl; [constructor|].
  destruct (h2_of_line l) eqn:E; [|done].
  constructor; [|done]. eapply no_newline_h2_of_line; eauto.
Qed.

End TableOfContents.

Section TableOfContentsLines.

Lemma no_newline_rev_app s acc :
  no_newline (String.rev_app s acc) = no_newline s && no_newline acc.
Proof.
  revert acc; induction s as [|c s IH]; intros acc; [reflexivity|].
  simpl. rewrite IH. simpl.
  destruct (Ascii.eqb c Py.newline), (no_newline s), (no_newline acc); reflexivity.
Qed.

Lemma no_newline_rev s : no_newline (String.rev s) = no_newline s.
Proof. unfold String.rev. rewrite no_newline_rev_app. simpl. apply andb_true_r. Qed.

Lemma no_newline_lstrip s : no_newline s = true -> no_newline (Py.lstrip s) = true.
Proof.
  induction s as [|c s IH]; [done|]. intros H. simpl.
  destruct (Py.is_space c); [|done].
  simpl in H. apply andb_prop in H as [_ H]. by apply IH.
Qed.

Lemma no_newline_strip s : no_newline s = true -> no_newline (Py.strip s) = true.
Proof.
  intros H. unfold Py.strip.
  rewrite no_newline_rev. apply no_newline_lstrip.
  rewrite no_newline_rev. by apply no_newline_lstrip.
Qed.

Lemma no_newline_filter_chars p s :
  no_newline s = true -> no_newline (Py.filter_chars p s) = true.
Proof.
  induction s as [|c s IH]; [done|]. intros H. simpl in *.
  apply andb_prop in H as [Hc H].
  destruct (p c); simpl; [rewrite Hc|]; by apply IH.
Qed.

Lemma lower_char_newline c :
  Ascii.eqb c Py.newline = false -> Ascii.eqb (Py.lower_char c) Py.newline = false.
Proof. destruct c as [[] [] [] [] [] [] [] []]; vm_compute; congruence. Qed.

Lemma no_newline_lower s : no_newline s = true -> no_newline (Py.lower s) = true.
Proof.
  induction s as [|c s IH]; [done|]. intros H. simpl in *.
  apply andb_prop in H as [Hc H]. apply negb_true_iff in Hc.
  by rewrite (lower_char_newline _ Hc), IH.
Qed.

Lemma no_newline_replace_aux old new skip s :
  no_newline new = true -> no_newline s = true ->
  no_newline (Py.replace_aux old new skip s) = true.
Proof.
  intros Hnew. revert skip; induction s as [|c s IH]; intros skip H; [done|].
  simpl in H. apply andb_prop in H as [Hc H]. cbn [Py.replace_aux].
  destruct skip; [|by apply IH].
  destruct (String.prefix old (String c s)).
  - rewrite (lacks_app Py.newline), Hnew. by apply IH.
  - simpl. rewrite Hc. by apply IH.
Qed.

Lemma no_newline_replace old new s :
  no_newline new = true -> no_newline s = true -> no_newline (Py.replace old new s) = true.
Proof.
  intros. unfold Py.replace. destruct (String.eqb old ""); [done|].
  by apply no_newline_replace_aux.
Qed.

Lemma no_newline_toc_entry h : no_newline h = true -> no_newline (toc_entry h) = true.
Proof.
  intros H. unfold toc_entry, anchor_of.
  rewrite !(lacks_app Py.newline), H. simpl.
  rewrite no_newline_replace; [done..|].
  by apply no_newline_lower, no_newline_strip, no_newline_filter_chars.
Qed.

Lemma nl_app r : Py.nl +:+ r = String Py.newline r.
Proof. reflexivity. Qed.

(** Joining lines that hold no newline and splitting again gives them
    back, with the empty piece after the final newline. *)
Lemma split_lines_join ls :
  ls <> [] -> Forall (fun l => no_newline l = true) ls ->
  Py.split_lines (Py.join Py.nl ls +:+ Py.nl) = ls ++ [""].
Proof.
  intros Hne Hall. induction Hall as [|x ls Hx Hall IH]; [done|].
  destruct ls as [|y ls].
  - change (Py.join Py.nl [x]) with x. unfold Py.nl.
    by rewrite ((split_on_append_sep Py.newline) x "" Hx).
  - change (Py.join Py.nl (x :: y :: ls)) with (x +:+ Py.nl +:+ Py.join Py.nl (y :: ls)).
    rewrite !string_app_assoc, nl_app.
    rewrite ((split_on_append_sep Py.newline) x _ Hx).
    rewrite IH by done. reflexivity.
Qed.

Lemma toc_entry_prefix h : String.prefix "- [" (toc_entry h) = true.
Proof.
  unfold toc_entry.
  change ("- [" +:+ ?r) with (String "-" (String " " (String "[" r))).
  cbn [String.prefix].
  repeat (match goal with |- context [ascii_dec ?x ?y] =>
            destruct (ascii_dec x y); [|done] end).
  by destruct (h +:+ _).
Qed.

Lemma filter_toc_entries hs :
  List.filter (String.prefix "- [") (List.map toc_entry hs) = List.map toc_entry hs.
Proof.
  induction hs as [|h hs IH]; [reflexivity|].
  cbn [List.filter List.map]. by rewrite toc_entry_prefix, IH.
Qed.

(** The lines of the table built from a non-empty list of headers. *)
Lemma toc_lines headers :
  headers <> [] -> Forall (fun h => no_newline h = true) headers ->
  Py.split_lines
    (Py.join Py.nl (("## Table of Contents" +:+ Py.nl) :: List.map toc_entry headers) +:+ Py.nl)
  = ["## Table of Contents"; ""] ++ List.map toc_entry headers ++ [""].
Proof.
  intros Hne Hall.
  destruct headers as [|h hs]; [done|].
  change (Py.join Py.nl (("## Table of Contents" +:+ Py.nl) :: List.map toc_entry (h :: hs)))
    with (("## Table of Contents" +:+ Py.nl) +:+ Py.nl
            +:+ Py.join Py.nl (List.map toc_entry (h :: hs))).
  rewrite !string_app_assoc, !nl_app.
  rewrite ((split_on_append_sep Py.newline) "## Table of Contents") by reflexivity.
  rewrite (split_on_sep Py.newline).
  rewrite split_lines_join; [reflexivity|done|].
  apply Forall_map. eapply Forall_impl; [exact Hall|].
  intros x Hx. by apply no_newline_toc_entry.
Qed.

End TableOfContentsLines.

(** C3, as amended.  The entries of the table of contents are, in order,
    the entries of the second-level headings of the body; when the document
    has links ([has_useful_links]), one entry for the generated "Useful
    Links" section comes before them.  A body without headings and without
    links gets no table at all. *)
Theorem toc_entries_follow_headings (body : string) (has_useful_links : bool) :
  toc_entries (generate_toc_from_markdown body has_useful_links)
  = List.map toc_entry
      ((if has_useful_links then ["Useful Links"] else []) ++ h2_headings body).
Proof.
  unfold generate_toc_from_markdown. rewrite findall_h2_headings.
  set (headers := if has_useful_links then _ else _).
  assert (Hsame : headers
                  = (if has_useful_links then ["Useful Links"] else []) ++ h2_headings body)
    by (subst headers; by destruct has_useful_links).
  assert (Hall : Forall (fun h => no_newline h = true) headers).
  { subst headers. pose proof (no_newline_h2_headings body).
    destruct has_useful_links; [constructor|]; done. }
  rewrite <- Hsame. clearbody headers.
  destruct headers as [|h hs]; [reflexivity|].
  unfold toc_entries. rewrite toc_lines by done.
  cbn [app List.filter]. rewrite List.filter_app, filter_toc_entries.
  change (String.prefix "- [" "## Table of Contents") with false.
  change (String.prefix "- [" "") with false.
  cbn [List.filter]. by rewrite app_nil_r.
Qed.

(** C3 as the specification words it fails for a document with links: a
    body without any heading still gets one entry. *)
Lemma toc_entries_useful_links_counterexample :
  toc_entries (generate_toc_from_markdown "" true)
  <> List.map toc_entry (h2_headings "").
Proof. vm_compute. discriminate. Qed.

(** ** Running computations *)

Section Running.

Lemma result_bind_ret_inv {A B} (m : result A) (f : A -> result B) b :
  m ≫= f = Ret b -> exists a, m = Ret a /\ f a = Ret b.
Proof. destruct m as [a| |]; cbn; [eauto|done..]. Qed.

Lemma bind_ret_inv {A B} (m : M A) (f : A -> M B) fs b fs' out :
  (m ≫= f) fs = (Ret b, fs', out) ->
  exists a fs1 out1 out2,
    m fs = (Ret a, fs1, out1) /\ f a fs1 = (Ret b, fs', out2) /\ out = out1 ++ out2.
Proof.
  unfold mbind, M_bind.
  destruct (m fs) as [[[a|c|e] fs1] out1]; [|done..].
  destruct (f a fs1) as [[r fs2] out2] eqn:Hf.
  intros [= -> -> <-]. by exists a, fs1, out1, out2.
Qed.

Lemma bind_run {A B} (m : M A) (f : A -> M B) fs a fs1 out1 :
  m fs = (Ret a, fs1, out1) ->
  (m ≫= f) fs = (let '(r, fs2, out2) := f a fs1 in (r, fs2, out1 ++ out2)).
Proof. unfold mbind, M_bind. by intros ->. Qed.

Lemma lift_ret_inv {A} (r : result A) fs a fs' out :
  IO.lift r fs = (Ret a, fs', out) -> r = Ret a /\ fs' = fs /\ out = [].
Proof. unfold IO.lift. by intros [= -> -> <-]. Qed.

Lemma mret_inv {A} (a b : A) (fs fs' : FS) out :
  (mret a : M A) fs = (Ret b, fs', out) -> b = a /\ fs' = fs /\ out = [].
Proof. by intros [= -> -> <-]. Qed.

(** A run whose outcome is known, written out. *)
Lemma run_eta {A} (x : result A * FS * list string) (a : A) :
  outcome x = Ret a -> x = (Ret a, final_fs x, stdout x).
Proof. destruct x as [[r f] o]. cbn. by intros ->. Qed.

Lemma print_ret_inv line (fs fs' : FS) u out :
  IO.print line fs = (Ret u, fs', out) -> fs' = fs /\ out = [line].
Proof. destruct u. by intros [= -> <-]. Qed.

End Running.

(** Take a successful run of a sequence apart, step by step. *)
Ltac run_inv H :=
  repeat
    match type of H with
    | (_ ≫= _) _ = (Ret _, _, _) =>
        let a := fresh "a" in let fs1 := fresh "fs" in
        let o1 := fresh "out" in let o2 := fresh "out" in
        let H1 := fresh "Hstep" in let Ho := fresh "Hout" in
        apply bind_ret_inv in H as (a & fs1 & o1 & o2 & H1 & H & Ho);
        match type of Ho with ?x = _ => first [subst x | idtac] end;
        first [ apply lift_ret_inv in H1 as (H1 & -> & ->)
              | apply print_ret_inv in H1 as (-> & ->)
              | apply mret_inv in H1 as (-> & -> & ->)
              | idtac ]
    end.

(** ** The data archive *)

Section DataArchive.
Context {L : Library}.

Lemma shape_archive (fs0 : FS) zip_path members :
  shape (<[zip_path := Archive members]> fs0) = shape (<[zip_path := Archive []]> fs0).
Proof. unfold shape. by rewrite !fmap_insert. Qed.

Lemma zip_inv_shape fs0 zip_path base_dir fs added_files :
  zip_inv fs0 zip_path base_dir fs added_files ->
  shape fs = shape (<[zip_path := Archive []]> fs0).
Proof. intros (members & -> & _). apply shape_archive. Qed.

Lemma zip_write_inv (fs0 : FS) zip_path members file_path arcname u fs' out :
  zip_write zip_path file_path arcname (<[zip_path := Archive members]> fs0)
  = (Ret u, fs', out) ->
  exists n name,
    zip_member_name arcname (node_is_dir n) = Some name
    /\ fs' = <[zip_path := Archive (members ++ [(name, file_path, n)])]> fs0
    /\ out = [].
Proof.
  unfold zip_write.
  destruct (match _ !! file_path with Some n => Some n | None => _ end) as [n|]; [|done].
  destruct (zip_member_name arcname (node_is_dir n)) as [name|] eqn:Hname; [|done].
  rewrite lookup_insert_eq. intros [= _ <- <-].
  exists n, name. by rewrite insert_insert_eq.
Qed.

Lemma add_match_inv fs0 zip_path base_dir fs added_files m added' fs' out :
  zip_inv fs0 zip_path base_dir fs added_files ->
  add_match zip_path base_dir added_files m fs = (Ret added', fs', out) ->
  zip_inv fs0 zip_path base_dir fs' added'
  /\ added_files ⊆ added'
  /\ PurePath.to_string (PurePath.of_string m) ∈ added'
  /\ out = [].
Proof.
  intros Hinv. unfold add_match.
  set (file_path := PurePath.of_string m).
  case_bool_decide as Hin.
  - intros (-> & -> & ->)%mret_inv. by repeat split.
  - intros Hrun. run_inv Hrun. apply mret_inv in Hrun as (-> & -> & ->).
    destruct Hinv as (members & -> & Hadded & Hall & Hnodup).
    apply zip_write_inv in Hstep as (n & name & Hname & -> & ->).
    split; [|split; [set_solver|split; [set_solver|done]]].
    eexists. split; [reflexivity|]. rewrite fmap_app. cbn [fmap list_fmap].
    split_and!.
    + intros s. rewrite elem_of_union, elem_of_singleton, elem_of_app, list_elem_of_singleton.
      rewrite Hadded. unfold member_source at 3. cbn. tauto.
    + apply Forall_app. split; [done|]. constructor; [|constructor].
      cbn. split; [apply of_string_wf|]. rewrite <- Hname. unfold archive_name.
      by destruct (PurePath.relative_to _ _).
    + apply NoDup_app. split_and!; [done| |apply NoDup_singleton].
      intros s Hs ->%list_elem_of_singleton. apply Hin, Hadded. exact Hs.
Qed.

Lemma add_matches_inv fs0 zip_path base_dir matches :
  forall fs added_files added' fs' out,
    zip_inv fs0 zip_path base_dir fs added_files ->
    fold_m (add_match zip_path base_dir) added_files matches fs = (Ret added', fs', out) ->
    zip_inv fs0 zip_path base_dir fs' added'
    /\ added_files ⊆ added'
    /\ (forall m, m ∈ matches -> PurePath.to_string (PurePath.of_string m) ∈ added')
    /\ out = [].
Proof.
  induction matches as [|m rest IH]; intros fs added_files added' fs' out Hinv Hrun.
  - apply mret_inv in Hrun as (-> & -> & ->). split_and!; [done..| |done].
    intros m Hm. by apply elem_of_nil in Hm.
  - cbn [fold_m] in Hrun. run_inv Hrun.
    apply (add_match_inv _ _ _ _ _ _ _ _ _ Hinv) in Hstep as (Hinv1 & Hsub1 & Hm & ->).
    apply (IH _ _ _ _ _ Hinv1) in Hrun as (Hinv2 & Hsub2 & Hrest & ->).
    split_and!; [done|set_solver| |done].
    intros m' [->|Hm']%elem_of_cons; [set_solver|by apply Hrest].
Qed.

Lemma add_pattern_inv fs0 zip_path base_dir fs added_files pattern added' fs' out :
  zip_inv fs0 zip_path base_dir fs added_files ->
  add_pattern zip_path base_dir added_files pattern fs = (Ret added', fs', out) ->
  exists pat,
    pattern = JStr pat
    /\ zip_inv fs0 zip_path base_dir fs' added'
    /\ added_files ⊆ added'
    /\ (forall m,
          m ∈ glob_glob (shape (<[zip_path := Archive []]> fs0))
                        (PurePath.to_string (PurePath.join base_dir pat)) ->
          PurePath.to_string (PurePath.of_string m) ∈ added')
    /\ (glob_glob (shape (<[zip_path := Archive []]> fs0))
                  (PurePath.to_string (PurePath.join base_dir pat)) = [] ->
        out = [no_match_warning pat base_dir]).
Proof.
  intros Hinv Hrun. unfold add_pattern in Hrun. run_inv Hrun.
  destruct pattern as [| | |pat| |]; try done. injection Hstep as <-.
  exists pat. split; [done|].
  injection Hstep0 as <-.
  rewrite (zip_inv_shape _ _ _ _ _ Hinv) in *.
  set (matches := glob_glob _ _) in *.
  match type of Hstep1 with _ = (_, ?f, ?o) => rename f into fs_w; rename o into out_w end.
  assert (Hwarn : fs_w = fs /\ (matches = [] -> out_w = [no_match_warning pat base_dir])).
  { destruct matches.
    - by apply print_ret_inv in Hstep1 as (-> & ->).
    - by apply mret_inv in Hstep1 as (_ & -> & ->). }
  destruct Hwarn as (-> & Hw).
  apply (add_matches_inv _ _ _ _ _ _ _ _ _ Hinv) in Hrun as (Hinv' & Hsub & Hms & ->).
  split_and!; [done..|].
  intros Hnone. cbn. rewrite (Hw Hnone). by rewrite app_nil_r.
Qed.

End DataArchive.

(** The names of the members. *)

Section MemberNames.

Lemma norm_comps_plain initial_slashes kept comps :
  ".." ∉ List.filter PurePath.keep_part comps ->
  norm_comps initial_slashes kept comps = rev kept ++ List.filter PurePath.keep_part comps.
Proof.
  revert kept. induction comps as [|comp rest IH]; intros kept Hplain.
  - cbn. by rewrite app_nil_r.
  - cbn [norm_comps List.filter] in *. unfold PurePath.keep_part in *.
    destruct (String.eqb comp "") eqn:Hempty; cbn [negb andb orb] in *; [by apply IH|].
    destruct (String.eqb comp ".") eqn:Hdot; cbn [negb andb orb] in *; [by apply IH|].
    apply not_elem_of_cons in Hplain as [Hcomp Hrest].
    destruct (String.eqb_spec comp "..") as [->|_]; [done|]. cbn [negb orb].
    rewrite IH by done. cbn [rev]. by rewrite <- app_assoc.
Qed.

Lemma filter_split_lstrip_slash s :
  List.filter PurePath.keep_part (PurePath.split_slash (PurePath.lstrip_slash s))
  = List.filter PurePath.keep_part (PurePath.split_slash s).
Proof.
  induction s as [|c s IH]; [done|]. cbn [PurePath.lstrip_slash].
  destruct (Ascii.eqb c PurePath.slash) eqn:Hc; [|done].
  cbn [Py.split_on]. rewrite Hc. by rewrite IH.
Qed.

Lemma parts_of_string s :
  parts (PurePath.of_string s) = List.filter PurePath.keep_part (PurePath.split_slash s)
  /\ root (PurePath.of_string s) = (PurePath.splitroot s).1.
Proof.
  unfold PurePath.of_string, PurePath.splitroot.
  destruct (_ =? 0); [done|]. destruct (_ =? 2); cbn; by rewrite filter_split_lstrip_slash.
Qed.

Lemma join_parts_not_empty x ps : good_part x -> String.eqb (Py.join "/" (x :: ps)) "" = false.
Proof. intros Hx. by destruct (join_parts_head x ps Hx) as (c & rest & -> & _). Qed.

(** A path text without [..] is normalised as [Path] reads it. *)
Lemma normpath_plain s :
  ".." ∉ parts (PurePath.of_string s) ->
  normpath s = PurePath.to_string (PurePath.of_string s).
Proof.
  intros Hplain. pose proof (of_string_wf s) as [Hroot Hparts].
  destruct (parts_of_string s) as [Hps Hr]. rewrite Hps in Hplain.
  unfold normpath. rewrite norm_comps_plain by done. cbn [rev app].
  rewrite <- Hps, <- Hr. unfold PurePath.to_string.
  destruct (parts (PurePath.of_string s)) as [|x ps] eqn:E.
  - by destruct Hroot as [-> | [-> | ->]].
  - apply Forall_cons in Hparts as [Hx _].
    destruct (join_parts_head x ps Hx) as (c & rest & Hj & _). rewrite Hj.
    by destruct Hroot as [-> | [-> | ->]].
Qed.

Lemma head_until_lacks c s : lacks c s = true -> head_until c s = s.
Proof.
  induction s as [|a s IH]; [done|]. cbn. intros [Ha Hs]%andb_prop.
  apply negb_true_iff in Ha. rewrite Ha. by rewrite IH.
Qed.

(** The name of a member that needs no normalising is the text of its
    path without the root. *)
Lemma zip_member_name_plain p name :
  wf_path p ->
  ".." ∉ parts p ->
  lacks nul (PurePath.to_string p) = true ->
  zip_member_name (PurePath.to_string p) false = Some name ->
  name = PurePath.to_string (without_root p).
Proof.
  intros Hwf Hplain Hnul. unfold zip_member_name.
  rewrite normpath_plain by (by rewrite of_string_to_string).
  rewrite of_string_to_string by done.
  destruct p as [r ps]. destruct Hwf as [Hroot Hparts]. cbn in Hroot, Hparts.
  unfold without_root. cbn [parts].
  destruct ps as [|x ps].
  - destruct Hroot as [-> | [-> | ->]]; vm_compute; [by intros [= <-]|done..].
  - assert (Htext : forall r', PurePath.to_string (MkPath r' (x :: ps))
                               = r' +:+ Py.join "/" (x :: ps)) by (by intros []).
    rewrite !Htext in *.
    apply Forall_cons in Hparts as [Hx _].
    destruct (join_parts_head x ps Hx) as (c & rest & Hj & Hc). rewrite Hj in *.
    rewrite lstrip_slash_app by done.
    rewrite lacks_app in Hnul. apply andb_prop in Hnul as [_ Hnul].
    assert (PurePath.lstrip_slash r = "") as -> by (by destruct Hroot as [-> | [-> | ->]]).
    change ("" +:+ String c rest) with (String c rest).
    cbn [String.eqb]. rewrite head_until_lacks by done.
    by intros [= <-].
Qed.

Lemma strip_prefix_Forall {P : string -> Prop} pre ps rest :
  PurePath.strip_prefix pre ps = Some rest -> Forall P ps -> Forall P rest.
Proof.
  revert ps. induction pre as [|x pre IH]; intros [|y ps]; cbn; try done.
  - by intros [= <-].
  - by intros [= <-].
  - destruct (String.eqb x y); [|done]. intros Hrest [_ Hps]%Forall_cons. by eapply IH.
Qed.

Lemma relative_to_wf p base rel :
  wf_path p -> PurePath.relative_to p base = Some rel -> wf_path rel /\ without_root rel = rel.
Proof.
  intros [_ Hparts]. unfold PurePath.relative_to.
  destruct (String.eqb _ _); [|done].
  destruct (PurePath.strip_prefix _ _) as [rest|] eqn:Hrest; [|done]. intros [= <-].
  split; [|done]. split; [by left|]. by eapply strip_prefix_Forall.
Qed.

End MemberNames.

Section DataArchiveClaims.
Context {L : Library}.

Lemma add_patterns_inv fs0 zip_path base_dir patterns :
  forall fs added_files added' fs' out,
    zip_inv fs0 zip_path base_dir fs added_files ->
    fold_m (add_pattern zip_path base_dir) added_files patterns fs = (Ret added', fs', out) ->
    zip_inv fs0 zip_path base_dir fs' added'
    /\ added_files ⊆ added'
    /\ (forall pat m,
          JStr pat ∈ patterns ->
          m ∈ glob_glob (shape (<[zip_path := Archive []]> fs0))
                        (PurePath.to_string (PurePath.join base_dir pat)) ->
          PurePath.to_string (PurePath.of_string m) ∈ added')
    /\ (forall pat,
          JStr pat ∈ patterns ->
          glob_glob (shape (<[zip_path := Archive []]> fs0))
                    (PurePath.to_string (PurePath.join base_dir pat)) = [] ->
          no_match_warning pat base_dir ∈ out).
Proof.
  induction patterns as [|p rest IH]; intros fs added_files added' fs' out Hinv Hrun.
  - apply mret_inv in Hrun as (-> & -> & ->).
    split_and!; [done|done|intros ?? Hp|intros ? Hp]; by apply elem_of_nil in Hp.
  - cbn [fold_m] in Hrun.
    apply bind_ret_inv in Hrun as (added1 & fs1 & out1 & out2 & Hp & Hrest & ->).
    apply (add_pattern_inv _ _ _ _ _ _ _ _ _ Hinv) in Hp
      as (pat0 & -> & Hinv1 & Hsub1 & Hms1 & Hw1).
    apply (IH _ _ _ _ _ Hinv1) in Hrest as (Hinv2 & Hsub2 & Hms2 & Hw2).
    split_and!; [done|by etrans| |].
    + intros pat m [[= ->]|Hin]%elem_of_cons Hm.
      * apply Hsub2. by apply Hms1.
      * by apply (Hms2 pat).
    + intros pat [[= ->]|Hin]%elem_of_cons Hnone; apply elem_of_app.
      * left. rewrite (Hw1 Hnone). by left.
      * right. by apply Hw2.
Qed.

(** A run of [create_data_zip] that returns, taken apart: the archive it
    leaves and what the loops established. *)
Lemma create_data_zip_inv data_patterns zip_path base_dir (fs : FS) u fs' out :
  create_data_zip data_patterns zip_path base_dir fs = (Ret u, fs', out) ->
  exists patterns added_files out_loop,
    py_iter data_patterns = Ret patterns
    /\ zip_inv fs zip_path base_dir fs' added_files
    /\ (forall pat m,
          JStr pat ∈ patterns ->
          m ∈ glob_glob (shape (<[zip_path := Archive []]> fs))
                        (PurePath.to_string (PurePath.join base_dir pat)) ->
          PurePath.to_string (PurePath.of_string m) ∈ added_files)
    /\ (forall pat,
          JStr pat ∈ patterns ->
          glob_glob (shape (<[zip_path := Archive []]> fs))
                    (PurePath.to_string (PurePath.join base_dir pat)) = [] ->
          no_match_warning pat base_dir ∈ out_loop)
    /\ exists line, out = out_loop ++ [line].
Proof.
  unfold create_data_zip. intros Hrun.
  apply bind_ret_inv in Hrun as ([] & fs1 & out1 & out2 & Hcreate & Hrun & ->).
  apply bind_ret_inv in Hrun as (patterns & fs2 & out3 & out4 & Hiter & Hrun & ->).
  apply lift_ret_inv in Hiter as (Hiter & -> & ->).
  apply bind_ret_inv in Hrun as (added_files & fs3 & out5 & out6 & Hloop & Hprint & ->).
  apply print_ret_inv in Hprint as (-> & ->).
  assert (Hfs1 : fs1 = <[zip_path := Archive []]> fs /\ out1 = []).
  { unfold IO.create in Hcreate.
    destruct (negb _); [done|].
    destruct (fs !! zip_path) as [[]|]; try done; by injection Hcreate as <- <-. }
  destruct Hfs1 as [-> ->].
  assert (Hinv0 : zip_inv fs zip_path base_dir (<[zip_path := Archive []]> fs) ∅).
  { exists []. split_and!; [done|set_solver|constructor|constructor]. }
  apply (add_patterns_inv _ _ _ _ _ _ _ _ _ Hinv0) in Hloop as (Hinv & _ & Hms & Hw).
  exists patterns, added_files, out5. split_and!; [done..|].
  eexists. cbn. reflexivity.
Qed.


(** C5.  When [create_data_zip] returns, no path text occurs twice among
    the members of the archive, however many patterns matched it, and the
    warning of every pattern without a match has been printed; such a
    pattern changes nothing and raises nothing, so the loop goes on. *)
Theorem create_data_zip_once_and_warns
    data_patterns zip_path base_dir (fs : FS) u fs' out :
  create_data_zip data_patterns zip_path base_dir fs = (Ret u, fs', out) ->
  exists members,
    fs' !! zip_path = Some (Archive members)
    /\ NoDup (member_source <$> members)
    /\ (forall patterns pat,
          py_iter data_patterns = Ret patterns ->
          JStr pat ∈ patterns ->
          glob_glob (shape (<[zip_path := Archive []]> fs))
                    (PurePath.to_string (PurePath.join base_dir pat)) = [] ->
          no_match_warning pat base_dir ∈ out)
    /\ (forall added_files pat (st : FS),
          glob_glob (shape st) (PurePath.to_string (PurePath.join base_dir pat)) = [] ->
          add_pattern zip_path base_dir added_files (JStr pat) st
          = (Ret added_files, st, [no_match_warning pat base_dir])).
Proof.
  intros Hrun.
  apply create_data_zip_inv in Hrun
    as (patterns' & added_files & out_loop & Hiter' & Hinv & _ & Hw & line & ->).
  destruct Hinv as (members & -> & _ & _ & Hnodup).
  exists members. rewrite lookup_insert_eq. split_and!; [done..| |].
  - intros patterns pat Hiter Hpat Hnone.
    rewrite Hiter in Hiter'. injection Hiter' as <-.
    apply elem_of_app. left. by apply Hw.
  - intros added pat st Hnone.
    unfold add_pattern, glob, mbind, M_bind, IO.lift, as_str. by rewrite Hnone.
Qed.

End DataArchiveClaims.

(** ** Dicts *)

Section Dicts.

Lemma dict_lookup_set k k' v d :
  Dict.lookup k' (Dict.set k v d)
  = if String.eqb k' k then Some v else Dict.lookup k' d.
Proof.
  induction d as [|[k0 v0] d IH]; cbn.
  - by destruct (String.eqb k' k).
  - destruct (String.eqb_spec k k0) as [->|Hne]; cbn.
    + by destruct (String.eqb k' k0).
    + rewrite IH. destruct (String.eqb_spec k' k0) as [->|]; [|done].
      destruct (String.eqb_spec k0 k) as [->|]; done.
Qed.

Lemma dict_set_set k a b d : Dict.set k b (Dict.set k a d) = Dict.set k b d.
Proof.
  induction d as [|[k0 v0] d IH]; cbn.
  - by rewrite String.eqb_refl.
  - destruct (String.eqb k k0) eqn:E; cbn; rewrite ?String.eqb_refl, ?E; [done|].
    by rewrite IH.
Qed.

Lemma getitem_set_item_eq d k v : py_getitem (set_item (JDict d) k v) k = Ret v.
Proof. cbn. by rewrite dict_lookup_set, String.eqb_refl. Qed.

Lemma getitem_set_item_ne x k k' v :
  k' <> k -> py_getitem (set_item x k v) k' = py_getitem x k'.
Proof.
  intros Hne. destruct x as [| | | | |d]; try done. cbn.
  rewrite dict_lookup_set. by destruct (String.eqb_spec k' k).
Qed.

Lemma set_item_set_item x k a b : set_item (set_item x k a) k b = set_item x k b.
Proof. destruct x; try done. cbn. by rewrite dict_set_set. Qed.

Lemma getitem_update_key_ne x k k' f :
  k' <> k -> py_getitem (update_key k f x) k' = py_getitem x k'.
Proof.
  intros Hne. destruct x as [| | | | |d]; try done. cbn.
  destruct (Dict.lookup k d); [|done].
  cbn. rewrite dict_lookup_set. by destruct (String.eqb_spec k' k).
Qed.

Lemma getitem_dict x k v : py_getitem x k = Ret v -> exists d, x = JDict d.
Proof. destruct x; try done. eauto. Qed.

End Dicts.

(** ** The two versions of a notebook *)

Section NotebookVersions.
Context {L : Library}.

Lemma set_kernelspec_inv nb complete_nb :
  set_kernelspec nb = Ret complete_nb ->
  has_python3_kernel complete_nb
  /\ py_getitem complete_nb "cells" = py_getitem nb "cells"
  /\ exists d, complete_nb = JDict d.
Proof.
  unfold set_kernelspec.
  set (nb1 := match nb with JDict d => _ | _ => nb end).
  assert (Hcells : py_getitem nb1 "cells" = py_getitem nb "cells").
  { subst nb1. destruct nb as [| | | | |d]; try done.
    destruct (Dict.mem "metadata" d); [done|]. by apply getitem_set_item_ne. }
  clearbody nb1.
  intros (nb_md & Hmd & H)%result_bind_ret_inv.
  apply result_bind_ret_inv in H as (has_ks & Hhas & H).
  set (nb_md1 := if has_ks then nb_md else set_item nb_md "kernelspec" (JDict [])) in H.
  apply result_bind_ret_inv in H as (ks & Hks & H).
  destruct ks as [| | | | |ksd]; try done. injection H as <-.
  destruct (getitem_dict _ _ _ Hmd) as (d1 & ->).
  destruct (getitem_dict _ _ _ Hks) as (mdd & Hmdd).
  split_and!.
  - eexists _, _. split; [apply getitem_set_item_eq|]. rewrite Hmdd.
    split; [apply getitem_set_item_eq|].
    cbn -[Dict.lookup Dict.set]. rewrite !dict_lookup_set. by cbn.
  - by rewrite getitem_set_item_ne.
  - cbn. eauto.
Qed.

End NotebookVersions.

Section NotebookCells.
Context {L : Library}.

Lemma exercise_answers_paths_differ notebook_path output_dir :
  exercise_path notebook_path output_dir <> answers_path notebook_path output_dir.
Proof.
  unfold exercise_path, answers_path.
  change ".ipynb" with (String "." "ipynb").
  change "-ANSWERS.ipynb" with (String "-" "ANSWERS.ipynb").
  apply join_suffix_ne; try done; cbn; lia.
Qed.

Lemma tagged_solution_is_solution cell :
  tagged_solution cell -> is_solution_cell cell = Ret true.
Proof.
  intros (md & tags & Hmd & Htags & Hin). unfold is_solution_cell.
  destruct cell as [| | | | |d]; try done. cbn in Hmd |- *.
  destruct (Dict.lookup "metadata" d) as [md'|]; [|done]. injection Hmd as ->. cbn.
  destruct md as [| | | | |mdd]; try done. cbn in Htags |- *.
  destruct (Dict.lookup "tags" mdd) as [t|]; [|done]. injection Htags as ->. cbn.
  destruct tags as [|t0 ts]; [by apply elem_of_nil in Hin|]. cbn -[existsb].
  f_equal. apply existsb_exists. exists (JStr "solution").
  split; [by apply list_elem_of_In|done].
Qed.

Lemma insert_cell_inv pos cell nb nb' :
  insert_cell pos cell nb = Ret nb' ->
  exists l, py_getitem nb "cells" = Ret (JList l)
            /\ nb' = set_item nb "cells" (JList (list_insert_at pos cell l)).
Proof.
  unfold insert_cell. intros (cells & Hcells & H)%result_bind_ret_inv.
  destruct cells as [| | | |l|]; try done. injection H as <-. eauto.
Qed.

Lemma create_setup_cell_plain zip_name config install_packages links cell :
  create_setup_cell zip_name config install_packages links = Ret cell ->
  strip_solution cell = Ret cell.
Proof.
  unfold create_setup_cell.
  intros (? & _ & H)%result_bind_ret_inv.
  apply result_bind_ret_inv in H as (? & _ & H).
  apply result_bind_ret_inv in H as (? & _ & H).
  apply result_bind_ret_inv in H as (? & _ & H).
  apply result_bind_ret_inv in H as (? & _ & H).
  by injection H as <-.
Qed.

(** Stripping the solutions from the cells of a list, one by one. *)
Lemma strip_solutions_list l ex_cells :
  strip_solutions (JList l) = Ret ex_cells ->
  exists stripped, map_result strip_solution l = Ret stripped /\ ex_cells = JList stripped.
Proof.
  cbn. intros (stripped & Hs & H)%result_bind_ret_inv. injection H as <-. eauto.
Qed.

Lemma map_result_Forall2 {A B} (f : A -> result B) l l' :
  map_result f l = Ret l' -> Forall2 (fun a b => f a = Ret b) l l'.
Proof.
  revert l'; induction l as [|x l IH]; intros l'; cbn.
  - intros [= <-]. constructor.
  - intros (y & Hy & H)%result_bind_ret_inv.
    apply result_bind_ret_inv in H as (ys & Hys & H). injection H as <-.
    constructor; [done|by apply IH].
Qed.

Lemma variant_cells_Forall2 (R : json -> json -> Prop) slide_cell setup l l' :
  Forall2 R l l' ->
  (forall c, slide_cell = Some c -> R c c) ->
  (forall pos c, setup = Some (pos, c) -> R c c) ->
  Forall2 R (variant_cells slide_cell setup l) (variant_cells slide_cell setup l').
Proof.
  intros Hl Hslide Hsetup. unfold variant_cells.
  assert (Hmid : Forall2 R
            match setup with Some (pos, c) => list_insert_at pos c l | None => l end
            match setup with Some (pos, c) => list_insert_at pos c l' | None => l' end).
  { destruct setup as [[pos c]|]; [|done]. unfold list_insert_at.
    apply Forall2_app; [by apply Forall2_take|].
    constructor; [by eapply Hsetup|by apply Forall2_drop]. }
  destruct slide_cell as [c|]; [|done]. constructor; [by apply Hslide|done].
Qed.

Lemma variant_cells_elem_of slide_cell setup l c :
  c ∈ l -> c ∈ variant_cells slide_cell setup l.
Proof.
  intros Hc. unfold variant_cells.
  assert (Hmid : c ∈ match setup with
                     | Some (pos, c') => list_insert_at pos c' l
                     | None => l
                     end).
  { destruct setup as [[pos c']|]; [|done]. unfold list_insert_at.
    rewrite <- (take_drop pos l) in Hc.
    apply elem_of_app in Hc as [Hc|Hc]; apply elem_of_app; [by left|right; by right]. }
  destruct slide_cell; [by right|done].
Qed.

End NotebookCells.

Section NotebookProcessor.
Context {L : Library}.

Lemma has_kernel_set_cells nb v :
  has_python3_kernel nb -> has_python3_kernel (set_item nb "cells" v).
Proof.
  intros (md & ks & Hmd & H). exists md, ks. split; [|done].
  by rewrite getitem_set_item_ne.
Qed.

Lemma versions_init notebook source complete_nb cv ev :
  set_kernelspec source = Ret complete_nb ->
  py_getitem source "cells" = py_getitem notebook "cells" ->
  py_getitem complete_nb "cells" = Ret cv ->
  strip_solutions cv = Ret ev ->
  versions notebook (fun l => l) complete_nb (set_item complete_nb "cells" ev).
Proof.
  intros (Hk & Hcells & Hd)%set_kernelspec_inv Hsrc Hcv Hstrip.
  split_and!; [done|done|].
  exists cv, ev. split_and!; [done..|].
  intros l Hl. rewrite Hcells, Hsrc, Hl in Hcv. injection Hcv as <-.
  apply strip_solutions_list in Hstrip as (stripped & Hs & ->). eauto.
Qed.

(** Both versions get the same cell at the same place. *)
Lemma versions_insert notebook ins complete_nb exercise_nb pos cell complete' exercise' :
  versions notebook ins complete_nb exercise_nb ->
  insert_cell pos cell complete_nb = Ret complete' ->
  insert_cell pos cell exercise_nb = Ret exercise' ->
  versions notebook (fun l => list_insert_at pos cell (ins l)) complete' exercise'.
Proof.
  intros ([d ->] & Hk & cv & ev & Hcv & -> & Hsrc) Hc He.
  apply insert_cell_inv in Hc as (lc & Hlc & ->).
  apply insert_cell_inv in He as (le & Hle & ->).
  rewrite getitem_set_item_eq in Hle. injection Hle as ->.
  rewrite Hlc in Hcv. injection Hcv as <-.
  split_and!; [by cbn; eauto|by apply has_kernel_set_cells|].
  eexists _, _. split_and!; [apply getitem_set_item_eq|by rewrite !set_item_set_item|].
  intros l Hl. destruct (Hsrc l Hl) as (stripped & Hs & [= ->] & [= ->]). eauto.
Qed.

Lemma add_setup_cell_inv base_name notebook_dir output_dir config metadata data_files
    complete_nb exercise_nb fs complete' exercise' fs' out :
  add_setup_cell base_name notebook_dir output_dir config metadata data_files
                 complete_nb exercise_nb fs
  = (Ret (complete', exercise'), fs', out) ->
  exists pos setup_cell,
    insert_cell pos setup_cell complete_nb = Ret complete'
    /\ insert_cell pos setup_cell exercise_nb = Ret exercise'
    /\ strip_solution setup_cell = Ret setup_cell.
Proof.
  intros Hrun. unfold add_setup_cell in Hrun.
  apply bind_ret_inv in Hrun as (install & ? & ? & ? & _ & Hrun & _).
  apply bind_ret_inv in Hrun as (links & ? & ? & ? & _ & Hrun & _).
  apply bind_ret_inv in Hrun as (setup_cell & ? & ? & ? & Hsetup & Hrun & _).
  apply lift_ret_inv in Hsetup as (Hsetup & _).
  apply bind_ret_inv in Hrun as (cells & ? & ? & ? & _ & Hrun & _).
  apply bind_ret_inv in Hrun as (pos & ? & ? & ? & _ & Hrun & _).
  apply bind_ret_inv in Hrun as (c1 & ? & ? & ? & Hc & Hrun & _).
  apply lift_ret_inv in Hc as (Hc & _).
  apply bind_ret_inv in Hrun as (e1 & ? & ? & ? & He & Hrun & _).
  apply lift_ret_inv in He as (He & _).
  apply bind_ret_inv in Hrun as ([] & ? & ? & ? & _ & Hrun & _).
  apply mret_inv in Hrun as ([= <- <-] & _).
  exists pos, setup_cell. split_and!; [done..|].
  by eapply create_setup_cell_plain.
Qed.

Lemma add_slides_inv notebook_dir output_dir slide_file complete_nb exercise_nb
    fs complete' exercise' fs' out :
  add_slides notebook_dir output_dir slide_file complete_nb exercise_nb fs
  = (Ret (complete', exercise'), fs', out) ->
  exists slide_cell,
    insert_cell 0 slide_cell complete_nb = Ret complete'
    /\ insert_cell 0 slide_cell exercise_nb = Ret exercise'
    /\ strip_solution slide_cell = Ret slide_cell.
Proof.
  intros Hrun. unfold add_slides in Hrun.
  apply bind_ret_inv in Hrun as (c1 & ? & ? & ? & Hc & Hrun & _).
  apply lift_ret_inv in Hc as (Hc & _).
  apply bind_ret_inv in Hrun as (e1 & ? & ? & ? & He & Hrun & _).
  apply lift_ret_inv in He as (He & _).
  apply bind_ret_inv in Hrun as (slide & ? & ? & ? & _ & Hrun & _).
  apply bind_ret_inv in Hrun as (at_first & ? & ? & ? & _ & Hrun & _).
  apply bind_ret_inv in Hrun as (found & ? & ? & ? & _ & Hrun & _).
  apply bind_ret_inv in Hrun as ([] & ? & ? & ? & _ & Hrun & _).
  apply mret_inv in Hrun as ([= <- <-] & _).
  eexists. split_and!; [exact Hc|exact He|reflexivity].
Qed.

Lemma write_text_inv p text (fs : FS) u fs' out :
  IO.write_text p text fs = (Ret u, fs', out) -> fs' = <[p := File text]> fs /\ out = [].
Proof.
  unfold IO.write_text, IO.create. destruct (negb _); [done|].
  destruct (fs !! p) as [[]|]; try done; by intros [= _ <- <-].
Qed.

End NotebookProcessor.

Section NotebookWritten.
Context {L : Library}.

Lemma read_text_inv p (fs : FS) text fs' out :
  IO.read_text p fs = (Ret text, fs', out) -> fs !! p = Some (File text) /\ fs' = fs.
Proof.
  unfold IO.read_text. destruct (fs !! p) as [[]|]; try done. by intros [= -> <- _].
Qed.

(** A call of the processor that returns an item has read a notebook and
    written its two versions, which are related as [versions] says. *)
Lemma process_notebook_inv notebook_path output_dir config section_slides fs info fs' out :
  process_notebook notebook_path output_dir config section_slides fs
  = (Ret (Some info), fs', out) ->
  exists text notebook slide_cell setup complete_nb exercise_nb,
    fs !! notebook_path = Some (File text)
    /\ json_load text = Some notebook
    /\ versions notebook (variant_cells slide_cell setup) complete_nb exercise_nb
    /\ (forall c, slide_cell = Some c -> strip_solution c = Ret c)
    /\ (forall pos c, setup = Some (pos, c) -> strip_solution c = Ret c)
    /\ fs' !! exercise_path notebook_path output_dir = Some (File (json_dump exercise_nb))
    /\ fs' !! answers_path notebook_path output_dir = Some (File (json_dump complete_nb)).
Proof.
  intros Hrun. unfold process_notebook in Hrun.
  apply bind_ret_inv in Hrun as (text & ? & ? & ? & Hread & Hrun & _).
  apply read_text_inv in Hread as (Hread & ->).
  apply bind_ret_inv in Hrun as (notebook & ? & ? & ? & Hload & Hrun & _).
  apply lift_ret_inv in Hload as (Hload & -> & _).
  destruct (json_load text) as [nb0|] eqn:Hjson; [|done]. injection Hload as ->.
  apply bind_ret_inv in Hrun as (metadata & ? & ? & ? & _ & Hrun & _).
  destruct (negb (truthy metadata)).
  { apply bind_ret_inv in Hrun as (? & ? & ? & ? & _ & Hrun & _).
    by apply mret_inv in Hrun as (? & _). }
  apply bind_ret_inv in Hrun as (own_slides & ? & ? & ? & _ & Hrun & _).
  set (metadata1 := if negb (truthy own_slides) && truthy section_slides
                    then set_item metadata "slides" section_slides else metadata) in Hrun.
  set (source := update_key "metadata" (update_key "workshop" (fun _ => metadata1)) notebook)
    in Hrun.
  apply bind_ret_inv in Hrun as (complete_nb & ? & ? & ? & Hks & Hrun & _).
  apply lift_ret_inv in Hks as (Hks & _).
  apply bind_ret_inv in Hrun as (cv & ? & ? & ? & Hcv & Hrun & _).
  apply lift_ret_inv in Hcv as (Hcv & _).
  apply bind_ret_inv in Hrun as (ev & ? & ? & ? & Hev & Hrun & _).
  apply lift_ret_inv in Hev as (Hev & _).
  assert (Hv0 : versions notebook (fun l => l) complete_nb
                  (set_item (deep_copy complete_nb) "cells" ev)).
  { eapply versions_init; [exact Hks| |exact Hcv|exact Hev].
    by apply getitem_update_key_ne. }
  apply bind_ret_inv in Hrun as (data_files & ? & ? & ? & _ & Hrun & _).
  apply bind_ret_inv in Hrun as ([c1 e1] & ? & ? & ? & Hsetup & Hrun & _).
  assert (exists setup,
            versions notebook (variant_cells None setup) c1 e1
            /\ forall pos c, setup = Some (pos, c) -> strip_solution c = Ret c)
    as (setup & Hv1 & Hplain1).
  { destruct (truthy data_files).
    - apply add_setup_cell_inv in Hsetup as (pos & cell & Hc & He & Hp).
      exists (Some (pos, cell)). split.
      + exact (versions_insert _ _ _ _ _ _ _ _ Hv0 Hc He).
      + by intros ? ? [= <- <-].
    - apply mret_inv in Hsetup as ([= -> ->] & _). exists None. by split. }
  apply bind_ret_inv in Hrun as (? & ? & ? & ? & _ & Hrun & _).
  apply bind_ret_inv in Hrun as (? & ? & ? & ? & _ & Hrun & _).
  apply bind_ret_inv in Hrun as (slide_file & ? & ? & ? & _ & Hrun & _).
  apply bind_ret_inv in Hrun as ([c2 e2] & ? & ? & ? & Hslides & Hrun & _).
  assert (exists slide_cell,
            versions notebook (variant_cells slide_cell setup) c2 e2
            /\ forall c, slide_cell = Some c -> strip_solution c = Ret c)
    as (slide_cell & Hv2 & Hplain2).
  { destruct (truthy slide_file).
    - apply add_slides_inv in Hslides as (cell & Hc & He & Hp).
      exists (Some cell). split.
      + exact (versions_insert _ _ _ _ _ _ _ _ Hv1 Hc He).
      + by intros ? [= <-].
    - apply mret_inv in Hslides as ([= -> ->] & _). exists None. by split. }
  apply bind_ret_inv in Hrun as (? & fsw1 & ? & ? & Hw1 & Hrun & _).
  apply write_text_inv in Hw1 as (Hw1 & _).
  apply bind_ret_inv in Hrun as (? & ? & ? & ? & Hp1 & Hrun & _).
  apply print_ret_inv in Hp1 as (-> & _).
  apply bind_ret_inv in Hrun as (? & fsw2 & ? & ? & Hw2 & Hrun & _).
  apply write_text_inv in Hw2 as (Hw2 & _).
  apply bind_ret_inv in Hrun as (? & ? & ? & ? & Hp2 & Hrun & _).
  apply print_ret_inv in Hp2 as (-> & _).
  apply bind_ret_inv in Hrun as (? & ? & ? & ? & Hl1 & Hrun & _).
  apply lift_ret_inv in Hl1 as (_ & -> & _).
  apply bind_ret_inv in Hrun as (? & ? & ? & ? & Hl2 & Hrun & _).
  apply lift_ret_inv in Hl2 as (_ & -> & _).
  apply bind_ret_inv in Hrun as (? & ? & ? & ? & Hl3 & Hrun & _).
  apply lift_ret_inv in Hl3 as (_ & -> & _).
  apply bind_ret_inv in Hrun as (? & ? & ? & ? & Hl4 & Hrun & _).
  apply lift_ret_inv in Hl4 as (_ & -> & _).
  apply bind_ret_inv in Hrun as (? & ? & ? & ? & Hl5 & Hrun & _).
  apply lift_ret_inv in Hl5 as (_ & -> & _).
  apply mret_inv in Hrun as (_ & -> & _).
  exists text, notebook, slide_cell, setup, c2, e2.
  split_and!; try done.
  - rewrite Hw2, Hw1. fold (exercise_path notebook_path output_dir).
    fold (answers_path notebook_path output_dir).
    rewrite lookup_insert_ne by (apply not_eq_sym, exercise_answers_paths_differ).
    by rewrite lookup_insert_eq.
  - rewrite Hw2. fold (answers_path notebook_path output_dir).
    by rewrite lookup_insert_eq.
Qed.

End NotebookWritten.
Section NotebookClaims.
Context {L : Library}.

Lemma list_insert_at_lookup {A} pos (c : A) l i x :
  l !! i = Some x ->
  list_insert_at pos c l !! (if (i <? pos)%nat then i else S i) = Some x.
Proof.
  intros Hi. pose proof (lookup_lt_Some _ _ _ Hi) as Hlen. unfold list_insert_at.
  destruct (Nat.ltb_spec i pos) as [Hlt|Hge].
  - rewrite lookup_app_l by (rewrite length_take; lia).
    by rewrite lookup_take_lt.
  - rewrite lookup_app_r by (rewrite length_take; lia).
    rewrite length_take. replace (S i - pos `min` length l) with (S (i - pos)) by lia.
    change (drop pos l !! (i - pos) = Some x).
    rewrite lookup_drop. by replace (pos + (i - pos)) with i by lia.
Qed.

Lemma variant_cells_lookup slide_cell setup l i x :
  l !! i = Some x ->
  variant_cells slide_cell setup l !! variant_index slide_cell setup i = Some x.
Proof.
  intros Hi. unfold variant_cells, variant_index.
  assert (Hmid : match setup with
                 | Some (pos, c) => list_insert_at pos c l
                 | None => l
                 end !! match setup with
                        | Some (pos, _) => if (i <? pos)%nat then i else S i
                        | None => i
                        end = Some x).
  { destruct setup as [[pos c]|]; [by apply list_insert_at_lookup|done]. }
  by destruct slide_cell.
Qed.

Lemma variant_index_lt slide_cell setup i j :
  i < j -> variant_index slide_cell setup i < variant_index slide_cell setup j.
Proof.
  intros Hij. unfold variant_index.
  destruct setup as [[pos c]|], slide_cell;
    repeat match goal with |- context [Nat.ltb ?a ?b] => destruct (Nat.ltb_spec a b) end;
    lia.
Qed.

(** What a call that returns an item has written: the two versions, the
    kernel of both, and their cells from the cells of the source. *)
Lemma process_notebook_written notebook_path output_dir config section_slides fs info fs' out :
  process_notebook notebook_path output_dir config section_slides fs
  = (Ret (Some info), fs', out) ->
  exists text notebook slide_cell setup complete_nb exercise_nb,
    fs !! notebook_path = Some (File text)
    /\ json_load text = Some notebook
    /\ fs' !! exercise_path notebook_path output_dir = Some (File (json_dump exercise_nb))
    /\ fs' !! answers_path notebook_path output_dir = Some (File (json_dump complete_nb))
    /\ has_python3_kernel complete_nb
    /\ has_python3_kernel exercise_nb
    /\ forall cells,
         py_getitem notebook "cells" = Ret (JList cells) ->
         exists stripped,
           Forall2 (fun a b => strip_solution a = Ret b) cells stripped
           /\ py_getitem complete_nb "cells"
              = Ret (JList (variant_cells slide_cell setup cells))
           /\ exercise_nb
              = set_item complete_nb "cells" (JList (variant_cells slide_cell setup stripped))
           /\ Forall2 (fun a b => strip_solution a = Ret b)
                      (variant_cells slide_cell setup cells)
                      (variant_cells slide_cell setup stripped).
Proof.
  intros Hrun.
  apply process_notebook_inv in Hrun
    as (text & notebook & slide_cell & setup & complete_nb & exercise_nb
        & Hsrc & Hload & Hv & Hslide & Hsetup & Hex & Hans).
  destruct Hv as (Hd & Hk & cv & ev & Hcv & -> & Hcells).
  exists text, notebook, slide_cell, setup, complete_nb, (set_item complete_nb "cells" ev).
  split_and!; [done..|by apply has_kernel_set_cells|].
  intros cells Hl. destruct (Hcells cells Hl) as (stripped & Hs & -> & ->).
  apply map_result_Forall2 in Hs.
  exists stripped. split_and!; [done..|].
  by apply variant_cells_Forall2.
Qed.

End NotebookClaims.

(** C1: for every cell of the source notebook whose tags hold [solution],
    the exercise version written by [process_notebook] has the empty cell in
    its place, and the answers version written by the same call has the
    cell itself there. *)
Theorem process_notebook_solution_cells `{L : Library}
    notebook_path output_dir config section_slides fs info fs' out :
  process_notebook notebook_path output_dir config section_slides fs
  = (Ret (Some info), fs', out) ->
  exists text notebook complete_nb exercise_nb (place : nat -> nat),
    fs !! notebook_path = Some (File text)
    /\ json_load text = Some notebook
    /\ fs' !! exercise_path notebook_path output_dir = Some (File (json_dump exercise_nb))
    /\ fs' !! answers_path notebook_path output_dir = Some (File (json_dump complete_nb))
    /\ (forall i j, i < j -> place i < place j)
    /\ forall cells,
         py_getitem notebook "cells" = Ret (JList cells) ->
         exists answers_cells exercise_cells,
           py_getitem complete_nb "cells" = Ret (JList answers_cells)
           /\ py_getitem exercise_nb "cells" = Ret (JList exercise_cells)
           /\ forall i cell,
                cells !! i = Some cell ->
                tagged_solution cell ->
                answers_cells !! place i = Some cell
                /\ exercise_cells !! place i = Some empty_cell.
Proof.
  intros Hrun.
  apply process_notebook_written in Hrun
    as (text & notebook & slide_cell & setup & complete_nb & exercise_nb
        & Hsrc & Hload & Hex & Hans & _ & _ & Hcells).
  exists text, notebook, complete_nb, exercise_nb, (variant_index slide_cell setup).
  split_and!; [done..|by apply variant_index_lt|].
  intros cells Hl. destruct (Hcells cells Hl) as (stripped & Hs & Hc & -> & _).
  destruct (getitem_dict _ _ _ Hc) as (d & ->).
  eexists _, _. split_and!; [exact Hc|apply getitem_set_item_eq|].
  intros i cell Hi Htag. split; [by apply variant_cells_lookup|].
  apply variant_cells_lookup.
  destruct (Forall2_lookup_l _ _ _ _ _ Hs Hi) as (b & Hb & Hstrip).
  unfold strip_solution in Hstrip.
  rewrite (tagged_solution_is_solution _ Htag) in Hstrip. cbn in Hstrip.
  by injection Hstrip as <-.
Qed.

(** C2, amended: the two versions written by [process_notebook] are the
    same notebook apart from their cells; they have the same number of
    cells, every cell that is no solution is the same cell in both, and
    every solution cell of the answers version is the empty cell in the
    exercise version. *)
Theorem process_notebook_versions_differ_in_solutions `{L : Library}
    notebook_path output_dir config section_slides fs info fs' out :
  process_notebook notebook_path output_dir config section_slides fs
  = (Ret (Some info), fs', out) ->
  exists text notebook complete_nb exercise_nb,
    fs !! notebook_path = Some (File text)
    /\ json_load text = Some notebook
    /\ fs' !! exercise_path notebook_path output_dir = Some (File (json_dump exercise_nb))
    /\ fs' !! answers_path notebook_path output_dir = Some (File (json_dump complete_nb))
    /\ forall cells,
         py_getitem notebook "cells" = Ret (JList cells) ->
         exists answers_cells exercise_cells,
           py_getitem complete_nb "cells" = Ret (JList answers_cells)
           /\ exercise_nb = set_item complete_nb "cells" (JList exercise_cells)
           /\ length exercise_cells = length answers_cells
           /\ forall j a,
                answers_cells !! j = Some a ->
                exists sol,
                  is_solution_cell a = Ret sol
                  /\ exercise_cells !! j = Some (if (sol : bool) then empty_cell else a).
Proof.
  intros Hrun.
  apply process_notebook_written in Hrun
    as (text & notebook & slide_cell & setup & complete_nb & exercise_nb
        & Hsrc & Hload & Hex & Hans & _ & _ & Hcells).
  exists text, notebook, complete_nb, exercise_nb. split_and!; [done..|].
  intros cells Hl. destruct (Hcells cells Hl) as (stripped & _ & Hc & -> & Hall).
  eexists _, _. split_and!; [exact Hc|reflexivity|symmetry; by eapply Forall2_length|].
  intros j a Hj.
  destruct (Forall2_lookup_l _ _ _ _ _ Hall Hj) as (b & Hb & Hstrip).
  unfold strip_solution in Hstrip.
  apply result_bind_ret_inv in Hstrip as (sol & Hsol & [= <-]).
  by exists sol.
Qed.

(** C10: both versions written by [process_notebook] carry the kernel
    [python3] with display name [Python 3] and language [python], whatever
    the source notebook declared. *)
Theorem process_notebook_kernelspec `{L : Library}
    notebook_path output_dir config section_slides fs info fs' out :
  process_notebook notebook_path output_dir config section_slides fs
  = (Ret (Some info), fs', out) ->
  exists complete_nb exercise_nb,
    fs' !! exercise_path notebook_path output_dir = Some (File (json_dump exercise_nb))
    /\ fs' !! answers_path notebook_path output_dir = Some (File (json_dump complete_nb))
    /\ has_python3_kernel exercise_nb
    /\ has_python3_kernel complete_nb.
Proof.
  intros Hrun.
  apply process_notebook_written in Hrun
    as (text & notebook & slide_cell & setup & complete_nb & exercise_nb
        & _ & _ & Hex & Hans & Hkc & Hke & _).
  by exists complete_nb, exercise_nb.
Qed.

(** ** Sorting *)

Section SortedBy.
Context {A : Type} (lt : A -> A -> result bool) (ltb : A -> A -> bool).

Hypothesis ltb_asym : forall a b, ltb a b = true -> ltb b a = false.
Hypothesis not_after_trans :
  forall a b c, not_after ltb a b -> not_after ltb b c -> not_after ltb a c.

Lemma insert_sorted_ok x l :
  (forall y, In y l -> lt y x = Ret (ltb y x)) ->
  exists l', insert_sorted lt x l = Ret l'
             /\ Permutation (x :: l) l'
             /\ (StronglySorted (not_after ltb) l -> StronglySorted (not_after ltb) l').
Proof.
  induction l as [|y rest IH]; intros Hlt.
  - exists [x]. repeat split; [done|]. intros _. repeat constructor.
  - cbn [insert_sorted]. rewrite (Hlt y) by (by left). cbn.
    destruct (ltb y x) eqn:Hyx.
    + destruct IH as (l' & -> & Hperm & Hsorted); [intros; apply Hlt; by right|].
      exists (y :: l'). cbn. split; [done|]. split.
      * rewrite perm_swap. by constructor.
      * intros Hs. apply StronglySorted_inv in Hs as [Hrest Hall].
        constructor; [by apply Hsorted|].
        rewrite <- Hperm. constructor; [|done].
        by apply ltb_asym.
    + exists (x :: y :: rest). split; [done|]. split; [done|].
      intros Hs. constructor; [done|].
      constructor; [exact Hyx|].
      apply StronglySorted_inv in Hs as [_ Hall].
      eapply Forall_impl; [exact Hall|].
      intros z Hz. by apply (not_after_trans x y z).
Qed.

Lemma py_sorted_ok l :
  (forall a b, In a l -> In b l -> lt a b = Ret (ltb a b)) ->
  exists l', py_sorted lt l = Ret l'
             /\ Permutation l l' /\ StronglySorted (not_after ltb) l'.
Proof.
  induction l as [|x rest IH]; intros Hlt.
  - exists []. repeat split; constructor.
  - destruct IH as (s & Hs & Hperm & Hsorted).
    { intros a b Ha Hb. apply Hlt; by right. }
    cbn [py_sorted]. rewrite Hs. cbn.
    destruct (insert_sorted_ok x s) as (l' & Hl' & Hperm' & Hsorted').
    { intros y Hy. apply Hlt; [right|by left].
      by apply (Permutation_in _ (Permutation_sym Hperm)). }
    exists l'. split; [done|]. split; [|by apply Hsorted'].
    rewrite <- Hperm'. by constructor.
Qed.

End SortedBy.

Lemma StronglySorted_rev {A} (R : A -> A -> Prop) l :
  StronglySorted R l -> StronglySorted (flip R) (rev l).
Proof.
  induction 1 as [|x l Hs IH Hall]; [constructor|].
  cbn [rev]. apply StronglySorted_app; split_and!; [|done|repeat constructor].
  intros a b Ha Hb. apply list_elem_of_singleton in Hb as ->.
  apply list_elem_of_In, in_rev in Ha.
  rewrite List.Forall_forall in Hall. by apply Hall.
Qed.

Lemma StronglySorted_filter_list {A} (R : A -> A -> Prop) (p : A -> bool) l :
  StronglySorted R l -> StronglySorted R (List.filter p l).
Proof.
  induction 1 as [|x l Hs IH Hall]; [constructor|].
  cbn [List.filter]. destruct (p x); [|done].
  constructor; [done|].
  rewrite List.Forall_forall in *. intros y Hy. apply Hall.
  by apply List.filter_In in Hy as [? _].
Qed.

Lemma StronglySorted_weaken {A} (R R' : A -> A -> Prop) l :
  (forall x y, In x l -> In y l -> R x y -> R' x y) ->
  StronglySorted R l -> StronglySorted R' l.
Proof.
  intros Himpl Hs. induction Hs as [|x l Hs IH Hall]; [constructor|].
  constructor.
  - apply IH. intros a b Ha Hb. apply Himpl; by right.
  - rewrite List.Forall_forall in *. intros y Hy.
    apply Himpl; [by left|by right|by apply Hall].
Qed.

Lemma filter_split_Permutation {A} (p : A -> bool) l :
  Permutation l (List.filter p l ++ List.filter (fun x => negb (p x)) l).
Proof.
  induction l as [|x l IH]; [constructor|].
  cbn [List.filter]. destruct (p x); cbn.
  - by constructor.
  - by apply Permutation_cons_app.
Qed.

(** ** The order of the items of a section *)

Section ItemOrder.

Lemma ltb_false_leb s t : String.ltb s t = false <-> String.leb t s = true.
Proof.
  unfold String.ltb, String.leb. rewrite (String.compare_antisym t s).
  destruct (String.compare s t); cbn; intuition congruence.
Qed.

Lemma string_ltb_asym s t : String.ltb s t = true -> String.ltb t s = false.
Proof.
  unfold String.ltb. rewrite (String.compare_antisym t s).
  destruct (String.compare s t); cbn; congruence.
Qed.

Lemma string_leb_trans s t u :
  String.leb s t = true -> String.leb t u = true -> String.leb s u = true.
Proof.
  intros H1 H2. apply Is_true_true.
  apply (transitivity (R := String.le) (y := t)); by apply Is_true_true.
Qed.

Lemma sort_key_lt_numeric a b :
  numeric_order a -> numeric_order b ->
  sort_key_lt (sort_key a) (sort_key b) = Ret (item_ltb a b).
Proof.
  unfold numeric_order, sort_key, item_ltb. intros Ha Hb.
  destruct (item_order a) eqn:Ea, (item_order b) eqn:Eb; cbn in *;
    try (by destruct Ha as [|[]]); try (by destruct Hb as [|[]]); try done;
    unfold key_eqb, py_lt; cbn;
    match goal with |- context [Z.eqb ?x ?y] =>
      destruct (Z.eqb_spec x y) as [->|]; [by rewrite Z.ltb_irrefl|done]
    end.
Qed.

Lemma item_ltb_asym a b : item_ltb a b = true -> item_ltb b a = false.
Proof.
  unfold item_ltb.
  destruct (num_of (item_order a)), (num_of (item_order b)); try done.
  - intros H. apply Z.ltb_lt in H. apply Z.ltb_ge. lia.
  - apply string_ltb_asym.
Qed.

Lemma item_not_after_trans a b c :
  not_after item_ltb a b -> not_after item_ltb b c -> not_after item_ltb a c.
Proof.
  unfold not_after, item_ltb.
  destruct (num_of (item_order a)), (num_of (item_order b)), (num_of (item_order c));
    try done.
  - rewrite !Z.ltb_ge. lia.
  - rewrite !ltb_false_leb. intros H1 H2. by eapply string_leb_trans.
Qed.

Lemma has_order_numeric it :
  numeric_order it -> has_order it = bool_decide (is_Some (num_of (item_order it))).
Proof.
  unfold has_order. intros [->|[x Hx]]; [by cbn|].
  rewrite Hx. rewrite bool_decide_true by eauto.
  by destruct (item_order it).
Qed.

End ItemOrder.



(** The listing of the same items, computed. *)
Example sort_items_example :
  sort_items [ Demo.entry "b" (JStr "Intro") JNull;
               Demo.entry "x" (JStr "Intro") (JNum 2);
               Demo.entry "c" (JStr "Intro") JNull;
               Demo.entry "y" (JStr "Intro") (JNum 1) ]
  = Ret [ Demo.entry "y" (JStr "Intro") (JNum 1);
          Demo.entry "x" (JStr "Intro") (JNum 2);
          Demo.entry "c" (JStr "Intro") JNull;
          Demo.entry "b" (JStr "Intro") JNull ].
Proof. vm_compute. reflexivity. Qed.

(** ** The order of the sections *)

(** C7 fails on a configuration whose sections are plain strings, the form
    the main routine handles at lines 902-906: the index builder only
    takes the configured order from the entries that are dicts, so the two
    sections come out sorted by name, not in the order of the
    configuration. *)
Theorem section_order_plain_sections :
  let cfgs := [JStr "intro"; JStr "advanced"] in
  let notebooks := [ Demo.entry "a" (JStr "intro") JNull;
                     Demo.entry "b" (JStr "advanced") JNull ] in
  (sections ← group_by_section notebooks []; section_order_of cfgs sections)
  = Ret [JStr "advanced"; JStr "intro"].
Proof. vm_compute. reflexivity. Qed.

(** For sections that are dicts the order is the one the specification
    describes. *)

Section SectionOrder.

Lemma key_in_text k (l : list string) :
  key_in (JStr k) (JStr <$> l) = bool_decide (k ∈ l).
Proof.
  unfold key_in. induction l as [|x l IH]; cbn.
  - rewrite bool_decide_eq_false_2; [done|]. apply not_elem_of_nil.
  - rewrite IH. destruct (String.eqb_spec k x) as [->|Hne]; cbn.
    + rewrite bool_decide_eq_true_2; [done|]. by left.
    + apply bool_decide_ext. rewrite elem_of_cons. naive_solver.
Qed.

Lemma assoc_get_text {V} k (d : list (json * V)) (keys : list string) :
  d.*1 = JStr <$> keys -> is_Some (assoc_get (JStr k) d) <-> k ∈ keys.
Proof.
  revert keys. induction d as [|[k' v] d IH]; intros [|x keys]; cbn; try done.
  - intros _. split; [by intros [? [=]]|by intros ?%elem_of_nil].
  - intros [= -> Hd]. cbn. rewrite elem_of_cons.
    destruct (String.eqb_spec k x) as [->|Hne].
    + split; [by left|eauto].
    + rewrite (IH keys Hd). naive_solver.
Qed.

(** Lines 759-764 for sections that are dicts with a text title: the
    titles that have items, in the order of the configuration. *)
Lemma configured_order_dicts cfgs titles (sections : list (json * list item)) keys
    section_order :
  Forall2 (fun cfg t => is_dict cfg = true /\ section_title cfg = Ret (JStr t)) cfgs titles ->
  sections.*1 = JStr <$> keys ->
  configured_order cfgs sections section_order
  = Ret (section_order
         ++ (JStr <$> List.filter (fun t => bool_decide (t ∈ keys)) titles)).
Proof.
  intros Hcfgs Hkeys. revert section_order.
  induction Hcfgs as [|cfg t cfgs titles [Hdict Htitle] _ IH]; intros section_order.
  - cbn. by rewrite app_nil_r.
  - cbn [configured_order List.filter]. rewrite Hdict, Htitle. cbn.
    pose proof (assoc_get_text t sections keys Hkeys) as Hget.
    case_bool_decide as Hin.
    + apply Hget in Hin as [v ->]. rewrite IH. cbn. by rewrite <- app_assoc.
    + destruct (assoc_get (JStr t) sections) eqn:E; [|by rewrite IH].
      destruct Hin. apply Hget. eauto.
Qed.

(** Lines 767-769: the sorted titles that are not listed yet, in their
    order, after the listed ones. *)
Lemma append_unlisted_filter (sorted_keys section_order : list string) :
  NoDup sorted_keys ->
  append_unlisted (JStr <$> sorted_keys) (JStr <$> section_order)
  = JStr <$> (section_order
              ++ List.filter (fun k => bool_decide (k ∉ section_order)) sorted_keys).
Proof.
  unfold append_unlisted. revert section_order.
  induction sorted_keys as [|k l IH]; intros acc Hnodup; cbn.
  - by rewrite app_nil_r.
  - apply NoDup_cons in Hnodup as [Hnotin Hnodup].
    rewrite (key_in_text k acc).
    case_bool_decide as Hin.
    + rewrite bool_decide_eq_false_2 by (intros Hn; by apply Hn).
      by apply IH.
    + rewrite bool_decide_eq_true_2 by done.
      change ((JStr <$> acc) ++ [JStr k]) with ((JStr <$> acc) ++ (JStr <$> [k])).
      rewrite <- fmap_app, IH by done.
      rewrite <- app_assoc. cbn. do 3 f_equal.
      apply List.filter_ext_in. intros x Hx%list_elem_of_In.
      apply bool_decide_ext. rewrite not_elem_of_app, list_elem_of_singleton.
      split; [by intros [? _]|]. intros Hxacc. split; [done|]. by intros ->.
Qed.

Lemma title_ltb_asym a b : title_ltb a b = true -> title_ltb b a = false.
Proof. apply string_ltb_asym. Qed.

Lemma title_not_after_trans a b c :
  not_after title_ltb a b -> not_after title_ltb b c -> not_after title_ltb a c.
Proof.
  unfold not_after, title_ltb. rewrite !ltb_false_leb. intros H1 H2.
  by eapply string_leb_trans.
Qed.

Lemma Permutation_texts (keys : list string) (l : list json) :
  Permutation (JStr <$> keys) l -> l = JStr <$> (title_text <$> l).
Proof.
  intros Hperm.
  assert (Hall : Forall (fun x => x = JStr (title_text x)) l).
  { rewrite <- Hperm. apply Forall_forall. intros x Hx.
    apply list_elem_of_fmap in Hx as (s & -> & _). reflexivity. }
  clear Hperm. induction Hall as [|x l' Hx _ IH]; [done|]. cbn. by f_equal.
Qed.

Lemma StronglySorted_texts (l : list json) :
  StronglySorted (not_after title_ltb) l ->
  StronglySorted (not_after String.ltb) (title_text <$> l).
Proof.
  induction 1 as [|x l Hs IH Hall]; [constructor|].
  cbn. constructor; [done|]. apply Forall_fmap. exact Hall.
Qed.

End SectionOrder.

(** X19: the order of the sections (lines 758-769) for a configuration
    whose sections are dicts with text titles: the configured titles that
    have items come first, in the order of the configuration; the other
    titles follow, sorted. *)
Theorem section_order_of_dicts cfgs titles (sections : list (json * list item)) keys :
  Forall2 (fun cfg t => is_dict cfg = true /\ section_title cfg = Ret (JStr t)) cfgs titles ->
  sections.*1 = JStr <$> keys ->
  NoDup keys ->
  exists sorted_keys,
    Permutation keys sorted_keys
    /\ StronglySorted (not_after String.ltb) sorted_keys
    /\ section_order_of cfgs sections
       = Ret (JStr <$> (List.filter (fun t => bool_decide (t ∈ keys)) titles
                        ++ List.filter (fun k => bool_decide (k ∉ titles)) sorted_keys)).
Proof.
  intros Hcfgs Hkeys Hnodup. unfold section_order_of.
  rewrite (configured_order_dicts _ _ _ _ _ Hcfgs Hkeys). cbn.
  destruct (py_sorted_ok py_lt title_ltb title_ltb_asym title_not_after_trans
              (List.map fst sections)) as (sorted_json & Hsorted & Hperm & Hstrong).
  { change (List.map fst sections) with (sections.*1). rewrite Hkeys.
    intros a b Ha%list_elem_of_In Hb%list_elem_of_In.
    apply list_elem_of_fmap in Ha as (s & -> & _).
    apply list_elem_of_fmap in Hb as (t & -> & _). reflexivity. }
  rewrite Hsorted. cbn.
  change (List.map fst sections) with (sections.*1) in Hperm. rewrite Hkeys in Hperm.
  pose proof (Permutation_texts _ _ Hperm) as Htexts.
  set (sorted_keys := title_text <$> sorted_json) in *.
  assert (Hperm_keys : Permutation keys sorted_keys).
  { apply (fmap_Permutation title_text) in Hperm.
    rewrite <- list_fmap_compose in Hperm.
    assert (Hid : title_text ∘ JStr <$> keys = keys)
      by (clear; induction keys; cbn; by f_equal).
    by rewrite Hid in Hperm. }
  exists sorted_keys. split_and!; [done|by apply StronglySorted_texts|].
  f_equal. rewrite Htexts, append_unlisted_filter by (by rewrite <- Hperm_keys).
  do 2 f_equal. apply List.filter_ext_in. intros k Hk%list_elem_of_In.
  apply bool_decide_ext. rewrite <- Hperm_keys in Hk.
  rewrite !list_elem_of_In, List.filter_In, <- !list_elem_of_In.
  rewrite bool_decide_eq_true. naive_solver.
Qed.

(** ** The data archive on a concrete tree *)


(** The names [zipfile] makes: without the leading slash, without [..],
    and none for the root. *)
Example zip_member_name_examples :
  zip_member_name "/srv/data/b.csv" false = Some "srv/data/b.csv"
  /\ zip_member_name "data/../data/a.csv" false = Some "data/a.csv"
  /\ zip_member_name "../shared/a.csv" false = Some "../shared/a.csv"
  /\ zip_member_name "data" true = Some "data/"
  /\ zip_member_name "/" true = None.
Proof. vm_compute. repeat split; reflexivity. Qed.

(** The archive of that run. *)
Example create_data_zip_example :
  final_fs (ArchiveExamples.run ["data/a.csv"]) !! ArchiveExamples.zip_path
  = Some (Archive [("data/a.csv", PurePath.of_string "nb/data/a.csv", File "1,2")]).
Proof. vm_compute. reflexivity. Qed.


Lemma create_data_zip_once_and_warns_witness :
  let r := ArchiveExamples.run ["data/a.csv"; "data/missing.csv"; "data/a.csv"] in
  r = (Ret tt, final_fs r, stdout r)
  /\ exists members,
       final_fs r !! ArchiveExamples.zip_path = Some (Archive members)
       /\ NoDup (member_source <$> members)
       /\ (forall patterns pat,
             py_iter (JList (JStr <$> ["data/a.csv"; "data/missing.csv"; "data/a.csv"]))
             = Ret patterns ->
             JStr pat ∈ patterns ->
             @glob_glob ArchiveExamples.lib
               (shape (<[ArchiveExamples.zip_path := Archive []]> ArchiveExamples.fs))
               (PurePath.to_string (PurePath.join ArchiveExamples.base_dir pat)) = [] ->
             no_match_warning pat ArchiveExamples.base_dir ∈ stdout r)
       /\ (forall added_files pat (st : FS),
             @glob_glob ArchiveExamples.lib (shape st)
               (PurePath.to_string (PurePath.join ArchiveExamples.base_dir pat)) = [] ->
             add_pattern (L := ArchiveExamples.lib) ArchiveExamples.zip_path
                         ArchiveExamples.base_dir added_files (JStr pat) st
             = (Ret added_files, st, [no_match_warning pat ArchiveExamples.base_dir])).
Proof.
  cbv zeta.
  assert (Hrun : ArchiveExamples.run ["data/a.csv"; "data/missing.csv"; "data/a.csv"]
                 = (Ret tt,
                    final_fs (ArchiveExamples.run
                                ["data/a.csv"; "data/missing.csv"; "data/a.csv"]),
                    stdout (ArchiveExamples.run
                              ["data/a.csv"; "data/missing.csv"; "data/a.csv"])))
    by (apply run_eta; vm_compute; reflexivity).
  split; [exact Hrun|].
  exact (create_data_zip_once_and_warns (L := ArchiveExamples.lib) _ _ _ _ _ _ _ Hrun).
Defined.

(** That run stores the file once and prints one warning. *)
Example create_data_zip_once_example :
  let r := ArchiveExamples.run ["data/a.csv"; "data/missing.csv"; "data/a.csv"] in
  final_fs r !! ArchiveExamples.zip_path
  = Some (Archive [("data/a.csv", PurePath.of_string "nb/data/a.csv", File "1,2")])
  /\ stdout r = [ "  Warning: No files match pattern 'data/missing.csv' in nb";
                  "‚úì Created nb-data.zip with 1 files" ].
Proof. vm_compute. split; reflexivity. Qed.

(** ** Running the tool again *)

Section Rerun.
Context {L : Library}.

Lemma bind_same_effect {A B} (m1 m2 : M A) (f : A -> M B) fs1 fs2 a s o1 o2 :
  m1 fs1 = (Ret a, s, o1) ->
  m2 fs2 = (Ret a, s, o2) ->
  same_effect ((m1 ≫= f) fs1) ((m2 ≫= f) fs2).
Proof.
  intros H1 H2. rewrite (bind_run _ _ _ _ _ _ H1), (bind_run _ _ _ _ _ _ H2).
  by destruct (f a s) as [[r s'] o].
Qed.

Lemma bind_step_same_effect {A B} (m : M A) (f1 f2 : A -> M B) fs1 fs2 a1 a2 o1 o2 :
  m fs1 = (Ret a1, fs1, o1) ->
  m fs2 = (Ret a2, fs2, o2) ->
  same_effect (f1 a1 fs1) (f2 a2 fs2) ->
  same_effect ((m ≫= f1) fs1) ((m ≫= f2) fs2).
Proof.
  intros H1 H2 [Ho Hf]. rewrite (bind_run _ _ _ _ _ _ H1), (bind_run _ _ _ _ _ _ H2).
  destruct (f1 a1 fs1) as [[r1 s1] o1'], (f2 a2 fs2) as [[r2 s2] o2']. by split.
Qed.

Lemma load_config_state fs : final_fs (load_config fs) = fs.
Proof.
  unfold load_config, mbind, M_bind, IO.exists_, IO.read_text. cbn.
  destruct (IO.path_exists fs _); [|done].
  destruct (fs !! _) as [[]|]; try done. cbn. by destruct (yaml_safe_load _).
Qed.

Lemma inputs_agree output_dir (fs1 fs2 : FS) :
  (forall p, PurePath.is_under output_dir p = false -> fs1 !! p = fs2 !! p) ->
  inputs output_dir fs1 = inputs output_dir fs2.
Proof.
  intros Hagree. apply map_eq. intros p. apply option_eq. intros n.
  unfold inputs. rewrite !map_lookup_filter_Some. cbn.
  split; intros [Hp Hout]; (split; [|done]); [rewrite <- Hagree|rewrite Hagree]; done.
Qed.

Lemma inputs_all output_dir (fs : FS) :
  IO.path_exists fs output_dir = false -> inputs output_dir fs = fs.
Proof.
  intros Hno. apply map_filter_id. intros p n Hp. cbn.
  destruct (PurePath.is_under output_dir p) eqn:Hunder; [|done].
  unfold IO.path_exists in Hno. apply bool_decide_eq_false in Hno.
  destruct Hno. by exists p, n.
Qed.

(** Lines 882-885: after them nothing of an old output directory is left. *)
Lemma clean_up_inv output_dir (fs : FS) :
  (forall n, fs !! output_dir = Some n -> n = Dir) ->
  exists out,
    (if IO.path_exists fs output_dir then
       IO.rmtree output_dir ;;
       IO.print ("‚úì Cleaned up old " +:+ PurePath.to_string output_dir +:+ "/ directory")
     else mret tt) fs
    = (Ret tt, inputs output_dir fs, out).
Proof.
  intros Hdir. destruct (IO.path_exists fs output_dir) eqn:Hold.
  - eexists. unfold mbind, M_bind, IO.rmtree.
    destruct (fs !! output_dir) as [n|] eqn:Hn; [rewrite (Hdir n eq_refl)|]; reflexivity.
  - eexists. by rewrite inputs_all.
Qed.

Lemma inputs_listing output_dir (fs1 fs2 : FS) :
  map_to_list (inputs output_dir fs1) = map_to_list (inputs output_dir fs2) ->
  forall p, PurePath.is_under output_dir p = false -> fs1 !! p = fs2 !! p.
Proof.
  intros Hl p Hp.
  assert (Heq : inputs output_dir fs1 = inputs output_dir fs2)
    by (apply map_to_list_inj; by rewrite Hl).
  apply option_eq. intros n.
  assert (Hin : forall fs : FS, fs !! p = Some n <-> inputs output_dir fs !! p = Some n).
  { intros fs0. unfold inputs. rewrite map_lookup_filter_Some. cbn. tauto. }
  by rewrite (Hin fs1), (Hin fs2), Heq.
Qed.

End Rerun.


(** ** How a run ends *)

Section PureSteps.
Context {L : Library}.

Lemma no_exit_bind {A B} (m : result A) (f : A -> result B) :
  no_exit m -> (forall a, no_exit (f a)) -> no_exit (m ≫= f).
Proof. destruct m; cbn; auto. Qed.

Lemma no_exit_map_result {A B} (f : A -> result B) l :
  (forall a, no_exit (f a)) -> no_exit (map_result f l).
Proof.
  intros Hf. induction l as [|x l IH]; [exact I|]. cbn [map_result].
  apply no_exit_bind; [apply Hf|]. intros y.
  apply no_exit_bind; [apply IH|]. intros ys. exact I.
Qed.

Lemma no_exit_insert_sorted {A} (lt : A -> A -> result bool) x l :
  (forall a b, no_exit (lt a b)) -> no_exit (insert_sorted lt x l).
Proof.
  intros Hlt. induction l as [|y l IH]; [exact I|]. cbn [insert_sorted].
  apply no_exit_bind; [apply Hlt|]. intros [|]; [|exact I].
  apply no_exit_bind; [apply IH|]. intros ?. exact I.
Qed.

Lemma no_exit_py_sorted {A} (lt : A -> A -> result bool) l :
  (forall a b, no_exit (lt a b)) -> no_exit (py_sorted lt l).
Proof.
  intros Hlt. induction l as [|x l IH]; [exact I|]. cbn [py_sorted].
  apply no_exit_bind; [apply IH|]. intros ?. by apply no_exit_insert_sorted.
Qed.

End PureSteps.

(** The pure steps, one after the other. *)
Ltac no_exit_step :=
  match goal with
  | |- no_exit (Ret _) => exact I
  | |- no_exit (Raise _) => exact I
  | |- no_exit (mret _) => exact I
  | |- no_exit (_ ≫= _) => apply no_exit_bind; [|intros ?]
  | |- no_exit (map_result _ _) => apply no_exit_map_result; intros ?
  | |- no_exit (py_sorted _ _) => apply no_exit_py_sorted; intros ? ?
  | |- no_exit (match ?x with _ => _ end) => destruct x
  | |- no_exit _ => solve [auto with no_exit]
  | |- no_exit _ => progress cbv beta zeta
  end.

Ltac no_exit := repeat no_exit_step.

Create HintDb no_exit.

Section PureFunctions.
Context {L : Library}.

Lemma no_exit_py_get x k dflt : no_exit (py_get x k dflt).
Proof. unfold py_get. no_exit. Qed.

Lemma no_exit_py_getitem x k : no_exit (py_getitem x k).
Proof. unfold py_getitem. no_exit. Qed.

Lemma no_exit_as_str x : no_exit (as_str x).
Proof. unfold as_str. no_exit. Qed.

Lemma no_exit_py_iter v : no_exit (py_iter v).
Proof. unfold py_iter. no_exit. Qed.

Lemma no_exit_py_contains s x : no_exit (py_contains s x).
Proof. unfold py_contains. no_exit. Qed.

Lemma no_exit_py_lt x y : no_exit (py_lt x y).
Proof. unfold py_lt. no_exit. Qed.

Lemma no_exit_required {A} (field : option A) : no_exit (required field).
Proof. unfold required. no_exit. Qed.

Lemma no_exit_hashable x : no_exit (hashable x).
Proof. unfold hashable. no_exit. Qed.

#[local] Hint Resolve no_exit_py_get no_exit_py_getitem no_exit_as_str no_exit_py_iter
  no_exit_py_contains no_exit_py_lt no_exit_required no_exit_hashable : no_exit.

Lemma no_exit_get_notebook_metadata notebook : no_exit (get_notebook_metadata notebook).
Proof. unfold get_notebook_metadata. no_exit. Qed.

Lemma no_exit_install_lines install_packages : no_exit (install_lines install_packages).
Proof. unfold install_lines. no_exit. Qed.

Lemma no_exit_link_comment link : no_exit (link_comment link).
Proof. unfold link_comment. no_exit. Qed.

#[local] Hint Resolve no_exit_install_lines no_exit_link_comment : no_exit.

Lemma no_exit_create_setup_cell zip_name config install_packages links :
  no_exit (create_setup_cell zip_name config install_packages links).
Proof. unfold create_setup_cell. no_exit. Qed.

Lemma no_exit_join_source x : no_exit (join_source x).
Proof. unfold join_source. no_exit. Qed.

Lemma no_exit_is_solution_cell cell : no_exit (is_solution_cell cell).
Proof. unfold is_solution_cell. no_exit. Qed.

#[local] Hint Resolve no_exit_is_solution_cell : no_exit.

Lemma no_exit_strip_solution cell : no_exit (strip_solution cell).
Proof. unfold strip_solution. no_exit. Qed.

#[local] Hint Resolve no_exit_strip_solution : no_exit.

Lemma no_exit_strip_solutions cells : no_exit (strip_solutions cells).
Proof. unfold strip_solutions. no_exit. Qed.

Lemma no_exit_find_insert_pos i cells : no_exit (find_insert_pos i cells).
Proof.
  revert i. induction cells as [|cell rest IH]; intros i; [exact I|].
  cbn [find_insert_pos]. no_exit; apply IH.
Qed.

Lemma no_exit_insert_cell pos cell nb : no_exit (insert_cell pos cell nb).
Proof. unfold insert_cell. no_exit. Qed.

Lemma no_exit_set_kernelspec nb : no_exit (set_kernelspec nb).
Proof. unfold set_kernelspec. no_exit. Qed.

Lemma no_exit_link_item link : no_exit (link_item link).
Proof. unfold link_item. no_exit. Qed.

Lemma no_exit_section_title section_cfg : no_exit (section_title section_cfg).
Proof. unfold section_title. no_exit. Qed.

#[local] Hint Resolve no_exit_section_title : no_exit.

Lemma no_exit_collect_section_configs cfgs acc : no_exit (collect_section_configs cfgs acc).
Proof.
  revert acc. induction cfgs as [|c rest IH]; intros acc; [exact I|].
  cbn [collect_section_configs]. no_exit; apply IH.
Qed.

Lemma no_exit_group_by_section notebooks sections :
  no_exit (group_by_section notebooks sections).
Proof.
  revert sections. induction notebooks as [|nb rest IH]; intros sections; [exact I|].
  cbn [group_by_section]. no_exit; apply IH.
Qed.

Lemma no_exit_configured_order cfgs sections section_order :
  no_exit (configured_order cfgs sections section_order).
Proof.
  revert section_order. induction cfgs as [|c rest IH]; intros section_order; [exact I|].
  cbn [configured_order]. no_exit; apply IH.
Qed.

#[local] Hint Resolve no_exit_configured_order : no_exit.

Lemma no_exit_section_order_of cfgs sections : no_exit (section_order_of cfgs sections).
Proof. unfold section_order_of. no_exit. Qed.

Lemma no_exit_sort_key_lt k1 k2 : no_exit (sort_key_lt k1 k2).
Proof. unfold sort_key_lt. no_exit. Qed.

#[local] Hint Resolve no_exit_sort_key_lt : no_exit.

Lemma no_exit_sort_items section_items : no_exit (sort_items section_items).
Proof. unfold sort_items, py_sorted_reverse. no_exit. Qed.

Lemma no_exit_index_link link : no_exit (index_link link).
Proof. unfold index_link. no_exit. Qed.

#[local] Hint Resolve no_exit_index_link : no_exit.

Lemma no_exit_render_item github_repo github_branch output_dir_name it :
  no_exit (render_item github_repo github_branch output_dir_name it).
Proof. unfold render_item. no_exit. Qed.

End PureFunctions.

#[global] Hint Resolve no_exit_py_get no_exit_py_getitem no_exit_as_str no_exit_py_iter
  no_exit_py_contains no_exit_py_lt no_exit_required no_exit_hashable
  no_exit_get_notebook_metadata no_exit_create_setup_cell no_exit_join_source
  no_exit_strip_solutions no_exit_find_insert_pos no_exit_insert_cell
  no_exit_set_kernelspec no_exit_link_item no_exit_collect_section_configs
  no_exit_group_by_section no_exit_section_order_of no_exit_sort_items
  no_exit_render_item : no_exit.

Section Exits.
Context {L : Library}.

Lemma slide_exit_bind_run {A B} (m : M A) (f : A -> M B) fs :
  slide_exit (m fs) ->
  (forall a fs1 out1, m fs = (Ret a, fs1, out1) -> slide_exit (f a fs1)) ->
  slide_exit ((m ≫= f) fs).
Proof.
  unfold mbind, M_bind. destruct (m fs) as [[[a|c|e] fs1] out1]; intros Hm Hf; [|done..].
  specialize (Hf a fs1 out1 eq_refl).
  destruct (f a fs1) as [[[b|c|e] fs2] out2]; [done| |done].
  destruct Hf as (-> & slide & dir & Hmiss & Hline).
  split; [done|]. exists slide, dir. split; [done|].
  apply elem_of_app. by right.
Qed.

Lemma slide_exit_bind {A B} (m : M A) (f : A -> M B) fs :
  slide_exit (m fs) -> (forall a fs1, slide_exit (f a fs1)) -> slide_exit ((m ≫= f) fs).
Proof. intros Hm Hf. apply slide_exit_bind_run; [done|]. intros a fs1 _ _. apply Hf. Qed.

Lemma slide_exit_lift {A} (r : result A) fs : no_exit r -> slide_exit (IO.lift r fs).
Proof. by destruct r. Qed.

Lemma slide_exit_fold_m {A S} (f : S -> A -> M S) s l fs :
  (forall s x fs, slide_exit (f s x fs)) -> slide_exit (fold_m f s l fs).
Proof.
  intros Hf. revert s fs. induction l as [|x l IH]; intros s fs; [exact I|].
  cbn [fold_m]. apply slide_exit_bind; [apply Hf|]. intros s' fs1. apply IH.
Qed.

Lemma slide_exit_try_pass {A} (body : M (option A)) fs :
  slide_exit (body fs) -> slide_exit (try_pass body fs).
Proof. unfold try_pass. by destruct (body fs) as [[[a|c|e] fs1] out1]. Qed.

Lemma slide_exit_read_text p fs : slide_exit (IO.read_text p fs).
Proof. unfold IO.read_text. by repeat case_match. Qed.

Lemma slide_exit_create p n fs : slide_exit (IO.create p n fs).
Proof. unfold IO.create. by repeat case_match. Qed.

Lemma slide_exit_write_text p text fs : slide_exit (IO.write_text p text fs).
Proof. apply slide_exit_create. Qed.

Lemma slide_exit_mkdir p fs : slide_exit (IO.mkdir p fs).
Proof. unfold IO.mkdir. by repeat case_match. Qed.

Lemma slide_exit_mkdir_parents p fs : slide_exit (IO.mkdir_parents p fs).
Proof.
  unfold IO.mkdir_parents. generalize (IO.ancestors_and_self p). intros ps.
  revert fs. induction ps as [|q ps IH]; intros fs; [exact I|].
  cbn [IO.mkdir_chain]. repeat case_match; try exact I; apply IH.
Qed.

Lemma slide_exit_copy2 src dst fs : slide_exit (IO.copy2 src dst fs).
Proof. unfold IO.copy2. repeat case_match; try exact I; apply slide_exit_create. Qed.

Lemma slide_exit_move src dst fs : slide_exit (IO.move src dst fs).
Proof. unfold IO.move. by repeat case_match. Qed.

Lemma slide_exit_rmtree p fs : slide_exit (IO.rmtree p fs).
Proof. unfold IO.rmtree. by repeat case_match. Qed.

Lemma slide_exit_zip_write zip_path file_path arcname fs :
  slide_exit (zip_write zip_path file_path arcname fs).
Proof. unfold zip_write. by repeat case_match. Qed.

Lemma slide_exit_tool_writes target written fs : slide_exit (tool_writes target written fs).
Proof. unfold tool_writes. by case_match. Qed.

End Exits.

Create HintDb slide_exit.

#[global] Hint Resolve slide_exit_read_text slide_exit_create slide_exit_write_text
  slide_exit_mkdir slide_exit_mkdir_parents slide_exit_copy2 slide_exit_move
  slide_exit_rmtree slide_exit_zip_write slide_exit_tool_writes : slide_exit.

(** The steps of a run, one after the other. *)
Ltac slide_exit_step :=
  match goal with
  | |- slide_exit ((_ ≫= _) _) => apply slide_exit_bind; [|intros ? ?]
  | |- slide_exit (IO.lift _ _) => apply slide_exit_lift; no_exit
  | |- slide_exit (mret _ _) => exact I
  | |- slide_exit (IO.print _ _) => exact I
  | |- slide_exit (IO.exists_ _ _) => exact I
  | |- slide_exit (IO.raise _ _) => exact I
  | |- slide_exit (glob _ _) => exact I
  | |- slide_exit (list_dir _ _ _) => exact I
  | |- slide_exit (fold_m _ _ _ _) => apply slide_exit_fold_m; intros ? ? ?
  | |- slide_exit (try_pass _ _) => apply slide_exit_try_pass
  | |- slide_exit ((match ?x with _ => _ end) _) => destruct x
  | |- slide_exit (match ?x with _ => _ end) => destruct x
  | |- slide_exit (_, _, _) => exact I
  | |- slide_exit _ => solve [auto with slide_exit]
  | |- slide_exit _ => progress cbv beta zeta
  end.

Ltac slide_exit := repeat slide_exit_step.

Section ExitsOfTheScript.
Context {L : Library}.

Lemma slide_exit_add_match zip_path base_dir added m fs :
  slide_exit (add_match zip_path base_dir added m fs).
Proof. unfold add_match. slide_exit. Qed.

Lemma slide_exit_add_pattern zip_path base_dir added pattern fs :
  slide_exit (add_pattern zip_path base_dir added pattern fs).
Proof. unfold add_pattern. slide_exit. apply slide_exit_add_match. Qed.

Lemma slide_exit_create_data_zip data_patterns zip_path base_dir fs :
  slide_exit (create_data_zip data_patterns zip_path base_dir fs).
Proof. unfold create_data_zip. slide_exit. apply slide_exit_add_pattern. Qed.

Lemma slide_exit_copy_reference warn source_dir output_dir copied m fs :
  slide_exit (copy_reference warn source_dir output_dir copied m fs).
Proof. unfold copy_reference. slide_exit. Qed.

Lemma slide_exit_copy_references warn patterns content source_dir output_dir copied fs :
  slide_exit (copy_references warn patterns content source_dir output_dir copied fs).
Proof. unfold copy_references. slide_exit. apply slide_exit_copy_reference. Qed.

Lemma slide_exit_find_and_copy_referenced_files notebook notebook_dir output_dir fs :
  slide_exit (find_and_copy_referenced_files notebook notebook_dir output_dir fs).
Proof.
  unfold find_and_copy_referenced_files. slide_exit. apply slide_exit_copy_references.
Qed.

Lemma slide_exit_copy_markdown_referenced_files content markdown_dir output_dir fs :
  slide_exit (copy_markdown_referenced_files content markdown_dir output_dir fs).
Proof. apply slide_exit_copy_references. Qed.

Lemma slide_exit_add_setup_cell base_name notebook_dir output_dir config metadata data_files
    complete_nb exercise_nb fs :
  slide_exit (add_setup_cell base_name notebook_dir output_dir config metadata data_files
                             complete_nb exercise_nb fs).
Proof. unfold add_setup_cell. slide_exit. apply slide_exit_create_data_zip. Qed.

End ExitsOfTheScript.

Section ExitsForSlides.
Context {L : Library}.

(** Lines 402-407 and 600-604: the three lines and the exit. *)
Lemma slide_exit_not_found slide notebook_dir {A} (fs : FS) :
  slide_missing fs notebook_dir slide ->
  slide_exit
    ((IO.print (Py.nl +:+ "‚ùå ERROR: Slide file not found: " +:+ slide) ;;
      IO.print ("   Looked in: " +:+ PurePath.to_string (PurePath.join notebook_dir slide)) ;;
      IO.print ("   Also tried: " +:+ PurePath.to_string (PurePath.of_string slide)) ;;
      (IO.exit 1%Z : M A)) fs).
Proof.
  intros Hmiss. split; [done|]. exists slide, notebook_dir. split; [done|]. by left.
Qed.

Lemma slide_exit_add_slides notebook_dir output_dir slide_file complete_nb exercise_nb fs :
  slide_exit (add_slides notebook_dir output_dir slide_file complete_nb exercise_nb fs).
Proof.
  unfold add_slides.
  apply slide_exit_bind; [slide_exit|]. intros c1 fs1.
  apply slide_exit_bind; [slide_exit|]. intros e1 fs2.
  apply slide_exit_bind; [slide_exit|]. intros slide fs3.
  apply slide_exit_bind_run; [exact I|]. intros at_first fs4 o [= <- <- _].
  apply slide_exit_bind_run; [exact I|]. intros found fs5 o2 [= <- <- _].
  apply slide_exit_bind; [|intros; exact I].
  destruct (IO.path_exists fs3 (PurePath.join notebook_dir slide)) eqn:Hbeside.
  - rewrite Hbeside. slide_exit.
  - destruct (IO.path_exists fs3 (PurePath.of_string slide)) eqn:Hroot.
    + slide_exit.
    + by apply slide_exit_not_found.
Qed.

Lemma slide_exit_create_slide_thumbnail pdf_path output_dir fs :
  slide_exit (create_slide_thumbnail pdf_path output_dir fs).
Proof. unfold create_slide_thumbnail. slide_exit. Qed.

Lemma slide_exit_generate_slide_embed slide_file notebook_dir output_dir fs :
  slide_exit (generate_slide_embed slide_file notebook_dir output_dir fs).
Proof.
  unfold generate_slide_embed.
  apply slide_exit_bind; [slide_exit|]. intros slide fs1.
  apply slide_exit_bind_run; [exact I|]. intros at_first fs2 o [= <- <- _].
  apply slide_exit_bind.
  - destruct (IO.path_exists fs1 (PurePath.join notebook_dir slide)) eqn:Hbeside; [exact I|].
    apply slide_exit_bind_run; [exact I|]. intros at_second fs3 o3 [= <- <- _].
    destruct (IO.path_exists fs1 (PurePath.of_string slide)) eqn:Hroot; [exact I|].
    by apply slide_exit_not_found.
  - intros source_pdf fs3. slide_exit. apply slide_exit_create_slide_thumbnail.
Qed.

End ExitsForSlides.

#[global] Hint Resolve slide_exit_add_match slide_exit_add_pattern slide_exit_create_data_zip
  slide_exit_copy_reference slide_exit_copy_references
  slide_exit_find_and_copy_referenced_files slide_exit_copy_markdown_referenced_files
  slide_exit_add_setup_cell slide_exit_add_slides slide_exit_create_slide_thumbnail
  slide_exit_generate_slide_embed : slide_exit.

Section ExitsOfTheRun.
Context {L : Library}.

Lemma slide_exit_process_notebook notebook_path output_dir config section_slides fs :
  slide_exit (process_notebook notebook_path output_dir config section_slides fs).
Proof. unfold process_notebook. slide_exit. Qed.

Lemma slide_exit_extract_markdown_frontmatter content fs :
  slide_exit (extract_markdown_frontmatter content fs).
Proof. unfold extract_markdown_frontmatter. slide_exit. Qed.

Lemma slide_exit_process_markdown markdown_path output_dir config section_slides fs :
  slide_exit (process_markdown markdown_path output_dir config section_slides fs).
Proof.
  unfold process_markdown. slide_exit; try apply slide_exit_extract_markdown_frontmatter.
Qed.

Lemma slide_exit_render_section config section_configs sections
    github_repo github_branch output_dir_name section fs :
  slide_exit (render_section config section_configs sections
                             github_repo github_branch output_dir_name section fs).
Proof. unfold render_section. slide_exit. Qed.

Lemma slide_exit_create_index notebooks config output_dir fs :
  slide_exit (create_index notebooks config output_dir fs).
Proof. unfold create_index. slide_exit. apply slide_exit_render_section. Qed.

Lemma slide_exit_load_config fs : slide_exit (load_config fs).
Proof. unfold load_config. slide_exit. Qed.

Lemma slide_exit_process_document process output_dir config title folder section_slides
    processed_items path fs :
  (forall p o c s fs, slide_exit (process p o c s fs)) ->
  slide_exit (process_document process output_dir config title folder section_slides
                               processed_items path fs).
Proof. intros Hprocess. unfold process_document. slide_exit. Qed.

Lemma slide_exit_process_section output_dir config processed_items section fs :
  slide_exit (process_section output_dir config processed_items section fs).
Proof.
  unfold process_section. slide_exit;
    apply slide_exit_process_document; intros;
    first [apply slide_exit_process_notebook | apply slide_exit_process_markdown].
Qed.

Lemma slide_exit_main fs : slide_exit (main fs).
Proof.
  unfold main. slide_exit;
    first [apply slide_exit_load_config | apply slide_exit_process_section
          | apply slide_exit_create_index].
Qed.

Lemma slide_exit_script fs : slide_exit (script fs).
Proof. unfold script. slide_exit; apply slide_exit_main. Qed.

End ExitsOfTheRun.

Section SlideLookups.
Context {L : Library}.

(** A markdown file without frontmatter is skipped (lines 657-660). *)
Lemma process_markdown_skips markdown_path output_dir config section_slides
    (fs : FS) content :
  fs !! markdown_path = Some (File content) ->
  re_match_frontmatter content = None ->
  process_markdown markdown_path output_dir config section_slides fs
  = (Ret None, fs,
     ["Skipping " +:+ PurePath.to_string markdown_path +:+ " - no frontmatter"]).
Proof.
  intros Hfile Hnone.
  unfold process_markdown, mbind, M_bind, IO.read_text, extract_markdown_frontmatter.
  rewrite Hfile, Hnone. reflexivity.
Qed.

End SlideLookups.



(** X9: a notebook without workshop metadata is skipped (lines 323-326):
    [process_notebook] returns nothing for the index, says so in one line
    and leaves the file system as it was. *)
Theorem process_notebook_skips `{L : Library}
    notebook_path output_dir config section_slides
    (fs : FS) text notebook metadata :
  fs !! notebook_path = Some (File text) ->
  json_load text = Some notebook ->
  get_notebook_metadata notebook = Ret metadata ->
  truthy metadata = false ->
  process_notebook notebook_path output_dir config section_slides fs
  = (Ret None, fs,
     ["Skipping " +:+ PurePath.to_string notebook_path +:+ " - no workshop metadata"]).
Proof.
  intros Hfile Hload Hmd Hempty.
  unfold process_notebook, mbind, M_bind, IO.read_text, IO.lift.
  rewrite Hfile, Hload, Hmd, Hempty. reflexivity.
Qed.

(** X14: without ImageMagick and poppler there is no thumbnail (lines
    586-591): when the thumbnail is not there yet and both tools are
    missing, [create_slide_thumbnail] returns nothing, prints the warning
    and writes nothing. *)
Theorem create_slide_thumbnail_without_tools `{L : Library}
    pdf_path output_dir (fs : FS) :
  IO.path_exists fs (PurePath.join output_dir (PurePath.stem pdf_path +:+ "-thumb.png")) = false ->
  run_convert fs (PurePath.to_string pdf_path +:+ "[0]")
              (PurePath.join output_dir (PurePath.stem pdf_path +:+ "-thumb.png"))
  = ToolMissing ->
  run_pdftoppm fs (PurePath.to_string pdf_path)
               (PurePath.join output_dir (PurePath.stem pdf_path +:+ ".png"))
  = ToolMissing ->
  create_slide_thumbnail pdf_path output_dir fs
  = (Ret None, fs,
     ["  ‚ö† Could not create thumbnail for " +:+ PurePath.name pdf_path
        +:+ " (install ImageMagick or poppler-utils)"]).
Proof.
  intros Hthumb Hconvert Hpdftoppm.
  unfold create_slide_thumbnail, mbind, M_bind, IO.exists_, try_pass.
  rewrite Hthumb, Hconvert, Hpdftoppm. reflexivity.
Qed.

(** X23: without the markdown package the script says so and goes on
    (lines 16-20): it prints the warning first and then does what [main]
    does, with the same outcome and the same files. *)
Theorem script_without_markdown `{L : Library} (fs : FS) :
  markdown_markdown = None ->
  outcome (script fs) = outcome (main fs)
  /\ final_fs (script fs) = final_fs (main fs)
  /\ stdout (script fs)
     = "Warning: 'markdown' package not installed. Install with: pip install markdown"
       :: stdout (main fs).
Proof.
  intros Hnone. unfold script, mbind, M_bind. rewrite Hnone. cbn.
  by destruct (main fs) as [[r s] o].
Qed.


(** ** Further properties of the functions *)

(** *** The groups of the index *)

Section Grouping.

Lemma key_eqb_refl x : hashable x = Ret tt -> key_eqb x x = true.
Proof.
  destruct x as [|b|z|s| |]; try done; cbn; intros _.
  - by destruct b.
  - apply Z.eqb_refl.
  - apply String.eqb_refl.
Qed.

Lemma assoc_set_found {V} k (v v' : V) d :
  assoc_get k d = Some v ->
  exists d1 k' d2,
    d = d1 ++ (k', v) :: d2
    /\ key_eqb k k' = true
    /\ assoc_set k v' d = d1 ++ (k', v') :: d2.
Proof.
  induction d as [|[k0 v0] d IH]; cbn; [done|].
  destruct (key_eqb k k0) eqn:Hk.
  - intros [= ->]. by exists [], k0, d.
  - intros Hget. destruct (IH Hget) as (d1 & k' & d2 & -> & Hk' & ->).
    by exists ((k0, v0) :: d1), k', d2.
Qed.

Lemma assoc_set_new {V} k (v' : V) d :
  assoc_get k d = None ->
  Forall (fun k' => key_eqb k k' = false) d.*1 /\ assoc_set k v' d = d ++ [(k, v')].
Proof.
  induction d as [|[k0 v0] d IH]; cbn; [done|].
  destruct (key_eqb k k0) eqn:Hk; [done|].
  intros Hget. destruct (IH Hget) as (Hall & ->). split; [by constructor|done].
Qed.

Lemma grouped_step seen sections nb :
  hashable (item_section nb) = Ret tt ->
  grouped seen sections ->
  grouped (seen ++ [nb])
          (assoc_set (item_section nb)
                     (default [] (assoc_get (item_section nb) sections) ++ [nb]) sections).
Proof.
  intros Hhash (Hperm & Hall & Hkeys). unfold grouped.
  destruct (assoc_get (item_section nb) sections) as [members|] eqn:Hget.
  - change (default [] (Some members)) with members.
    destruct (assoc_set_found _ _ (members ++ [nb]) _ Hget)
      as (d1 & k' & d2 & -> & Hk' & ->).
    rewrite fmap_app, fmap_cons in Hperm. rewrite fmap_app, fmap_cons in Hkeys.
    rewrite (fmap_app snd), (fmap_app fst), !fmap_cons. cbn [fst snd] in *.
    apply Forall_app in Hall as [Hall1 Hall2].
    apply Forall_cons in Hall2 as [(Hne & Hmem & Hsub) Hall2]. cbn [fst snd] in *.
    split_and!.
    + rewrite !concat_app, !concat_cons in Hperm |- *.
      rewrite Hperm, <- !app_assoc.
      do 2 apply Permutation_app_head. apply Permutation_app_comm.
    + apply Forall_app. split; [|constructor].
      * eapply Forall_impl; [exact Hall1|]. intros kv (? & ? & ?). split_and!; [done..|].
        by apply sublist_inserts_r.
      * cbn [fst snd]. split_and!.
        -- by destruct members.
        -- apply Forall_app. split; [done|]. by constructor.
        -- by apply sublist_app.
      * eapply Forall_impl; [exact Hall2|]. intros kv (? & ? & ?). split_and!; [done..|].
        by apply sublist_inserts_r.
    + done.
  - change (default [] None ++ [nb]) with [nb].
    destruct (assoc_set_new _ [nb] _ Hget) as (Hnew & ->).
    split_and!.
    + rewrite fmap_app, concat_app. cbn. rewrite ?app_nil_r. by apply Permutation_app_tail.
    + apply Forall_app. split.
      * eapply Forall_impl; [exact Hall|]. intros kv (? & ? & ?). split_and!; [done..|].
        by apply sublist_inserts_r.
      * constructor; [|done]. cbn. split_and!; [done| |].
        -- constructor; [|done]. by apply key_eqb_refl.
        -- apply sublist_inserts_l. done.
    + rewrite fmap_app. cbn. apply StronglySorted_app. split_and!; [|done|repeat constructor].
      intros k1 k2 Hk1 Hk2%list_elem_of_singleton. subst k2.
      rewrite Forall_forall in Hnew. by apply Hnew.
Qed.

Lemma group_by_section_grouped notebooks :
  forall seen sections result,
    grouped seen sections ->
    group_by_section notebooks sections = Ret result ->
    grouped (seen ++ notebooks) result.
Proof.
  induction notebooks as [|nb rest IH]; intros seen sections result Hinv; cbn.
  - intros [= <-]. by rewrite app_nil_r.
  - intros ([] & Hhash & Hrest)%result_bind_ret_inv.
    apply (IH (seen ++ [nb])) in Hrest; [|by apply grouped_step].
    by rewrite <- app_assoc in Hrest.
Qed.

End Grouping.

(** X18: the grouping of the index loses no item and makes none twice: when
    [group_by_section] returns, the groups together are the items, every
    group is not empty and keeps the items of one section in the order they
    came in, and no two groups have equal keys. *)
Theorem group_by_section_partition (notebooks : list item) sections :
  group_by_section notebooks [] = Ret sections ->
  grouped notebooks sections.
Proof.
  intros Hrun. apply (group_by_section_grouped notebooks [] [] sections); [|done].
  split_and!; [done|constructor|constructor].
Qed.

(** *** The cells of a notebook *)

Section CellSteps.
Context {L : Library}.

Lemma strip_solution_empty_cell : strip_solution empty_cell = Ret empty_cell.
Proof. reflexivity. Qed.

Lemma strip_solution_again cell cell' :
  strip_solution cell = Ret cell' -> strip_solution cell' = Ret cell'.
Proof.
  unfold strip_solution at 1.
  intros (sol & Hsol & [= <-])%result_bind_ret_inv.
  destruct sol; [reflexivity|]. unfold strip_solution. by rewrite Hsol.
Qed.

Lemma map_strip_solution_again l l' :
  map_result strip_solution l = Ret l' -> map_result strip_solution l' = Ret l'.
Proof.
  revert l'. induction l as [|c l IH]; intros l'; cbn.
  - by intros [= <-].
  - intros (c' & Hc & H)%result_bind_ret_inv.
    apply result_bind_ret_inv in H as (rest & Hrest & [= <-]).
    cbn. by rewrite (strip_solution_again _ _ Hc), (IH _ Hrest).
Qed.

End CellSteps.

(** X5: clearing the solutions is idempotent: the cells that
    [strip_solutions] returns hold no solution any more, so clearing them
    again returns them as they are. *)
Theorem strip_solutions_idempotent (cells cells' : json) :
  strip_solutions cells = Ret cells' -> strip_solutions cells' = Ret cells'.
Proof.
  destruct cells as [| | |s|l|d]; try done.
  - destruct s; [|done]. by intros [= <-].
  - cbn. intros (l' & Hl & [= <-])%result_bind_ret_inv.
    cbn. by rewrite (map_strip_solution_again _ _ Hl).
  - destruct d; [|done]. by intros [= <-].
Qed.

(** X6: the setup cell goes right after the first markdown cell, and to the
    front when no cell is markdown: the position that [find_insert_pos]
    returns is 0 with no markdown cell in the list, or one past the first
    cell whose type is markdown. *)
Theorem find_insert_pos_first_markdown (cells : list json) (pos : nat) :
  find_insert_pos 0 cells = Ret pos ->
  (pos = 0
   /\ Forall (fun cell => exists ty, py_getitem cell "cell_type" = Ret ty
                                     /\ eq_str ty "markdown" = false) cells)
  \/ (exists cell ty,
        0 < pos
        /\ cells !! (pos - 1) = Some cell
        /\ py_getitem cell "cell_type" = Ret ty
        /\ eq_str ty "markdown" = true
        /\ Forall (fun cell => exists ty, py_getitem cell "cell_type" = Ret ty
                                          /\ eq_str ty "markdown" = false)
                  (take (pos - 1) cells)).
Proof.
  assert (Hgen : forall i p,
            find_insert_pos i cells = Ret p ->
            (p = 0
             /\ Forall (fun cell => exists ty, py_getitem cell "cell_type" = Ret ty
                                               /\ eq_str ty "markdown" = false) cells)
            \/ (exists cell ty,
                  i < p
                  /\ cells !! (p - S i) = Some cell
                  /\ py_getitem cell "cell_type" = Ret ty
                  /\ eq_str ty "markdown" = true
                  /\ Forall (fun cell => exists ty, py_getitem cell "cell_type" = Ret ty
                                                    /\ eq_str ty "markdown" = false)
                            (take (p - S i) cells))).
  { induction cells as [|cell rest IH]; intros i p; cbn [find_insert_pos].
    - intros [= <-]. left. by split.
    - intros (ty & Hty & H)%result_bind_ret_inv.
      destruct (eq_str ty "markdown") eqn:Hmd.
      + injection H as <-. right. exists cell, ty.
        replace (S i - S i) with 0 by lia. cbn. split_and!; [lia|done..].
      + destruct (IH _ _ H) as [(-> & Hall)|(c & t & Hlt & Hc & Ht & Hm & Hall)].
        * left. split; [done|]. constructor; [by exists ty|done].
        * right. exists c, t.
          replace (p - S i) with (S (p - S (S i))) by lia. cbn.
          split_and!; [lia|done..|]. constructor; [by exists ty|done]. }
  intros Hrun. destruct (Hgen 0 pos Hrun) as [?|(c & t & Hlt & Hc & Ht & Hm & Hall)];
    [by left|].
  right. by exists c, t.
Qed.

(** X4: setting the kernel keeps everything else of the notebook: when
    [set_kernelspec] returns, every key of the notebook other than
    [metadata], every key of its metadata other than [kernelspec] (so the
    workshop metadata), and every key of the kernelspec other than the
    three that are set, is as it was. *)
Theorem set_kernelspec_keeps_the_rest (nb nb' : json) :
  set_kernelspec nb = Ret nb' ->
  (forall k, k <> "metadata" -> py_getitem nb' k = py_getitem nb k)
  /\ exists md md' ks ks',
       py_get nb "metadata" (JDict []) = Ret md
       /\ py_getitem nb' "metadata" = Ret md'
       /\ (forall k, k <> "kernelspec" -> py_getitem md' k = py_getitem md k)
       /\ py_get md "kernelspec" (JDict []) = Ret ks
       /\ py_getitem md' "kernelspec" = Ret ks'
       /\ (forall k, k <> "name" -> k <> "display_name" -> k <> "language" ->
                     py_getitem ks' k = py_getitem ks k).
Proof.
  unfold set_kernelspec.
  set (nb1 := match nb with JDict d => _ | _ => nb end).
  intros (md & Hmd & H)%result_bind_ret_inv.
  apply result_bind_ret_inv in H as (has_ks & Hhas & H).
  set (md1 := if has_ks then md else set_item md "kernelspec" (JDict [])) in H.
  apply result_bind_ret_inv in H as (ks & Hks & H).
  destruct ks as [| | | | |ksd]; try done. injection H as <-.
  destruct (getitem_dict _ _ _ Hmd) as (d1 & Hnb1).
  destruct (getitem_dict _ _ _ Hks) as (mdd & Hmd1).
  assert (Hnb : (forall k, k <> "metadata" -> py_getitem nb1 k = py_getitem nb k)
                /\ py_get nb "metadata" (JDict []) = Ret md).
  { subst nb1. destruct nb as [| | | | |d]; try done.
    destruct (Dict.mem "metadata" d) eqn:Hmem.
    - split; [done|]. cbn in Hmd |- *.
      destruct (Dict.lookup "metadata" d); [by injection Hmd as ->|done].
    - split; [intros k Hk; by apply getitem_set_item_ne|].
      rewrite getitem_set_item_eq in Hmd. injection Hmd as <-.
      cbn. unfold Dict.mem in Hmem. by destruct (Dict.lookup "metadata" d). }
  destruct Hnb as [Hother Hget].
  assert (Hmd_keys : (forall k, k <> "kernelspec" -> py_getitem md1 k = py_getitem md k)
                     /\ py_get md "kernelspec" (JDict []) = Ret (JDict ksd)).
  { subst md1. destruct has_ks.
    - split; [done|]. destruct md as [| | | | |m]; try done. cbn in Hks |- *.
      destruct (Dict.lookup "kernelspec" m); [by injection Hks as ->|done].
    - split; [intros k Hk; by apply getitem_set_item_ne|].
      destruct md as [| | | | |m]; try done.
      rewrite getitem_set_item_eq in Hks. injection Hks as <-.
      cbn in Hhas |- *. injection Hhas as Hmem. unfold Dict.mem in Hmem.
      by destruct (Dict.lookup "kernelspec" m). }
  destruct Hmd_keys as [Hmd_other Hks_get].
  split.
  - intros k Hk. rewrite getitem_set_item_ne by done. by apply Hother.
  - exists md, (set_item md1 "kernelspec"
                  (set_item (set_item (set_item (JDict ksd) "name" (JStr "python3"))
                                      "display_name" (JStr "Python 3"))
                            "language" (JStr "python"))),
           (JDict ksd),
           (set_item (set_item (set_item (JDict ksd) "name" (JStr "python3"))
                               "display_name" (JStr "Python 3"))
                     "language" (JStr "python")).
    split_and!; [done| | |done| |].
    + rewrite Hnb1. apply getitem_set_item_eq.
    + intros k Hk. rewrite getitem_set_item_ne by done. by apply Hmd_other.
    + rewrite Hmd1. apply getitem_set_item_eq.
    + intros k H1 H2 H3. by rewrite !getitem_set_item_ne.
Qed.

(** X1: the table of contents is empty exactly when there is nothing to
    list: [generate_toc_from_markdown] returns the empty text if and only
    if the document declares no links and its body has no second-level
    heading. *)
Theorem generate_toc_empty (markdown_content : string) (has_useful_links : bool) :
  generate_toc_from_markdown markdown_content has_useful_links = ""
  <-> has_useful_links = false /\ h2_headings markdown_content = [].
Proof.
  unfold generate_toc_from_markdown. rewrite findall_h2_headings.
  destruct has_useful_links.
  - split; [|by intros [[=] _]]. intros H. exfalso. revert H.
    unfold Py.join. cbn [String.concat List.map].
    destruct (List.map toc_entry (h2_headings markdown_content)); discriminate.
  - destruct (h2_headings markdown_content) as [|h hs]; [done|].
    split; [|by intros [_ [=]]]. intros H. exfalso. revert H.
    unfold Py.join. cbn [String.concat List.map]. discriminate.
Qed.

(** *** The characters of a text *)

Section Characters.

Lemma chars_rev_app s1 s2 :
  list_ascii_of_string (String.rev_app s1 s2)
  = rev (list_ascii_of_string s1) ++ list_ascii_of_string s2.
Proof.
  revert s2. induction s1 as [|c s1 IH]; intros s2; cbn; [done|].
  rewrite IH. cbn. by rewrite <- app_assoc.
Qed.

Lemma chars_rev s : list_ascii_of_string (String.rev s) = rev (list_ascii_of_string s).
Proof. unfold String.rev. by rewrite chars_rev_app, app_nil_r. Qed.

Lemma chars_inj s t : list_ascii_of_string s = list_ascii_of_string t -> s = t.
Proof.
  intros H. rewrite <- (string_of_list_ascii_of_string s),
                    <- (string_of_list_ascii_of_string t). by rewrite H.
Qed.

Lemma string_rev_involutive s : String.rev (String.rev s) = s.
Proof. apply chars_inj. by rewrite !chars_rev, rev_involutive. Qed.

Lemma chars_app s t :
  list_ascii_of_string (s +:+ t) = list_ascii_of_string s ++ list_ascii_of_string t.
Proof. induction s as [|c s IH]; cbn; [done|]. by rewrite <- IH. Qed.

Lemma lstrip_no_space s :
  Forall (fun c => Py.is_space c = false) (list_ascii_of_string s) -> Py.lstrip s = s.
Proof. destruct s as [|c s]; cbn; [done|]. intros [-> _]%Forall_cons. done. Qed.

Lemma strip_no_space s :
  Forall (fun c => Py.is_space c = false) (list_ascii_of_string s) -> Py.strip s = s.
Proof.
  intros Hs. unfold Py.strip. rewrite (lstrip_no_space s Hs).
  rewrite lstrip_no_space; [apply string_rev_involutive|].
  rewrite chars_rev. by apply Forall_rev.
Qed.

(** The words of [s.split()] are not empty and hold no white space. *)
Lemma split_ws_aux_words cur s :
  Forall (fun c => Py.is_space c = false) (list_ascii_of_string cur) ->
  Forall (fun w => w <> "" /\ Forall (fun c => Py.is_space c = false) (list_ascii_of_string w))
         (Py.split_ws_aux cur s).
Proof.
  assert (Hword : forall cur,
            Forall (fun c => Py.is_space c = false) (list_ascii_of_string cur) ->
            Forall (fun w => w <> ""
                             /\ Forall (fun c => Py.is_space c = false)
                                       (list_ascii_of_string w))
                   (if String.eqb cur "" then [] else [String.rev cur])).
  { intros c Hc. destruct (String.eqb_spec c "") as [->|Hne]; [constructor|].
    constructor; [|constructor]. split.
    - intros Hrev. apply Hne. by rewrite <- (string_rev_involutive c), Hrev.
    - rewrite chars_rev. by apply Forall_rev. }
  revert cur. induction s as [|c s IH]; intros cur Hcur; cbn [Py.split_ws_aux].
  - by apply Hword.
  - destruct (Py.is_space c) eqn:Hc.
    + apply Forall_app. split; [by apply Hword|]. apply IH. constructor.
    + apply IH. cbn. by constructor.
Qed.

End Characters.


(** *** The anchors of the table of contents *)

Section Anchors.

Lemma chars_filter_chars p s :
  list_ascii_of_string (Py.filter_chars p s) = List.filter p (list_ascii_of_string s).
Proof. induction s as [|c s IH]; cbn; [done|]. destruct (p c); cbn; by rewrite IH. Qed.

Lemma chars_lower s :
  list_ascii_of_string (Py.lower s) = List.map Py.lower_char (list_ascii_of_string s).
Proof. induction s as [|c s IH]; cbn; [done|]. by rewrite IH. Qed.

Lemma lstrip_Forall (P : ascii -> Prop) s :
  Forall P (list_ascii_of_string s) -> Forall P (list_ascii_of_string (Py.lstrip s)).
Proof.
  induction s as [|c s IH]; cbn; [done|]. intros Hall.
  destruct (Py.is_space c); [|done]. apply IH. by apply Forall_cons in Hall as [_ ?].
Qed.

Lemma strip_Forall (P : ascii -> Prop) s :
  Forall P (list_ascii_of_string s) -> Forall P (list_ascii_of_string (Py.strip s)).
Proof.
  intros Hall. unfold Py.strip. rewrite chars_rev. apply Forall_rev.
  apply lstrip_Forall. rewrite chars_rev. apply Forall_rev. by apply lstrip_Forall.
Qed.

(** [s.replace(' ', '-')], character by character. *)
Lemma chars_replace_space s :
  list_ascii_of_string (Py.replace " " "-" s)
  = List.map (fun c => if Ascii.eqb c " " then "-"%char else c) (list_ascii_of_string s).
Proof.
  change (Py.replace " " "-" s) with (Py.replace_aux " " "-" 0 s).
  induction s as [|c s IH]; [done|].
  change (Py.replace_aux " " "-" 0 (String c s))
    with (if String.prefix " " (String c s)
          then "-" +:+ Py.replace_aux " " "-" 0 s
          else String c (Py.replace_aux " " "-" 0 s)).
  cbn [String.prefix list_ascii_of_string List.map].
  destruct (ascii_dec " " c) as [<-|Hne].
  - assert (String.prefix "" s = true) as -> by (by destruct s).
    change (list_ascii_of_string ("-" +:+ Py.replace_aux " " "-" 0 s))
      with ("-"%char :: list_ascii_of_string (Py.replace_aux " " "-" 0 s)).
    cbn. by rewrite IH.
  - assert (Ascii.eqb c " " = false) as ->.
    { apply Ascii.eqb_neq. by intros ->. }
    cbn. by rewrite IH.
Qed.

(** What the pattern [[^\w\s-]] keeps of ASCII text, in lower case and with
    the space replaced. *)
Lemma kept_char_lower c :
  is_ascii c = true ->
  Py.is_word c || Py.is_space c || Ascii.eqb c "-" = true ->
  let c' := if Ascii.eqb (Py.lower_char c) " " then "-"%char else Py.lower_char c in
  is_ascii c' = true
  /\ Ascii.eqb c' " " = false
  /\ Py.lower_char c' = c'
  /\ Py.is_word c' || Py.is_space c' || Ascii.eqb c' "-" = true.
Proof.
  destruct c as [[] [] [] [] [] [] [] []]; vm_compute; intros Hascii Hkept;
    first [discriminate Hascii | discriminate Hkept | repeat split].
Qed.

End Anchors.

(** X2: the anchor of an ASCII header is a lower-case word with hyphens:
    for a header of ASCII characters, every character of [anchor_of
    header] is an ASCII word character, a hyphen or white space other than
    the space; it is no space and no upper-case letter. *)
Theorem anchor_of_chars (header : string) :
  ascii_text header ->
  Forall (fun c => is_ascii c = true
                   /\ Ascii.eqb c " " = false
                   /\ Py.lower_char c = c
                   /\ Py.is_word c || Py.is_space c || Ascii.eqb c "-" = true)
         (list_ascii_of_string (anchor_of header)).
Proof.
  intros Hascii.
  unfold anchor_of. rewrite chars_replace_space, chars_lower, List.map_map.
  apply List.Forall_map.
  eapply Forall_impl.
  - apply (strip_Forall (fun c => is_ascii c = true
                                  /\ Py.is_word c || Py.is_space c || Ascii.eqb c "-" = true)).
    rewrite chars_filter_chars.
    apply Forall_forall. intros c Hc. apply list_elem_of_In, List.filter_In in Hc as [Hin Hc].
    split; [|exact Hc].
    unfold ascii_text in Hascii. rewrite Forall_forall in Hascii.
    by apply Hascii, list_elem_of_In.
  - intros c [Hc Hkept]. by apply kept_char_lower.
Qed.

(** *** Files that are copied to the output *)

Section OnlyAdds.
Context {L : Library}.

Lemma only_adds_bind {A B} (m : M A) (f : A -> M B) :
  only_adds m -> (forall a, only_adds (f a)) -> only_adds (m ≫= f).
Proof.
  intros Hm Hf fs. specialize (Hm fs). unfold mbind, M_bind.
  destruct (m fs) as [[[a|c|e] fs1] out1]; [|done..].
  specialize (Hf a fs1). destruct (f a fs1) as [[r fs2] out2].
  cbn in *. by etrans.
Qed.

Lemma only_adds_fold_m {A S} (f : S -> A -> M S) s l :
  (forall s x, only_adds (f s x)) -> only_adds (fold_m f s l).
Proof.
  intros Hf. revert s. induction l as [|x l IH]; intros s; [by intros fs|].
  cbn [fold_m]. apply only_adds_bind; [apply Hf|]. intros s'. apply IH.
Qed.

Lemma is_under_self p : PurePath.is_under p p = true.
Proof.
  unfold PurePath.is_under, PurePath.relative_to. rewrite String.eqb_refl.
  assert (Hrefl : forall ps, PurePath.strip_prefix ps ps = Some []).
  { induction ps as [|x ps IH]; cbn; [done|]. by rewrite String.eqb_refl. }
  by rewrite Hrefl.
Qed.

Lemma path_exists_self (fs : FS) p n : fs !! p = Some n -> IO.path_exists fs p = true.
Proof.
  intros Hp. apply bool_decide_eq_true_2. exists p, n. split; [done|]. apply is_under_self.
Qed.

Lemma path_exists_false_lookup (fs : FS) p : IO.path_exists fs p = false -> fs !! p = None.
Proof.
  intros Hno. destruct (fs !! p) as [n|] eqn:Hp; [|done].
  by rewrite (path_exists_self fs p n Hp) in Hno.
Qed.

Lemma only_adds_mkdir_parents p : only_adds (IO.mkdir_parents p).
Proof.
  unfold IO.mkdir_parents. generalize (IO.ancestors_and_self p). intros ps.
  induction ps as [|q ps IH]; intros fs; [done|].
  cbn [IO.mkdir_chain].
  assert (Hstep : fs ⊆ (if IO.path_exists fs q then fs else <[q := Dir]> fs)).
  { destruct (IO.path_exists fs q) eqn:Hq; [done|].
    apply insert_subseteq. by apply path_exists_false_lookup. }
  destruct (fs !! q) as [[]|]; try done; (etrans; [exact Hstep|apply IH]).
Qed.

(** Lines 497-505 and 527-535. *)
Lemma only_adds_copy_reference warn source_dir output_dir copied m :
  only_adds (copy_reference warn source_dir output_dir copied m).
Proof.
  unfold copy_reference. destruct (is_url m); [by intros fs|].
  intros fs. unfold mbind at 1, M_bind at 1. unfold IO.exists_ at 1.
  destruct (IO.path_exists fs (PurePath.join source_dir m)).
  - set (k := fun _ : unit => _).
    assert (Hk : forall u, only_adds (k u)).
    { intros u fs1. subst k. cbv beta. unfold mbind at 1, M_bind at 1, IO.exists_ at 1.
      destruct (IO.path_exists fs1 (PurePath.join output_dir m)) eqn:Hdest; [done|].
      unfold mbind, M_bind, IO.copy2, IO.create, IO.print.
      destruct (fs1 !! PurePath.join source_dir m) as [[]|]; try done;
        destruct (negb _); try done;
        rewrite (path_exists_false_lookup _ _ Hdest); cbn;
        apply insert_subseteq; by apply path_exists_false_lookup. }
    pose proof (only_adds_bind
                  (IO.mkdir_parents (PurePath.parent (PurePath.join output_dir m))) k
                  (only_adds_mkdir_parents _) Hk fs) as H.
    destruct ((IO.mkdir_parents (PurePath.parent (PurePath.join output_dir m)) ≫= k) fs)
      as [[r fs2] out2]. exact H.
  - by destruct warn.
Qed.

Lemma only_adds_copy_references warn patterns content source_dir output_dir copied :
  only_adds (copy_references warn patterns content source_dir output_dir copied).
Proof.
  unfold copy_references. apply only_adds_fold_m. intros acc pattern.
  apply only_adds_fold_m. intros acc' m. apply only_adds_copy_reference.
Qed.

Lemma only_adds_find_and_copy_referenced_files notebook notebook_dir output_dir :
  only_adds (find_and_copy_referenced_files notebook notebook_dir output_dir).
Proof.
  unfold find_and_copy_referenced_files.
  apply only_adds_bind; [by intros fs|]. intros cells_v.
  apply only_adds_bind; [by intros fs|]. intros cells.
  apply only_adds_fold_m. intros acc cell.
  apply only_adds_bind; [by intros fs|]. intros ty.
  destruct (eq_str ty "markdown"); [|by intros fs].
  apply only_adds_bind; [by intros fs|]. intros src.
  apply only_adds_bind; [by intros fs|]. intros text.
  apply only_adds_copy_references.
Qed.

End OnlyAdds.

(** X12: copying the files a document refers to only adds to the file
    system: whatever the cells or the text refer to and however the copying
    ends, no file that was there is removed, changed or written over, by
    [find_and_copy_referenced_files] and by [copy_markdown_referenced_files]
    alike. *)
Theorem referenced_files_only_added `{L : Library}
    (notebook : json) (content : string) (source_dir output_dir : Path) :
  only_adds (find_and_copy_referenced_files notebook source_dir output_dir)
  /\ only_adds (copy_markdown_referenced_files content source_dir output_dir).
Proof.
  split; [apply only_adds_find_and_copy_referenced_files|apply only_adds_copy_references].
Qed.

(** X11: the data archive is all that [create_data_zip] changes, and the
    count it prints is right: when it returns, the file system is the one
    before with the archive at [zip_path], the source files are as they
    were, and the last line printed gives the number of members of the
    archive. *)
Theorem create_data_zip_changes_the_archive_only `{L : Library}
    data_patterns zip_path base_dir (fs : FS) u fs' out :
  create_data_zip data_patterns zip_path base_dir fs = (Ret u, fs', out) ->
  exists members,
    fs' = <[zip_path := Archive members]> fs
    /\ List.last out ""
       = "‚úì Created " +:+ PurePath.name zip_path +:+ " with "
           +:+ string_of_nat (List.length members) +:+ " files".
Proof.
  unfold create_data_zip. intros Hrun.
  apply bind_ret_inv in Hrun as ([] & fs1 & out1 & out2 & Hcreate & Hrun & ->).
  apply bind_ret_inv in Hrun as (patterns & fs2 & out3 & out4 & Hiter & Hrun & ->).
  apply lift_ret_inv in Hiter as (Hiter & -> & ->).
  apply bind_ret_inv in Hrun as (added_files & fs3 & out5 & out6 & Hloop & Hprint & ->).
  apply print_ret_inv in Hprint as (-> & ->).
  assert (Hfs1 : fs1 = <[zip_path := Archive []]> fs /\ out1 = []).
  { unfold IO.create in Hcreate.
    destruct (negb _); [done|].
    destruct (fs !! zip_path) as [[]|]; try done; by injection Hcreate as <- <-. }
  destruct Hfs1 as [-> ->].
  assert (Hinv0 : zip_inv fs zip_path base_dir (<[zip_path := Archive []]> fs) ∅).
  { exists []. split_and!; [done|set_solver|constructor|constructor]. }
  apply (add_patterns_inv _ _ _ _ _ _ _ _ _ Hinv0) in Hloop
    as ((members & -> & Hadded & _ & Hnodup) & _).
  exists members. split; [done|].
  assert (added_files = list_to_set (member_source <$> members)) as ->.
  { apply set_eq. intros s. rewrite elem_of_list_to_set. apply Hadded. }
  rewrite size_list_to_set, length_fmap by done.
  cbn [app]. by rewrite List.last_last.
Qed.

(** *** The thumbnail of the slides *)

Section Thumbnails.
Context {L : Library}.

(** Lines 551-565: the attempt with ImageMagick. *)
Lemma try_convert_returns pdf_arg thumb_path thumb_name (fs : FS) :
  exists r fs1 out,
    try_pass (fun fs =>
      match run_convert fs pdf_arg thumb_path with
      | ToolMissing => (Raise "FileNotFoundError", fs, [])
      | ToolFailed => (Ret None, fs, [])
      | ToolOk written =>
          (tool_writes thumb_path written ;;
           IO.print ("  ‚Üí Created slide thumbnail: " +:+ thumb_name) ;;
           mret (Some thumb_name)) fs
      end) fs = (Ret r, fs1, out)
    /\ (r = None \/ r = Some thumb_name)
    /\ forall p, p <> thumb_path -> fs1 !! p = fs !! p.
Proof.
  unfold try_pass. destruct (run_convert fs pdf_arg thumb_path) as [| |[data|]].
  - eexists _, _, _; split_and!; [reflexivity|by left|done].
  - eexists _, _, _; split_and!; [reflexivity|by left|done].
  - eexists _, _, _. split_and!; [reflexivity|by right|].
    intros p Hp. cbn. by rewrite lookup_insert_ne.
  - eexists _, _, _; split_and!; [reflexivity|by right|done].
Qed.

(** Lines 567-588: the attempt with poppler. *)
Lemma try_pdftoppm_returns pdf_arg png thumb_path thumb_name (fs : FS) :
  exists r fs1 out,
    try_pass (fun fs =>
      match run_pdftoppm fs pdf_arg png with
      | ToolMissing => (Raise "FileNotFoundError", fs, [])
      | ToolFailed => (Ret None, fs, [])
      | ToolOk written =>
          (tool_writes png written ;;
           made ← IO.exists_ png;
           if (made : bool) then
             IO.move png thumb_path ;;
             IO.print ("  ‚Üí Created slide thumbnail: " +:+ thumb_name) ;;
             mret (Some thumb_name)
           else mret None) fs
      end) fs = (Ret r, fs1, out)
    /\ (r = None \/ r = Some thumb_name)
    /\ forall p, p <> thumb_path -> p <> png -> fs1 !! p = fs !! p.
Proof.
  unfold try_pass. destruct (run_pdftoppm fs pdf_arg png) as [| |written].
  - eexists _, _, _; split_and!; [reflexivity|by left|done].
  - eexists _, _, _; split_and!; [reflexivity|by left|done].
  - unfold mbind at 1, M_bind at 1.
    assert (exists fs0,
              tool_writes png written fs = (Ret tt, fs0, [])
              /\ forall p, p <> png -> fs0 !! p = fs !! p) as (fs0 & -> & Hfs0).
    { destruct written as [data|]; eexists; (split; [reflexivity|]); [|done].
      intros p Hp. by rewrite lookup_insert_ne. }
    unfold mbind at 1, M_bind at 1, IO.exists_.
    destruct (IO.path_exists fs0 png).
    + unfold mbind, M_bind, IO.move. destruct (fs0 !! png) as [n|] eqn:Hpng.
      * eexists _, _, _. split_and!; [reflexivity|by right|].
        intros p Hthumb Hp. cbn.
        rewrite lookup_insert_ne, lookup_delete_ne by done. by apply Hfs0.
      * eexists _, _, _. split_and!; [reflexivity|by left|].
        intros p _ Hp. by apply Hfs0.
    + eexists _, _, _. split_and!; [reflexivity|by left|].
      intros p _ Hp. by apply Hfs0.
Qed.

End Thumbnails.

(** X13: making the thumbnail never fails the run and touches two paths
    only: whether the tools are missing, fail or succeed,
    [create_slide_thumbnail] returns, with the name of the thumbnail or
    with nothing, and every path other than the thumbnail and the
    intermediate picture of [pdftoppm] is as it was. *)
Theorem create_slide_thumbnail_returns `{L : Library} (pdf_path output_dir : Path) (fs : FS) :
  exists r fs' out,
    create_slide_thumbnail pdf_path output_dir fs = (Ret r, fs', out)
    /\ (r = None \/ r = Some (PurePath.stem pdf_path +:+ "-thumb.png"))
    /\ forall p,
         p <> PurePath.join output_dir (PurePath.stem pdf_path +:+ "-thumb.png") ->
         p <> PurePath.join output_dir (PurePath.stem pdf_path +:+ ".png") ->
         fs' !! p = fs !! p.
Proof.
  unfold create_slide_thumbnail. cbv zeta.
  unfold mbind at 1, M_bind at 1, IO.exists_ at 1.
  destruct (IO.path_exists fs _).
  { eexists _, _, _; split_and!; [reflexivity|by right|done]. }
  unfold mbind at 1, M_bind at 1.
  destruct (try_convert_returns (PurePath.to_string pdf_path +:+ "[0]")
              (PurePath.join output_dir (PurePath.stem pdf_path +:+ "-thumb.png"))
              (PurePath.stem pdf_path +:+ "-thumb.png") fs)
    as (r1 & fs1 & out1 & -> & [->| ->] & Hfs1).
  2: { eexists _, _, _. split_and!; [reflexivity|by right|]. intros p Hp _. by apply Hfs1. }
  unfold mbind at 1, M_bind at 1.
  destruct (try_pdftoppm_returns (PurePath.to_string pdf_path)
              (PurePath.join output_dir (PurePath.stem pdf_path +:+ ".png"))
              (PurePath.join output_dir (PurePath.stem pdf_path +:+ "-thumb.png"))
              (PurePath.stem pdf_path +:+ "-thumb.png") fs1)
    as (r2 & fs2 & out2 & -> & [->| ->] & Hfs2).
  - eexists _, _, _. split_and!; [reflexivity|by left|].
    intros p Hthumb Hpng. cbn. rewrite Hfs2 by done. by apply Hfs1.
  - eexists _, _, _. split_and!; [reflexivity|by right|].
    intros p Hthumb Hpng. cbn. rewrite Hfs2 by done. by apply Hfs1.
Qed.

(** *** The slides of a notebook *)

Section SlidesCopied.
Context {L : Library}.

(** [mkdir(parents=True)] adds directories and nothing else. *)
Lemma mkdir_parents_adds_dirs p (fs : FS) r fs1 out :
  IO.mkdir_parents p fs = (r, fs1, out) ->
  fs ⊆ fs1 /\ forall q n, fs1 !! q = Some n -> n <> Dir -> fs !! q = Some n.
Proof.
  unfold IO.mkdir_parents. generalize (IO.ancestors_and_self p). intros ps.
  revert fs r fs1 out.
  induction ps as [|q0 ps IH]; intros fs r fs1 out; cbn [IO.mkdir_chain].
  - by intros [= _ <- _].
  - assert (Hstep : fs ⊆ (if IO.path_exists fs q0 then fs else <[q0 := Dir]> fs)
                    /\ forall q n,
                         (if IO.path_exists fs q0 then fs else <[q0 := Dir]> fs) !! q = Some n ->
                         n <> Dir -> fs !! q = Some n).
    { destruct (IO.path_exists fs q0) eqn:Hq; [done|]. split.
      - apply insert_subseteq. by apply path_exists_false_lookup.
      - intros q n Hn Hdir. destruct (decide (q = q0)) as [->|Hne].
        + rewrite lookup_insert_eq in Hn. by injection Hn as <-.
        + by rewrite lookup_insert_ne in Hn. }
    destruct Hstep as [Hsub Hold].
    assert (Hrest : forall r fs1 out,
              IO.mkdir_chain ps (if IO.path_exists fs q0 then fs else <[q0 := Dir]> fs)
              = (r, fs1, out) ->
              fs ⊆ fs1 /\ forall q n, fs1 !! q = Some n -> n <> Dir -> fs !! q = Some n).
    { intros r' fs1' out' Hrun. apply IH in Hrun as [Hsub' Hold'].
      split; [by etrans|]. intros q n Hn Hdir. apply Hold; [|done]. by apply Hold'. }
    destruct (fs !! q0) as [n0|] eqn:Hq0; [destruct n0|].
    + apply Hrest.
    + by intros [= _ <- _].
    + by intros [= _ <- _].
    + apply Hrest.
Qed.

End SlidesCopied.


(** *** The sections of the configuration *)

(** X20: a section whose folder is not there is passed over: for a section
    that names no folder, or a folder that does not exist, the loop body of
    [main] prints the warning of line 910 and goes on with the items it
    had; nothing is read or written. *)
Theorem process_section_missing_folder `{L : Library}
    output_dir config processed_items (section folder : json) (fs : FS) :
  (if is_dict section then py_get section "folder" JNull = Ret folder else folder = section) ->
  truthy folder = false
  \/ (exists name, as_str folder = Ret name
                   /\ IO.path_exists fs (PurePath.of_string name) = false) ->
  process_section output_dir config processed_items section fs
  = (Ret processed_items, fs,
     ["Warning: Section folder '" +:+ py_str folder +:+ "' not found"]).
Proof.
  intros Hfolder Hmissing. unfold process_section.
  assert (Hhead : exists title section_slides out0,
            (if is_dict section then
               folder ← IO.lift (py_get section "folder" JNull);
               title ← IO.lift (py_get section "title" folder);
               section_slides ← IO.lift (py_get section "slides" JNull);
               mret (folder, title, section_slides)
             else mret (section, section, JNull)) fs
            = (Ret (folder, title, section_slides), fs, out0) /\ out0 = []).
  { destruct (is_dict section) eqn:Hdict.
    - destruct section as [| | | | |d]; try done.
      cbn in Hfolder. injection Hfolder as <-.
      by eexists _, _, _.
    - subst folder. by eexists _, _, _. }
  destruct Hhead as (title & section_slides & out0 & Hhead & ->).
  rewrite (bind_run _ _ _ _ _ _ Hhead). cbv beta iota zeta.
  destruct Hmissing as [Hfalsy|(name & Hname & Hno)].
  - rewrite Hfalsy. reflexivity.
  - destruct (truthy folder); [|reflexivity]. cbn [negb].
    unfold mbind at 1, M_bind at 1, IO.lift at 1. rewrite Hname.
    unfold mbind at 1, M_bind at 1, IO.exists_ at 1. rewrite Hno. reflexivity.
Qed.

Section NoSections.
Context {L : Library}.

Lemma inputs_not_under output_dir (fs : FS) p :
  PurePath.is_under output_dir p = true -> IO.path_exists (inputs output_dir fs) p = false.
Proof.
  intros Hunder. apply bool_decide_eq_false_2. intros (k & n & Hk & Hpk).
  apply map_lookup_filter_Some in Hk as [_ Hout]. cbn in Hout, Hpk.
  revert Hunder Hpk Hout. unfold PurePath.is_under, PurePath.relative_to.
  destruct (String.eqb_spec (root p) (root output_dir)) as [Hr1|]; [|done].
  destruct (String.eqb_spec (root k) (root p)) as [Hr2|]; [|done].
  rewrite Hr2, Hr1, String.eqb_refl.
  assert (Hprefix : forall a b c r1 r2,
            PurePath.strip_prefix a b = Some r1 -> PurePath.strip_prefix b c = Some r2 ->
            PurePath.strip_prefix a c <> None).
  { induction a as [|x a IH]; intros b c r1 r2; [done|].
    destruct b as [|y b]; [done|]. destruct c as [|z c]; [done|]. cbn.
    destruct (String.eqb_spec x y) as [->|]; [|done].
    destruct (String.eqb_spec y z) as [->|]; [|done].
    apply IH. }
  destruct (PurePath.strip_prefix (parts output_dir) (parts p)) as [r1|] eqn:H1; [|done].
  destruct (PurePath.strip_prefix (parts p) (parts k)) as [r2|] eqn:H2; [|done].
  pose proof (Hprefix _ _ _ _ _ H1 H2) as H3.
  by destruct (PurePath.strip_prefix (parts output_dir) (parts k)).
Qed.

(** Lines 876-893 for a configuration without sections. *)
Lemma main_no_sections_run (fs : FS) config out_name out sections :
  outcome (load_config fs) = Ret config ->
  py_get config "output_dir" (JStr "docs") = Ret out_name ->
  as_str out_name = Ret out ->
  py_get config "sections" (JList []) = Ret sections ->
  truthy sections = false ->
  (forall n, fs !! PurePath.of_string out = Some n -> n = Dir) ->
  IO.path_exists (inputs (PurePath.of_string out) fs)
                 (PurePath.parent (PurePath.of_string out)) = true ->
  exists cleaned,
    main fs
    = (Ret tt,
       <[PurePath.of_string out := Dir]> (inputs (PurePath.of_string out) fs),
       stdout (load_config fs)
       ++ cleaned ++ ["Warning: No sections defined in workshop-config.yaml"]).
Proof.
  intros Hconfig Hname Hout Hsections Hnone Hdir Hparent.
  apply run_eta in Hconfig. rewrite load_config_state in Hconfig.
  destruct (clean_up_inv _ _ Hdir) as (o1 & Hclean).
  exists o1.
  unfold main. rewrite (bind_run _ _ _ _ _ _ Hconfig).
  rewrite (bind_run (IO.lift (py_get config "output_dir" (JStr "docs"))) _ fs out_name fs [])
    by (unfold IO.lift; by rewrite Hname).
  rewrite (bind_run (IO.lift (as_str out_name)) _ fs out fs [])
    by (unfold IO.lift; by rewrite Hout).
  rewrite (bind_run (IO.exists_ (PurePath.of_string out)) _ fs _ fs [] eq_refl).
  rewrite (bind_run _ _ _ _ _ _ Hclean).
  rewrite (bind_run (IO.mkdir (PurePath.of_string out)) _
             (inputs (PurePath.of_string out) fs) tt
             (<[PurePath.of_string out := Dir]> (inputs (PurePath.of_string out) fs)) []).
  2: { unfold IO.mkdir. rewrite inputs_not_under by apply is_under_self.
       by rewrite Hparent. }
  rewrite (bind_run (IO.lift (py_get config "sections" (JList []))) _ _ sections _ [])
    by (unfold IO.lift; by rewrite Hsections).
  rewrite Hnone. cbn. done.
Qed.

End NoSections.

(** X22: without sections there is nothing to publish: when the
    configuration has no sections, [main] removes what was in the output
    directory, makes the directory anew, prints the warning of line 892 as
    its last line and returns; no other file is touched. *)
Theorem main_without_sections `{L : Library} (fs : FS) config out_name out sections :
  outcome (load_config fs) = Ret config ->
  py_get config "output_dir" (JStr "docs") = Ret out_name ->
  as_str out_name = Ret out ->
  py_get config "sections" (JList []) = Ret sections ->
  truthy sections = false ->
  (forall n, fs !! PurePath.of_string out = Some n -> n = Dir) ->
  IO.path_exists (inputs (PurePath.of_string out) fs)
                 (PurePath.parent (PurePath.of_string out)) = true ->
  outcome (main fs) = Ret tt
  /\ final_fs (main fs) = <[PurePath.of_string out := Dir]> (inputs (PurePath.of_string out) fs)
  /\ List.last (stdout (main fs)) ""
     = "Warning: No sections defined in workshop-config.yaml".
Proof.
  intros Hconfig Hname Hout Hsections Hnone Hdir Hparent.
  destruct (main_no_sections_run fs config out_name out sections
              Hconfig Hname Hout Hsections Hnone Hdir Hparent) as (cleaned & Hmain).
  rewrite Hmain. cbn. split_and!; [done..|].
  rewrite app_assoc. apply List.last_last.
Qed.

(** X24: without a configuration file there is nothing to publish: [main]
    says that it uses the defaults, and as the defaults have no sections
    it makes the output directory [docs] anew, warns that no sections are
    defined and returns; no other file is touched. *)
Theorem main_without_config `{L : Library} (fs : FS) :
  IO.path_exists fs (PurePath.of_string "workshop-config.yaml") = false ->
  (forall n, fs !! PurePath.of_string "docs" = Some n -> n = Dir) ->
  IO.path_exists (inputs (PurePath.of_string "docs") fs)
                 (PurePath.parent (PurePath.of_string "docs")) = true ->
  outcome (main fs) = Ret tt
  /\ final_fs (main fs)
     = <[PurePath.of_string "docs" := Dir]> (inputs (PurePath.of_string "docs") fs)
  /\ List.hd "" (stdout (main fs)) = "Warning: workshop-config.yaml not found, using defaults"
  /\ List.last (stdout (main fs)) ""
     = "Warning: No sections defined in workshop-config.yaml".
Proof.
  intros Hmissing Hdir Hparent.
  assert (Hload : load_config fs
                  = (Ret default_config, fs,
                     ["Warning: workshop-config.yaml not found, using defaults"])).
  { unfold load_config, mbind, M_bind, IO.exists_. by rewrite Hmissing. }
  destruct (main_no_sections_run fs default_config (JStr "docs") "docs" (JList []))
    as (cleaned & Hmain); [by rewrite Hload|done..|].
  rewrite Hmain. cbn. split_and!; [done..|by rewrite Hload|].
  rewrite app_assoc. apply List.last_last.
Qed.

Section SectionItems.
Context {L : Library}.

Lemma extended_by_section_refl title folder items :
  extended_by_section title folder items items.
Proof. exists []. by rewrite app_nil_r. Qed.

Lemma extended_by_section_trans title folder a b c :
  extended_by_section title folder a b -> extended_by_section title folder b c ->
  extended_by_section title folder a c.
Proof.
  intros (x & -> & Hx) (y & -> & Hy). exists (x ++ y).
  split; [by rewrite app_assoc|]. by apply Forall_app.
Qed.

Lemma fold_m_extended {A} (f : list item -> A -> M (list item)) title folder l :
  (forall s x fs s' fs' out,
     f s x fs = (Ret s', fs', out) -> extended_by_section title folder s s') ->
  forall s fs s' fs' out,
    fold_m f s l fs = (Ret s', fs', out) -> extended_by_section title folder s s'.
Proof.
  intros Hf. induction l as [|x l IH]; intros s fs s' fs' out; cbn [fold_m].
  - intros (-> & _)%mret_inv. apply extended_by_section_refl.
  - intros (s1 & fs1 & ? & ? & Hstep & Hrest & _)%bind_ret_inv.
    eapply extended_by_section_trans; [by eapply Hf|by eapply IH].
Qed.

Lemma process_document_extended process output_dir config title folder section_slides
    items path fs items' fs' out :
  process_document process output_dir config title folder section_slides items path fs
  = (Ret items', fs', out) ->
  extended_by_section title folder items items'.
Proof.
  unfold process_document.
  intros ([] & ? & ? & ? & _ & Hrun & _)%bind_ret_inv.
  apply bind_ret_inv in Hrun as (info & ? & ? & ? & _ & Hrun & _).
  destruct info as [i|]; apply mret_inv in Hrun as (-> & _).
  - exists [tag_item title folder section_slides i]. split; [done|]. by constructor.
  - apply extended_by_section_refl.
Qed.

End SectionItems.

(** X21: a section only adds items, and they are its own: when the loop
    body of [main] returns for a section, the list it returns is the list
    it was given followed by the items of this section, and each of these
    carries the title and the folder of the section (for a section given
    as a plain string, the string is both). *)
Theorem process_section_extends `{L : Library}
    output_dir config items (section : json) (fs : FS) items' fs' out :
  process_section output_dir config items section fs = (Ret items', fs', out) ->
  exists folder title,
    (if is_dict section
     then py_get section "folder" JNull = Ret folder /\ py_get section "title" folder = Ret title
     else folder = section /\ title = section)
    /\ extended_by_section title folder items items'.
Proof.
  unfold process_section.
  intros ([[folder title] section_slides] & fs1 & ? & ? & Hhead & Hrun & _)%bind_ret_inv.
  exists folder, title. split.
  - destruct (is_dict section).
    + apply bind_ret_inv in Hhead as (f & ? & ? & ? & Hf & Hhead & _).
      apply lift_ret_inv in Hf as (Hf & _).
      apply bind_ret_inv in Hhead as (t & ? & ? & ? & Ht & Hhead & _).
      apply lift_ret_inv in Ht as (Ht & _).
      apply bind_ret_inv in Hhead as (s & ? & ? & ? & _ & Hhead & _).
      by apply mret_inv in Hhead as ([= -> -> _] & _).
    + by apply mret_inv in Hhead as ([= -> -> _] & _).
  - assert (Hmissing : forall fs0 r fs2 o,
              (IO.print ("Warning: Section folder '" +:+ py_str folder +:+ "' not found") ;;
               mret items) fs0 = (Ret r, fs2, o) ->
              extended_by_section title folder items r).
    { intros fs0 r fs2 o [= <- _ _]. apply extended_by_section_refl. }
    destruct (negb (truthy folder)); [by eapply Hmissing|].
    apply bind_ret_inv in Hrun as (name & ? & ? & ? & _ & Hrun & _).
    apply bind_ret_inv in Hrun as (found & ? & ? & ? & _ & Hrun & _).
    destruct (negb found); [by eapply Hmissing|].
    apply bind_ret_inv in Hrun as (notebooks & ? & ? & ? & _ & Hrun & _).
    apply bind_ret_inv in Hrun as (items1 & ? & ? & ? & Hnbs & Hrun & _).
    apply bind_ret_inv in Hrun as (markdowns & ? & ? & ? & _ & Hrun & _).
    eapply extended_by_section_trans.
    + eapply fold_m_extended; [|exact Hnbs]. intros acc doc fs0 acc' fs0' out0.
      cbv beta. destruct (is_substring ".ipynb_checkpoints" (PurePath.to_string doc)).
      * intros (-> & _)%mret_inv. apply extended_by_section_refl.
      * apply process_document_extended.
    + eapply fold_m_extended; [|exact Hrun]. intros acc doc fs0 acc' fs0' out0.
      apply process_document_extended.
Qed.

(** *** The markdown processor *)

(** X16: a markdown file without usable frontmatter is skipped: when the
    text has no fenced block at its start, or the block is not valid YAML,
    or it is empty, [process_markdown] returns nothing for the index,
    writes nothing, and its last line says that the file is skipped. *)
Theorem process_markdown_skips_without_frontmatter `{L : Library}
    markdown_path output_dir config section_slides (fs : FS) content :
  fs !! markdown_path = Some (File content) ->
  no_frontmatter content ->
  outcome (process_markdown markdown_path output_dir config section_slides fs) = Ret None
  /\ final_fs (process_markdown markdown_path output_dir config section_slides fs) = fs
  /\ List.last (stdout (process_markdown markdown_path output_dir config section_slides fs)) ""
     = "Skipping " +:+ PurePath.to_string markdown_path +:+ " - no frontmatter".
Proof.
  intros Hfile Hno.
  assert (Hread : IO.read_text markdown_path fs = (Ret content, fs, []))
    by (unfold IO.read_text; by rewrite Hfile).
  assert (exists frontmatter body out,
            extract_markdown_frontmatter content fs = (Ret (frontmatter, body), fs, out)
            /\ truthy frontmatter = false) as (frontmatter & body & out & Hextract & Hfalsy).
  { unfold extract_markdown_frontmatter. unfold no_frontmatter in Hno.
    destruct (re_match_frontmatter content) as [[yaml_content rest]|];
      [|by eexists _, _, _].
    destruct (yaml_safe_load yaml_content) as [fm|]; by eexists _, _, _. }
  unfold process_markdown.
  rewrite (bind_run _ _ _ _ _ _ Hread), (bind_run _ _ _ _ _ _ Hextract).
  cbv beta iota. rewrite Hfalsy. cbn. split_and!; [done..|].
  change (out ++ ?l) with (out ++ l). apply List.last_last.
Qed.

Section MarkdownPage.
Context {L : Library}.

Lemma string_app_nil_r s : s +:+ "" = s.
Proof.
  induction s as [|c s IH]; [done|].
  change (String c (s +:+ "") = String c s). by rewrite IH.
Qed.

(** The text grows at its end only. *)
Lemma keeps_start start full piece :
  (exists mid, full = start +:+ mid) -> exists mid, full +:+ piece = start +:+ mid.
Proof. intros (mid & ->). exists (mid +:+ piece). apply string_app_assoc. Qed.

End MarkdownPage.

(** X17: the page of a markdown document starts with its title and ends
    with its body: when [process_markdown] returns an item, the item names
    the page [stem.html], and the file of that name in the output directory
    holds the rendering of a text that begins with the heading of the
    title and ends with the body of the source, unchanged. *)
Theorem process_markdown_page `{L : Library}
    markdown_path output_dir config section_slides (fs : FS) info fs' out :
  process_markdown markdown_path output_dir config section_slides fs
  = (Ret (Some info), fs', out) ->
  exists content frontmatter body middle,
    fs !! markdown_path = Some (File content)
    /\ outcome (extract_markdown_frontmatter content fs) = Ret (frontmatter, body)
    /\ item_name info = PurePath.stem markdown_path
    /\ item_type info = Some "markdown"
    /\ item_html_file info = Some (PurePath.stem markdown_path +:+ ".html")
    /\ fs' !! PurePath.join output_dir (PurePath.stem markdown_path +:+ ".html")
       = Some (File (markdown_to_html
                       (("# " +:+ py_str (item_title info) +:+ Py.nl +:+ Py.nl)
                          +:+ middle +:+ body)
                       (py_str (item_title info)))).
Proof.
  intros Hrun. unfold process_markdown in Hrun.
  apply bind_ret_inv in Hrun as (content & ? & ? & ? & Hread & Hrun & _).
  apply read_text_inv in Hread as (Hread & ->).
  apply bind_ret_inv in Hrun as ([frontmatter body] & fs1 & ? & ? & Hextract & Hrun & _).
  assert (fs1 = fs) as ->.
  { unfold extract_markdown_frontmatter in Hextract.
    destruct (re_match_frontmatter content) as [[y b]|]; [|by injection Hextract].
    destruct (yaml_safe_load y); by injection Hextract. }
  destruct (negb (truthy frontmatter)).
  { apply bind_ret_inv in Hrun as (? & ? & ? & ? & _ & Hrun & _).
    by apply mret_inv in Hrun as (? & _). }
  apply bind_ret_inv in Hrun as (own_slides & ? & ? & ? & _ & Hrun & _).
  set (frontmatter1 := if negb (truthy own_slides) && truthy section_slides
                       then set_item frontmatter "slides" section_slides
                       else frontmatter) in Hrun.
  apply bind_ret_inv in Hrun as (title & ? & ? & ? & _ & Hrun & _).
  apply bind_ret_inv in Hrun as (? & ? & ? & ? & _ & Hrun & _).
  apply bind_ret_inv in Hrun as (data_files & ? & ? & ? & _ & Hrun & _).
  apply bind_ret_inv in Hrun as (? & ? & ? & ? & _ & Hrun & _).
  apply bind_ret_inv in Hrun as (links & ? & ? & ? & _ & Hrun & _).
  set (start := "# " +:+ py_str title +:+ Py.nl +:+ Py.nl) in *.
  set (toc := generate_toc_from_markdown body (truthy links)) in *.
  set (full1 := if String.eqb toc "" then start else start +:+ toc +:+ Py.nl) in *.
  set (full2 := if truthy data_files
                then full1 +:+ download_box (PurePath.stem markdown_path +:+ "-data.zip")
                else full1) in *.
  assert (H2 : exists mid, full2 = start +:+ mid).
  { assert (H1 : exists mid, full1 = start +:+ mid).
    { subst full1. destruct (String.eqb toc ""); [|by eexists].
      exists "". by rewrite string_app_nil_r. }
    subst full2. destruct (truthy data_files); [by apply keeps_start|done]. }
  clearbody full2. clear full1.
  apply bind_ret_inv in Hrun as (slides & ? & ? & ? & _ & Hrun & _).
  apply bind_ret_inv in Hrun as (full3 & ? & ? & ? & Hslides & Hrun & _).
  assert (H3 : exists mid, full3 = start +:+ mid).
  { destruct (truthy slides).
    - apply bind_ret_inv in Hslides as (slide_html & ? & ? & ? & _ & Hslides & _).
      apply mret_inv in Hslides as (-> & _). by apply keeps_start.
    - by apply mret_inv in Hslides as (-> & _). }
  apply bind_ret_inv in Hrun as (full4 & ? & ? & ? & Hlinks & Hrun & _).
  assert (H4 : exists mid, full4 = start +:+ mid).
  { destruct (truthy links).
    - apply bind_ret_inv in Hlinks as (ls & ? & ? & ? & _ & Hlinks & _).
      apply bind_ret_inv in Hlinks as (items & ? & ? & ? & _ & Hlinks & _).
      apply mret_inv in Hlinks as (-> & _). by apply keeps_start.
    - by apply mret_inv in Hlinks as (-> & _). }
  destruct H4 as (middle & ->).
  apply bind_ret_inv in Hrun as ([] & fsw & ? & ? & Hwrite & Hrun & _).
  apply write_text_inv in Hwrite as (-> & _).
  apply bind_ret_inv in Hrun as ([] & ? & ? & ? & Hprint & Hrun & _).
  apply print_ret_inv in Hprint as (-> & _).
  apply bind_ret_inv in Hrun as (description & ? & ? & ? & Hd & Hrun & _).
  apply lift_ret_inv in Hd as (_ & -> & _).
  apply bind_ret_inv in Hrun as (order & ? & ? & ? & Ho & Hrun & _).
  apply lift_ret_inv in Ho as (_ & -> & _).
  apply mret_inv in Hrun as ([= ->] & -> & _).
  exists content, frontmatter, body, middle. subst start.
  cbn [item_name item_type item_html_file item_title].
  split_and!; [done| |done..|].
  - unfold extract_markdown_frontmatter in Hextract |- *.
    destruct (re_match_frontmatter content) as [[y b]|]; [|by injection Hextract as <- <-].
    destruct (yaml_safe_load y); by injection Hextract as <- <-.
  - rewrite lookup_insert_eq. by rewrite string_app_assoc.
Qed.

(** *** The files of a notebook *)

Section NotebookFiles.
Context {L : Library}.

(** Lines 389-416 only add to the file system. *)
Lemma only_adds_add_slides notebook_dir output_dir slide_file complete_nb exercise_nb :
  only_adds (add_slides notebook_dir output_dir slide_file complete_nb exercise_nb).
Proof.
  unfold add_slides.
  apply only_adds_bind; [by intros fs|]. intros c1.
  apply only_adds_bind; [by intros fs|]. intros e1.
  apply only_adds_bind; [by intros fs|]. intros slide.
  apply only_adds_bind; [by intros fs|]. intros at_first.
  apply only_adds_bind; [by intros fs|]. intros found.
  apply only_adds_bind; [|by intros ? fs].
  destruct found; [|by intros fs].
  intros fs. unfold mbind at 1, M_bind at 1, IO.exists_ at 1.
  destruct (IO.path_exists fs (PurePath.join output_dir slide)) eqn:Hdest; [done|].
  unfold mbind at 1, M_bind at 1.
  destruct (IO.mkdir_parents _ fs) as [[[[]|c|e] fs2] out2] eqn:Hmk;
    apply mkdir_parents_adds_dirs in Hmk as [Hsub Hold]; [|done..].
  assert (Hd2 : fs2 !! PurePath.join output_dir slide = None
                \/ fs2 !! PurePath.join output_dir slide = Some Dir).
  { destruct (fs2 !! PurePath.join output_dir slide) as [m|] eqn:Hm; [|by left].
    right. destruct m; [done|..];
      (apply Hold in Hm; [|done]); by rewrite (path_exists_self _ _ _ Hm) in Hdest. }
  unfold mbind, M_bind, IO.copy2, IO.create, IO.print.
  set (source_pdf := if at_first then _ else _).
  destruct (fs2 !! source_pdf) as [[]|]; try done;
    destruct (negb _); try done;
    (destruct Hd2 as [Hd2|Hd2]; rewrite Hd2; [|done]);
    cbn; (etrans; [exact Hsub|]); by apply insert_subseteq.
Qed.

End NotebookFiles.

(** X10: the record of a notebook names files that are there: when
    [process_notebook] returns an item, the exercise file and the answers
    file it names are files of the output directory, and so is the data
    archive, when the item names one. *)
Theorem process_notebook_files_exist `{L : Library}
    notebook_path output_dir config section_slides (fs : FS) info fs' out :
  process_notebook notebook_path output_dir config section_slides fs
  = (Ret (Some info), fs', out) ->
  item_name info = PurePath.stem notebook_path
  /\ (exists exercise_file text,
        item_exercise_file info = Some exercise_file
        /\ fs' !! PurePath.join output_dir exercise_file = Some (File text))
  /\ (exists answers_file text,
        item_answers_file info = Some answers_file
        /\ fs' !! PurePath.join output_dir answers_file = Some (File text))
  /\ (forall data_file,
        item_data_file info = Some data_file ->
        exists members, fs' !! PurePath.join output_dir data_file = Some (Archive members)).
Proof.
  intros Hrun. unfold process_notebook in Hrun.
  apply bind_ret_inv in Hrun as (text & ? & ? & ? & Hread & Hrun & _).
  apply bind_ret_inv in Hrun as (notebook & ? & ? & ? & _ & Hrun & _).
  apply bind_ret_inv in Hrun as (metadata & ? & ? & ? & _ & Hrun & _).
  destruct (negb (truthy metadata)).
  { apply bind_ret_inv in Hrun as (? & ? & ? & ? & _ & Hrun & _).
    by apply mret_inv in Hrun as (? & _). }
  apply bind_ret_inv in Hrun as (own_slides & ? & ? & ? & _ & Hrun & _).
  apply bind_ret_inv in Hrun as (complete_nb & ? & ? & ? & _ & Hrun & _).
  apply bind_ret_inv in Hrun as (cv & ? & ? & ? & _ & Hrun & _).
  apply bind_ret_inv in Hrun as (ev & ? & ? & ? & _ & Hrun & _).
  apply bind_ret_inv in Hrun as (data_files & ? & ? & ? & _ & Hrun & _).
  apply bind_ret_inv in Hrun as ([c1 e1] & fs_setup & ? & ? & Hsetup & Hrun & _).
  set (zip_path := PurePath.join output_dir (PurePath.stem notebook_path +:+ "-data.zip")).
  assert (Hzip : truthy data_files = true ->
                 exists members, fs_setup !! zip_path = Some (Archive members)).
  { intros Hdata. rewrite Hdata in Hsetup. unfold add_setup_cell in Hsetup.
    apply bind_ret_inv in Hsetup as (? & ? & ? & ? & H1 & Hsetup & _).
    apply lift_ret_inv in H1 as (_ & -> & _).
    apply bind_ret_inv in Hsetup as (? & ? & ? & ? & H1 & Hsetup & _).
    apply lift_ret_inv in H1 as (_ & -> & _).
    apply bind_ret_inv in Hsetup as (? & ? & ? & ? & H1 & Hsetup & _).
    apply lift_ret_inv in H1 as (_ & -> & _).
    apply bind_ret_inv in Hsetup as (? & ? & ? & ? & H1 & Hsetup & _).
    apply lift_ret_inv in H1 as (_ & -> & _).
    apply bind_ret_inv in Hsetup as (? & ? & ? & ? & H1 & Hsetup & _).
    apply lift_ret_inv in H1 as (_ & -> & _).
    apply bind_ret_inv in Hsetup as (? & ? & ? & ? & H1 & Hsetup & _).
    apply lift_ret_inv in H1 as (_ & -> & _).
    apply bind_ret_inv in Hsetup as (? & ? & ? & ? & H1 & Hsetup & _).
    apply lift_ret_inv in H1 as (_ & -> & _).
    apply bind_ret_inv in Hsetup as ([] & ? & ? & ? & Hzip & Hsetup & _).
    apply mret_inv in Hsetup as (_ & -> & _).
    apply create_data_zip_inv in Hzip as (? & ? & ? & _ & (members & -> & _) & _).
    exists members. apply lookup_insert_eq. }
  apply bind_ret_inv in Hrun as ([] & fs_mk & ? & ? & Hmk & Hrun & _).
  apply mkdir_parents_adds_dirs in Hmk as [Hsub_mk _].
  apply bind_ret_inv in Hrun as (copied & fs_copy & ? & ? & Hcopy & Hrun & _).
  assert (Hsub_copy : fs_mk ⊆ fs_copy).
  { pose proof (only_adds_find_and_copy_referenced_files
                  c1 (PurePath.parent notebook_path) output_dir fs_mk) as H.
    by rewrite Hcopy in H. }
  apply bind_ret_inv in Hrun as (slide_file & ? & ? & ? & Hsf & Hrun & _).
  apply lift_ret_inv in Hsf as (_ & -> & _).
  apply bind_ret_inv in Hrun as ([c2 e2] & fs_slides & ? & ? & Hslides & Hrun & _).
  assert (Hsub_slides : fs_copy ⊆ fs_slides).
  { destruct (truthy slide_file).
    - pose proof (only_adds_add_slides (PurePath.parent notebook_path) output_dir
                    slide_file c1 e1 fs_copy) as H.
      by rewrite Hslides in H.
    - by apply mret_inv in Hslides as (_ & -> & _). }
  apply bind_ret_inv in Hrun as ([] & fsw1 & ? & ? & Hw1 & Hrun & _).
  apply write_text_inv in Hw1 as (-> & _).
  apply bind_ret_inv in Hrun as ([] & ? & ? & ? & Hp1 & Hrun & _).
  apply print_ret_inv in Hp1 as (-> & _).
  apply bind_ret_inv in Hrun as ([] & fsw2 & ? & ? & Hw2 & Hrun & _).
  apply write_text_inv in Hw2 as (-> & _).
  apply bind_ret_inv in Hrun as ([] & ? & ? & ? & Hp2 & Hrun & _).
  apply print_ret_inv in Hp2 as (-> & _).
  apply bind_ret_inv in Hrun as (? & ? & ? & ? & Hl1 & Hrun & _).
  apply lift_ret_inv in Hl1 as (_ & -> & _).
  apply bind_ret_inv in Hrun as (? & ? & ? & ? & Hl2 & Hrun & _).
  apply lift_ret_inv in Hl2 as (_ & -> & _).
  apply bind_ret_inv in Hrun as (? & ? & ? & ? & Hl3 & Hrun & _).
  apply lift_ret_inv in Hl3 as (_ & -> & _).
  apply bind_ret_inv in Hrun as (? & ? & ? & ? & Hl4 & Hrun & _).
  apply lift_ret_inv in Hl4 as (_ & -> & _).
  apply bind_ret_inv in Hrun as (? & ? & ? & ? & Hl5 & Hrun & _).
  apply lift_ret_inv in Hl5 as (_ & -> & _).
  apply mret_inv in Hrun as ([= ->] & -> & _).
  cbn [item_name item_exercise_file item_answers_file item_data_file].
  assert (Hne : PurePath.join output_dir (PurePath.stem notebook_path +:+ ".ipynb")
                <> PurePath.join output_dir (PurePath.stem notebook_path +:+ "-ANSWERS.ipynb"))
    by apply exercise_answers_paths_differ.
  split_and!; [done| | |].
  - eexists _, _. split; [done|].
    rewrite lookup_insert_ne by (by apply not_eq_sym). apply lookup_insert_eq.
  - eexists _, _. split; [done|]. apply lookup_insert_eq.
  - intros data_file Hdata. destruct (truthy data_files) eqn:Htruthy; [|done].
    injection Hdata as <-. destruct (Hzip eq_refl) as (members & Hmembers).
    exists members. fold zip_path.
    rewrite !lookup_insert_ne.
    + eapply lookup_weaken; [exact Hmembers|]. by repeat (etrans; [eassumption|]).
    + subst zip_path. apply not_eq_sym.
      change ".ipynb" with (String "." "ipynb").
      change "-data.zip" with (String "-" "data.zip").
      apply join_suffix_ne; try done; cbn; lia.
    + subst zip_path. apply not_eq_sym.
      change "-ANSWERS.ipynb" with (String "-" "ANSWERS.ipynb").
      change "-data.zip" with (String "-" "data.zip").
      apply join_suffix_ne; try done; cbn; lia.
Qed.

(** *** The index page *)

(** X25: the index needs the repository: for a configuration without the
    key [github_repo], [create_index] ends with the [KeyError] of line 736
    before it does anything else; nothing is written or printed. *)
Theorem create_index_requires_repo `{L : Library}
    (notebooks : list item) (d : list (string * json)) (output_dir : Path) (fs : FS) :
  Dict.lookup "github_repo" d = None ->
  create_index notebooks (JDict d) output_dir fs = (Raise "KeyError", fs, []).
Proof.
  intros Hnone. unfold create_index, mbind at 1, M_bind at 1, IO.lift at 1.
  unfold py_getitem. by rewrite Hnone.
Qed.

(** X26: the index is written last and carries the title of the workshop:
    when [create_index] returns, [index.html] in the output directory holds
    the page that [markdown_to_html] makes with the configured title (or
    [Workshop]), and the last line printed names that file. *)
Theorem create_index_writes_index `{L : Library}
    (notebooks : list item) (config : json) (output_dir : Path) (fs : FS) u fs' out :
  create_index notebooks config output_dir fs = (Ret u, fs', out) ->
  exists title_v title index_content,
    py_get config "title" (JStr "Workshop") = Ret title_v
    /\ as_str title_v = Ret title
    /\ fs' !! PurePath.join output_dir "index.html"
       = Some (File (markdown_to_html index_content title))
    /\ List.last out ""
       = "‚úì Created " +:+ PurePath.to_string (PurePath.join output_dir "index.html").
Proof.
  intros Hrun. unfold create_index in Hrun.
  apply bind_ret_inv in Hrun as (github_repo & ? & ? & ? & _ & Hrun & ->).
  apply bind_ret_inv in Hrun as (github_branch & ? & ? & ? & _ & Hrun & ->).
  apply bind_ret_inv in Hrun as (output_dir_name & ? & ? & ? & _ & Hrun & ->).
  apply bind_ret_inv in Hrun as (cfgs_v & ? & ? & ? & _ & Hrun & ->).
  apply bind_ret_inv in Hrun as (cfgs & ? & ? & ? & _ & Hrun & ->).
  apply bind_ret_inv in Hrun as (section_configs & ? & ? & ? & _ & Hrun & ->).
  apply bind_ret_inv in Hrun as (sections & ? & ? & ? & _ & Hrun & ->).
  apply bind_ret_inv in Hrun as (section_order & ? & ? & ? & _ & Hrun & ->).
  apply bind_ret_inv in Hrun as (notebooks_md & fs_md & ? & ? & _ & Hrun & ->).
  apply bind_ret_inv in Hrun as (template_v & ? & ? & ? & H1 & Hrun & ->).
  apply lift_ret_inv in H1 as (_ & -> & _).
  apply bind_ret_inv in Hrun as (template & ? & ? & ? & H1 & Hrun & ->).
  apply lift_ret_inv in H1 as (_ & -> & _).
  apply bind_ret_inv in Hrun as (title_v & ? & ? & ? & H1 & Hrun & ->).
  apply lift_ret_inv in H1 as (Htitle_v & -> & _).
  apply bind_ret_inv in Hrun as (title & ? & ? & ? & H1 & Hrun & ->).
  apply lift_ret_inv in H1 as (Htitle & -> & _).
  apply bind_ret_inv in Hrun as (description_v & ? & ? & ? & H1 & Hrun & ->).
  apply lift_ret_inv in H1 as (_ & -> & _).
  apply bind_ret_inv in Hrun as (description & ? & ? & ? & H1 & Hrun & ->).
  apply lift_ret_inv in H1 as (_ & -> & _).
  apply bind_ret_inv in Hrun as (author_v & ? & ? & ? & H1 & Hrun & ->).
  apply lift_ret_inv in H1 as (_ & -> & _).
  apply bind_ret_inv in Hrun as (author & ? & ? & ? & H1 & Hrun & ->).
  apply lift_ret_inv in H1 as (_ & -> & _).
  apply bind_ret_inv in Hrun as (organization_v & ? & ? & ? & H1 & Hrun & ->).
  apply lift_ret_inv in H1 as (_ & -> & _).
  apply bind_ret_inv in Hrun as (organization & ? & ? & ? & H1 & Hrun & ->).
  apply lift_ret_inv in H1 as (_ & -> & _).
  apply bind_ret_inv in Hrun as ([] & fs_w & ? & ? & Hwrite & Hrun & ->).
  apply write_text_inv in Hwrite as (-> & _).
  apply print_ret_inv in Hrun as (-> & ->).
  eexists title_v, title, _. split_and!; [done|done|apply lookup_insert_eq|].
  rewrite !app_assoc. apply List.last_last.
Qed.

Lemma notebook_example_returns :
  NotebookExamples.run
  = (Ret (Some NotebookExamples.info), final_fs NotebookExamples.run,
     stdout NotebookExamples.run).
Proof. apply run_eta. vm_compute. reflexivity. Qed.

Lemma process_notebook_solution_cells_witness :
  exists text notebook complete_nb exercise_nb (place : nat -> nat),
    NotebookExamples.fs !! NotebookExamples.notebook_path = Some (File text)
    /\ @json_load NotebookExamples.lib text = Some notebook
    /\ final_fs NotebookExamples.run
         !! exercise_path NotebookExamples.notebook_path NotebookExamples.output_dir
       = Some (File (@json_dump NotebookExamples.lib exercise_nb))
    /\ final_fs NotebookExamples.run
         !! answers_path NotebookExamples.notebook_path NotebookExamples.output_dir
       = Some (File (@json_dump NotebookExamples.lib complete_nb))
    /\ (forall i j, i < j -> place i < place j)
    /\ forall cells,
         py_getitem notebook "cells" = Ret (JList cells) ->
         exists answers_cells exercise_cells,
           py_getitem complete_nb "cells" = Ret (JList answers_cells)
           /\ py_getitem exercise_nb "cells" = Ret (JList exercise_cells)
           /\ forall i cell,
                cells !! i = Some cell ->
                tagged_solution cell ->
                answers_cells !! place i = Some cell
                /\ exercise_cells !! place i = Some empty_cell.
Proof.
  exact (process_notebook_solution_cells (L := NotebookExamples.lib)
           _ _ _ _ _ _ _ _ notebook_example_returns).
Defined.

(** In that run the solution is the fourth cell of both versions: the
    slide link and the setup cell come before it. *)
Example process_notebook_example :
  exists setup_cell slide_cell metadata,
    final_fs NotebookExamples.run
      !! answers_path NotebookExamples.notebook_path NotebookExamples.output_dir
    = Some (File (Demo.dump
              (JDict [ ("cells", JList [ slide_cell; NotebookExamples.lesson; setup_cell;
                                         NotebookExamples.solution ]);
                       ("metadata", metadata) ])))
    /\ final_fs NotebookExamples.run
         !! exercise_path NotebookExamples.notebook_path NotebookExamples.output_dir
       = Some (File (Demo.dump
                 (JDict [ ("cells", JList [ slide_cell; NotebookExamples.lesson; setup_cell;
                                            empty_cell ]);
                          ("metadata", metadata) ]))).
Proof.
  destruct (create_setup_cell (L := NotebookExamples.lib) "tables-data.zip" default_config
              (JStr "pandas natural_pdf tqdm") JNull) as [setup_cell| |] eqn:Hsetup;
    [|by vm_compute in Hsetup..].
  exists setup_cell.
  vm_compute in Hsetup. injection Hsetup as <-.
  exists (JDict [ ("cell_type", JStr "markdown");
                  ("metadata", JDict []);
                  ("source", JList [JStr "**Slides:** [tables.pdf](./tables.pdf)"]) ]),
         (JDict [ ("kernelspec", JDict [ ("name", JStr "python3");
                                         ("language", JStr "python");
                                         ("display_name", JStr "Python 3") ]);
                  ("workshop", JDict [ ("title", JStr "Tables");
                                       ("data_files", JList [JStr "a.csv"]);
                                       ("slides", JStr "tables.pdf") ]) ]).
  split; vm_compute; reflexivity.
Qed.

(** C2 as the specification words it fails for every solution cell: the
    cell of the exercise version is the fixed empty cell, which has no
    tags, so the metadata of the two cells differ too. *)
Lemma process_notebook_solution_metadata_counterexample :
  let r := NotebookExamples.plain_run in
  final_fs r !! answers_path NotebookExamples.plain_path NotebookExamples.output_dir
  = Some (File (Demo.dump NotebookExamples.plain_answers))
  /\ final_fs r !! exercise_path NotebookExamples.plain_path NotebookExamples.output_dir
     = Some (File (Demo.dump NotebookExamples.plain_exercise))
  /\ py_getitem NotebookExamples.plain_answers "cells"
     = Ret (JList [NotebookExamples.lesson; NotebookExamples.solution])
  /\ py_getitem NotebookExamples.plain_exercise "cells"
     = Ret (JList [NotebookExamples.lesson; empty_cell])
  /\ tagged_solution NotebookExamples.solution
  /\ ~ differ_only_in_content NotebookExamples.solution empty_cell.
Proof.
  cbv zeta. split_and!.
  - vm_compute. reflexivity.
  - vm_compute. reflexivity.
  - reflexivity.
  - reflexivity.
  - exists (JDict [("tags", JList [JStr "solution"])]), [JStr "solution"].
    split_and!; [reflexivity..|by left].
  - intros [_ Hmd]. vm_compute in Hmd. discriminate Hmd.
Qed.

Lemma process_notebook_versions_differ_in_solutions_witness :
  exists text notebook complete_nb exercise_nb,
    NotebookExamples.fs !! NotebookExamples.notebook_path = Some (File text)
    /\ @json_load NotebookExamples.lib text = Some notebook
    /\ final_fs NotebookExamples.run
         !! exercise_path NotebookExamples.notebook_path NotebookExamples.output_dir
       = Some (File (@json_dump NotebookExamples.lib exercise_nb))
    /\ final_fs NotebookExamples.run
         !! answers_path NotebookExamples.notebook_path NotebookExamples.output_dir
       = Some (File (@json_dump NotebookExamples.lib complete_nb))
    /\ forall cells,
         py_getitem notebook "cells" = Ret (JList cells) ->
         exists answers_cells exercise_cells,
           py_getitem complete_nb "cells" = Ret (JList answers_cells)
           /\ exercise_nb = set_item complete_nb "cells" (JList exercise_cells)
           /\ length exercise_cells = length answers_cells
           /\ forall j a,
                answers_cells !! j = Some a ->
                exists sol,
                  is_solution_cell a = Ret sol
                  /\ exercise_cells !! j = Some (if (sol : bool) then empty_cell else a).
Proof.
  exact (process_notebook_versions_differ_in_solutions (L := NotebookExamples.lib)
           _ _ _ _ _ _ _ _ notebook_example_returns).
Defined.

Lemma process_notebook_kernelspec_witness :
  exists complete_nb exercise_nb,
    final_fs NotebookExamples.run
      !! exercise_path NotebookExamples.notebook_path NotebookExamples.output_dir
    = Some (File (@json_dump NotebookExamples.lib exercise_nb))
    /\ final_fs NotebookExamples.run
         !! answers_path NotebookExamples.notebook_path NotebookExamples.output_dir
       = Some (File (@json_dump NotebookExamples.lib complete_nb))
    /\ has_python3_kernel exercise_nb
    /\ has_python3_kernel complete_nb.
Proof.
  exact (process_notebook_kernelspec (L := NotebookExamples.lib)
           _ _ _ _ _ _ _ _ notebook_example_returns).
Defined.


(** The first run publishes the notebook and the index; so does the
    second, after it has cleaned up. *)
Example main_rerun_example :
  outcome WorkshopExamples.first_run = Ret tt
  /\ List.map (fun kv => PurePath.to_string kv.1)
              (map_to_list (filter (fun kv => PurePath.is_under WorkshopExamples.output_dir
                                                                 kv.1 = true)
                                   WorkshopExamples.published))
     = ["docs"; "docs/index.html"; "docs/plain.ipynb"; "docs/plain-ANSWERS.ipynb"]
  /\ stdout (main (L := WorkshopExamples.lib) WorkshopExamples.published)
     = "‚úì Cleaned up old docs/ directory" :: stdout WorkshopExamples.first_run.
Proof. split_and!; vm_compute; reflexivity. Qed.



(** That run says where it looked. *)
Example script_missing_slide_example :
  stdout (script (L := ExitExamples.lib) ExitExamples.fs_missing_slide)
  = [ Py.nl +:+ "Processing intro/tables.ipynb";
      slide_not_found "nowhere.pdf";
      "   Looked in: intro/nowhere.pdf";
      "   Also tried: nowhere.pdf" ].
Proof. vm_compute. reflexivity. Qed.

(** ** The further properties on concrete inputs *)

Lemma group_by_section_partition_witness :
  grouped [ Demo.entry "a" (JStr "intro") JNull;
            Demo.entry "b" (JStr "files") JNull;
            Demo.entry "c" (JStr "intro") JNull ]
          [ (JStr "intro", [Demo.entry "a" (JStr "intro") JNull;
                            Demo.entry "c" (JStr "intro") JNull]);
            (JStr "files", [Demo.entry "b" (JStr "files") JNull]) ].
Proof. apply group_by_section_partition. reflexivity. Defined.

Lemma strip_solutions_idempotent_witness :
  strip_solutions (JList [NotebookExamples.lesson; empty_cell])
  = Ret (JList [NotebookExamples.lesson; empty_cell]).
Proof.
  apply (strip_solutions_idempotent
           (JList [NotebookExamples.lesson; NotebookExamples.solution])).
  reflexivity.
Defined.

Lemma find_insert_pos_first_markdown_witness :
  let cells := [NotebookExamples.solution; NotebookExamples.lesson; NotebookExamples.solution] in
  (2 = 0
   /\ Forall (fun cell => exists ty, py_getitem cell "cell_type" = Ret ty
                                     /\ eq_str ty "markdown" = false) cells)
  \/ (exists cell ty,
        0 < 2
        /\ cells !! (2 - 1) = Some cell
        /\ py_getitem cell "cell_type" = Ret ty
        /\ eq_str ty "markdown" = true
        /\ Forall (fun cell => exists ty, py_getitem cell "cell_type" = Ret ty
                                          /\ eq_str ty "markdown" = false)
                  (take (2 - 1) cells)).
Proof. cbv zeta. apply find_insert_pos_first_markdown. reflexivity. Defined.

Lemma set_kernelspec_keeps_the_rest_witness :
  let nb := NotebookExamples.notebook in
  let nb' :=
    JDict [ ("cells", JList [NotebookExamples.lesson; NotebookExamples.solution]);
            ("metadata",
             JDict [ ("kernelspec", JDict [ ("name", JStr "python3");
                                            ("language", JStr "python");
                                            ("display_name", JStr "Python 3") ]);
                     ("workshop", JDict [ ("title", JStr "Tables");
                                          ("data_files", JList [JStr "a.csv"]);
                                          ("slides", JStr "tables.pdf") ]) ]) ] in
  (forall k, k <> "metadata" -> py_getitem nb' k = py_getitem nb k)
  /\ exists md md' ks ks',
       py_get nb "metadata" (JDict []) = Ret md
       /\ py_getitem nb' "metadata" = Ret md'
       /\ (forall k, k <> "kernelspec" -> py_getitem md' k = py_getitem md k)
       /\ py_get md "kernelspec" (JDict []) = Ret ks
       /\ py_getitem md' "kernelspec" = Ret ks'
       /\ (forall k, k <> "name" -> k <> "display_name" -> k <> "language" ->
                     py_getitem ks' k = py_getitem ks k).
Proof. cbv zeta. apply set_kernelspec_keeps_the_rest. reflexivity. Defined.

Lemma create_data_zip_changes_the_archive_only_witness :
  let r := ArchiveExamples.run ["data/a.csv"; "data/missing.csv"] in
  exists members,
    final_fs r = <[ArchiveExamples.zip_path := Archive members]> ArchiveExamples.fs
    /\ List.last (stdout r) ""
       = "‚úì Created " +:+ PurePath.name ArchiveExamples.zip_path +:+ " with "
           +:+ string_of_nat (List.length members) +:+ " files".
Proof.
  cbv zeta.
  apply (create_data_zip_changes_the_archive_only (L := ArchiveExamples.lib)
           (JList (JStr <$> ["data/a.csv"; "data/missing.csv"]))
           ArchiveExamples.zip_path ArchiveExamples.base_dir ArchiveExamples.fs tt).
  apply run_eta. vm_compute. reflexivity.
Defined.


Lemma process_section_missing_folder_witness :
  process_section (L := WorkshopExamples.lib) WorkshopExamples.output_dir
                  WorkshopExamples.config [] (JStr "appendix") WorkshopExamples.fs
  = (Ret [], WorkshopExamples.fs, ["Warning: Section folder 'appendix' not found"]).
Proof.
  apply (process_section_missing_folder (L := WorkshopExamples.lib)
           WorkshopExamples.output_dir WorkshopExamples.config [] (JStr "appendix")
           (JStr "appendix") WorkshopExamples.fs).
  - reflexivity.
  - right. exists "appendix". split; [reflexivity|]. vm_compute. reflexivity.
Defined.

Lemma main_without_sections_witness :
  outcome (main (L := EmptyExamples.lib) EmptyExamples.fs) = Ret tt
  /\ final_fs (main (L := EmptyExamples.lib) EmptyExamples.fs)
     = <[PurePath.of_string "docs" := Dir]>
         (inputs (PurePath.of_string "docs") EmptyExamples.fs)
  /\ List.last (stdout (main (L := EmptyExamples.lib) EmptyExamples.fs)) ""
     = "Warning: No sections defined in workshop-config.yaml".
Proof.
  apply (main_without_sections (L := EmptyExamples.lib) EmptyExamples.fs
           EmptyExamples.config (JStr "docs") "docs" (JList [])).
  - vm_compute. reflexivity.
  - reflexivity.
  - reflexivity.
  - reflexivity.
  - reflexivity.
  - intros n Hn. vm_compute in Hn. by injection Hn as <-.
  - vm_compute. reflexivity.
Defined.

Lemma process_section_extends_witness :
  let section := JDict [("folder", JStr "intro"); ("title", JStr "Introduction")] in
  let r := process_section (L := WorkshopExamples.lib) WorkshopExamples.output_dir
                           WorkshopExamples.config [] section WorkshopExamples.fs in
  exists items' folder title,
    outcome r = Ret items'
    /\ (py_get section "folder" JNull = Ret folder /\ py_get section "title" folder = Ret title)
    /\ extended_by_section title folder [] items'.
Proof.
  cbv zeta.
  assert (Hret : exists items',
             outcome (process_section (L := WorkshopExamples.lib) WorkshopExamples.output_dir
                        WorkshopExamples.config []
                        (JDict [("folder", JStr "intro"); ("title", JStr "Introduction")])
                        WorkshopExamples.fs) = Ret items')
    by (vm_compute; eexists; reflexivity).
  destruct Hret as [items' Hret].
  destruct (process_section_extends (L := WorkshopExamples.lib) _ _ _ _ _ _ _ _
              (run_eta _ _ Hret))
    as (folder & title & Hsection & Hextended).
  exists items', folder, title.
  split; [exact Hret|]. split; [exact Hsection|exact Hextended].
Defined.

Lemma process_markdown_skips_without_frontmatter_witness :
  let r := process_markdown (L := MarkdownExamples.lib) MarkdownExamples.notes_path
                            MarkdownExamples.output_dir default_config JNull
                            MarkdownExamples.fs in
  outcome r = Ret None
  /\ final_fs r = MarkdownExamples.fs
  /\ List.last (stdout r) "" = "Skipping intro/notes.md - no frontmatter".
Proof.
  cbv zeta.
  apply (process_markdown_skips_without_frontmatter (L := MarkdownExamples.lib)
           MarkdownExamples.notes_path MarkdownExamples.output_dir default_config JNull
           MarkdownExamples.fs MarkdownExamples.notes).
  - vm_compute. reflexivity.
  - vm_compute. reflexivity.
Defined.

Lemma markdown_example_returns :
  MarkdownExamples.run
  = (Ret (Some MarkdownExamples.info),
     final_fs MarkdownExamples.run, stdout MarkdownExamples.run).
Proof. apply run_eta. vm_compute. reflexivity. Qed.

Lemma process_markdown_page_witness :
  exists content frontmatter body middle,
    MarkdownExamples.fs !! MarkdownExamples.guide_path = Some (File content)
    /\ outcome (extract_markdown_frontmatter (L := MarkdownExamples.lib) content
                  MarkdownExamples.fs)
       = Ret (frontmatter, body)
    /\ PurePath.stem MarkdownExamples.guide_path = "guide"
    /\ final_fs MarkdownExamples.run !! PurePath.of_string "docs/intro/guide.html"
       = Some (File (markdown_to_html (L := MarkdownExamples.lib)
                       (("# Guide" +:+ Py.nl +:+ Py.nl) +:+ middle +:+ body) "Guide")).
Proof.
  destruct (process_markdown_page (L := MarkdownExamples.lib)
              MarkdownExamples.guide_path MarkdownExamples.output_dir default_config JNull
              MarkdownExamples.fs MarkdownExamples.info _ _ markdown_example_returns)
    as (content & frontmatter & body & middle & Hfile & Hfront & Hname & _ & _ & Hpage).
  exists content, frontmatter, body, middle.
  split; [exact Hfile|]. split; [exact Hfront|]. split; [reflexivity|exact Hpage].
Defined.

Lemma process_notebook_files_exist_witness :
  (exists text,
     final_fs NotebookExamples.run !! PurePath.of_string "docs/intro/tables.ipynb"
     = Some (File text))
  /\ (exists text,
        final_fs NotebookExamples.run !! PurePath.of_string "docs/intro/tables-ANSWERS.ipynb"
        = Some (File text))
  /\ exists members,
       final_fs NotebookExamples.run !! PurePath.of_string "docs/intro/tables-data.zip"
       = Some (Archive members).
Proof.
  destruct (process_notebook_files_exist (L := NotebookExamples.lib) _ _ _ _ _ _ _ _
              notebook_example_returns)
    as (_ & (exercise_file & text1 & [= <-] & Hexercise)
          & (answers_file & text2 & [= <-] & Hanswers) & Hdata).
  split_and!; [by exists text1|by exists text2|].
  exact (Hdata "tables-data.zip" eq_refl).
Defined.



Lemma process_notebook_skips_witness :
  process_notebook (L := ExitExamples.lib) (PurePath.of_string "intro/bare.ipynb")
                   (PurePath.of_string "docs") ExitExamples.config_plain JNull
                   ExitExamples.fs_skipped
  = (Ret None, ExitExamples.fs_skipped,
     ["Skipping intro/bare.ipynb - no workshop metadata"]).
Proof.
  apply (process_notebook_skips (L := ExitExamples.lib)
           (PurePath.of_string "intro/bare.ipynb") (PurePath.of_string "docs")
           ExitExamples.config_plain JNull ExitExamples.fs_skipped
           (Demo.dump ExitExamples.bare) ExitExamples.bare (JDict [])).
  - vm_compute. reflexivity.
  - vm_compute. reflexivity.
  - reflexivity.
  - reflexivity.
Defined.

Lemma create_slide_thumbnail_without_tools_witness :
  create_slide_thumbnail (L := NotebookExamples.lib) (PurePath.of_string "intro/tables.pdf")
                         NotebookExamples.output_dir NotebookExamples.fs
  = (Ret None, NotebookExamples.fs,
     ["  ‚ö† Could not create thumbnail for tables.pdf (install ImageMagick or poppler-utils)"]).
Proof.
  apply (create_slide_thumbnail_without_tools (L := NotebookExamples.lib)).
  - vm_compute. reflexivity.
  - reflexivity.
  - reflexivity.
Defined.

Lemma section_order_of_dicts_witness :
  let cfgs := [ JDict [("folder", JStr "intro"); ("title", JStr "Introduction")];
                JDict [("folder", JStr "files")] ] in
  let sections := [ (JStr "files", [Demo.entry "b" (JStr "files") JNull]);
                    (JStr "appendix", [Demo.entry "z" (JStr "appendix") JNull]);
                    (JStr "Introduction", [Demo.entry "a" (JStr "Introduction") JNull]) ] in
  exists sorted_keys,
    Permutation ["files"; "appendix"; "Introduction"] sorted_keys
    /\ StronglySorted (not_after String.ltb) sorted_keys
    /\ section_order_of cfgs sections
       = Ret (JStr <$> (List.filter (fun t => bool_decide (t ∈ ["files"; "appendix";
                                                                 "Introduction"]))
                                    ["Introduction"; "files"]
                        ++ List.filter (fun k => bool_decide (k ∉ ["Introduction"; "files"]))
                                       sorted_keys)).
Proof.
  cbv zeta. apply section_order_of_dicts.
  - repeat constructor.
  - reflexivity.
  - compute_done.
Defined.

Lemma script_without_markdown_witness :
  outcome (script (L := EmptyExamples.lib_without_markdown) EmptyExamples.fs)
  = outcome (main (L := EmptyExamples.lib_without_markdown) EmptyExamples.fs)
  /\ final_fs (script (L := EmptyExamples.lib_without_markdown) EmptyExamples.fs)
     = final_fs (main (L := EmptyExamples.lib_without_markdown) EmptyExamples.fs)
  /\ stdout (script (L := EmptyExamples.lib_without_markdown) EmptyExamples.fs)
     = "Warning: 'markdown' package not installed. Install with: pip install markdown"
       :: stdout (main (L := EmptyExamples.lib_without_markdown) EmptyExamples.fs).
Proof.
  apply (script_without_markdown (L := EmptyExamples.lib_without_markdown)). reflexivity.
Defined.

Lemma main_without_config_witness :
  outcome (main (L := EmptyExamples.lib) EmptyExamples.fs_without_config) = Ret tt
  /\ final_fs (main (L := EmptyExamples.lib) EmptyExamples.fs_without_config)
     = <[PurePath.of_string "docs" := Dir]>
         (inputs (PurePath.of_string "docs") EmptyExamples.fs_without_config)
  /\ List.hd "" (stdout (main (L := EmptyExamples.lib) EmptyExamples.fs_without_config))
     = "Warning: workshop-config.yaml not found, using defaults"
  /\ List.last (stdout (main (L := EmptyExamples.lib) EmptyExamples.fs_without_config)) ""
     = "Warning: No sections defined in workshop-config.yaml".
Proof.
  apply (main_without_config (L := EmptyExamples.lib) EmptyExamples.fs_without_config).
  - vm_compute. reflexivity.
  - intros n Hn. vm_compute in Hn. discriminate Hn.
  - vm_compute. reflexivity.
Defined.

Lemma create_index_requires_repo_witness :
  create_index (L := ExitExamples.lib) [Demo.entry "plain" (JStr "intro") JNull]
               ExitExamples.config_without_repo (PurePath.of_string "docs")
               ExitExamples.fs_without_repo
  = (Raise "KeyError", ExitExamples.fs_without_repo, []).
Proof.
  apply (create_index_requires_repo (L := ExitExamples.lib)
           [Demo.entry "plain" (JStr "intro") JNull]
           [("title", JStr "Natural PDF"); ("sections", JList [JDict [("folder", JStr "intro")]])]).
  reflexivity.
Defined.

Lemma create_index_writes_index_witness :
  let r := create_index (L := WorkshopExamples.lib)
                        [Demo.entry "plain" (JStr "Introduction") JNull]
                        WorkshopExamples.config WorkshopExamples.output_dir
                        WorkshopExamples.published in
  exists index_content,
    final_fs r !! PurePath.of_string "docs/index.html"
    = Some (File (markdown_to_html (L := WorkshopExamples.lib) index_content "Natural PDF"))
    /\ List.last (stdout r) "" = "‚úì Created docs/index.html".
Proof.
  cbv zeta.
  assert (Hret : outcome (create_index (L := WorkshopExamples.lib)
                            [Demo.entry "plain" (JStr "Introduction") JNull]
                            WorkshopExamples.config WorkshopExamples.output_dir
                            WorkshopExamples.published) = Ret tt)
    by (vm_compute; reflexivity).
  destruct (create_index_writes_index (L := WorkshopExamples.lib) _ _ _ _ _ _ _
              (run_eta _ _ Hret))
    as (title_v & title & index_content & Htitle_v & Htitle & Hfile & Hlast).
  injection Htitle_v as <-. injection Htitle as <-.
  exists index_content. split; [exact Hfile|exact Hlast].
Defined.

Lemma anchor_of_chars_witness :
  Forall (fun c => is_ascii c = true
                   /\ Ascii.eqb c " " = false
                   /\ Py.lower_char c = c
                   /\ Py.is_word c || Py.is_space c || Ascii.eqb c "-" = true)
         (list_ascii_of_string (anchor_of "Getting Started: PDFs & Tables")).
Proof. apply anchor_of_chars. unfold ascii_text. vm_compute. repeat constructor. Defined.

(** The anchor of that header. *)
Example anchor_of_example :
  anchor_of "Getting Started: PDFs & Tables" = "getting-started-pdfs--tables".
Proof. vm_compute. reflexivity. Qed.
